(** * ezcb: a named-trigger callback dispatcher (ezcb.h)

    A shallow embedding of the implementation part of [ezcb.h] and the
    properties of its registry and of its deferred (ISR) queue.

    Conventions of the embedding:
    - the build switches [EZCB_NO_MALLOC] and [EZCB_ENABLE_ISR] and the
      configuration constants are the fields of [ezcb_config]; an [#ifdef]
      of the source is an [if] on the switch.  [EZCB_THREAD_SAFE] is left
      undefined, as in the header: the mutex macros expand to nothing
      (what the functions do to the mutex when it is defined is described
      apart, as the sequence of the macros that a run reaches);
    - a bucket chain (nodes linked through [next]) is the list of its nodes,
      head first; the bucket array is a list of chains;
    - [size_t] is 64 bits wide, [uint32_t] and [uint8_t] are written out
      with their wrap-around;
    - a pointer is an integer, [NULL] is 0; a C string is the [string] of
      the bytes before its terminator, so [strcmp] yields 0 exactly on
      equal strings and [strlen] is the length;
    - a callback may do anything to the caller's own data: it is a state
      transformer on a type [W] of the caller's choosing, found through
      the function pointer; it does not re-enter the registry;
    - [malloc] and [calloc] may fail: the operations that allocate take
      the results of the allocator as an argument ([heap]).  [strdup] is
      taken to succeed (the source does not test its result);
    - the array [ezcb_table] has [ezcb_buckets] entries, so a loop over
      [i < ezcb_buckets] is a fold over the list of chains; a read through
      a null [ezcb_table] has no result ([None]);
    - an [int] result is -1, 0 or a number of nodes, and a priority is a
      [uint8_t] that is only stored and compared: neither is wrapped. *)

From Stdlib Require Import ZArith Lia Ascii String.
From stdpp Require Import base list list_numbers strings sorting.

Local Open Scope Z_scope.

(** ** Configuration *)

Record ezcb_config := {
  EZCB_NO_MALLOC : bool;
  EZCB_ENABLE_ISR : bool;
  EZCB_MAX_BUCKETS : Z;
  EZCB_MAX_NODES : Z;
  EZCB_MAX_TRIGGER_LENGTH : Z;
  EZCB_EVENT_QUEUE_SIZE : Z
}.

(** The header's defaults ([EZCB_NO_MALLOC] commented out). *)
Definition default_config : ezcb_config := {|
  EZCB_NO_MALLOC := false;
  EZCB_ENABLE_ISR := true;
  EZCB_MAX_BUCKETS := 32;
  EZCB_MAX_NODES := 64;
  EZCB_MAX_TRIGGER_LENGTH := 32;
  EZCB_EVENT_QUEUE_SIZE := 16
|}.

(** The same with [EZCB_NO_MALLOC] defined. *)
Definition static_config : ezcb_config := {|
  EZCB_NO_MALLOC := true;
  EZCB_ENABLE_ISR := true;
  EZCB_MAX_BUCKETS := 32;
  EZCB_MAX_NODES := 64;
  EZCB_MAX_TRIGGER_LENGTH := 32;
  EZCB_EVENT_QUEUE_SIZE := 16
|}.

(** ** Machine integers and pointers *)

Definition NULL : Z := 0.

Definition size_t (z : Z) : Z := z mod 2 ^ 64.
Definition uint32_t (z : Z) : Z := z mod 2 ^ 32.
Definition uint8_t (z : Z) : Z := z mod 2 ^ 8.

Definition strlen (s : string) : Z := Z.of_nat (String.length s).

Definition strcmp (a b : string) : Z :=
  match String.compare a b with
  | Eq => 0
  | Lt => -1
  | Gt => 1
  end.

(** ** Callbacks and nodes *)

Inductive ezcb_result_t := EZCB_CONTINUE | EZCB_STOP.

Definition is_stop (r : ezcb_result_t) : bool :=
  match r with EZCB_STOP => true | EZCB_CONTINUE => false end.

(** [struct ezcb_node] without its [next] link.  [node_addr] is the address
    of the node: its index in [ezcb_nodes] under [EZCB_NO_MALLOC], the
    result of [malloc] otherwise. *)
Record ezcb_node := {
  node_addr : Z;
  node_trigger : string;
  node_priority : Z;
  node_once : bool;
  node_fn : Z;
  node_ctx : Z
}.

Record ezcb_evt := {
  evt_trigger : string;
  evt_data : Z
}.

#[global] Instance ezcb_evt_inhabited : Inhabited ezcb_evt :=
  populate {| evt_trigger := EmptyString; evt_data := NULL |}.

(** ** The state: the static variables of the implementation *)

Record ezcb_state := {
  ezcb_table : option (list (list ezcb_node));
  ezcb_buckets : Z;
  ezcb_count : Z;
  ezcb_free_list : list Z;
  ezcb_evt_head : Z;
  ezcb_evt_tail : Z;
  ezcb_evt_queue : list ezcb_evt
}.

Definition set_table (t : option (list (list ezcb_node))) (st : ezcb_state) :=
  {| ezcb_table := t; ezcb_buckets := ezcb_buckets st;
     ezcb_count := ezcb_count st; ezcb_free_list := ezcb_free_list st;
     ezcb_evt_head := ezcb_evt_head st; ezcb_evt_tail := ezcb_evt_tail st;
     ezcb_evt_queue := ezcb_evt_queue st |}.

Definition set_buckets (b : Z) (st : ezcb_state) :=
  {| ezcb_table := ezcb_table st; ezcb_buckets := b;
     ezcb_count := ezcb_count st; ezcb_free_list := ezcb_free_list st;
     ezcb_evt_head := ezcb_evt_head st; ezcb_evt_tail := ezcb_evt_tail st;
     ezcb_evt_queue := ezcb_evt_queue st |}.

Definition set_count (c : Z) (st : ezcb_state) :=
  {| ezcb_table := ezcb_table st; ezcb_buckets := ezcb_buckets st;
     ezcb_count := c; ezcb_free_list := ezcb_free_list st;
     ezcb_evt_head := ezcb_evt_head st; ezcb_evt_tail := ezcb_evt_tail st;
     ezcb_evt_queue := ezcb_evt_queue st |}.

Definition set_free_list (fl : list Z) (st : ezcb_state) :=
  {| ezcb_table := ezcb_table st; ezcb_buckets := ezcb_buckets st;
     ezcb_count := ezcb_count st; ezcb_free_list := fl;
     ezcb_evt_head := ezcb_evt_head st; ezcb_evt_tail := ezcb_evt_tail st;
     ezcb_evt_queue := ezcb_evt_queue st |}.

Definition set_evt_head (h : Z) (st : ezcb_state) :=
  {| ezcb_table := ezcb_table st; ezcb_buckets := ezcb_buckets st;
     ezcb_count := ezcb_count st; ezcb_free_list := ezcb_free_list st;
     ezcb_evt_head := h; ezcb_evt_tail := ezcb_evt_tail st;
     ezcb_evt_queue := ezcb_evt_queue st |}.

Definition set_evt_tail (t : Z) (st : ezcb_state) :=
  {| ezcb_table := ezcb_table st; ezcb_buckets := ezcb_buckets st;
     ezcb_count := ezcb_count st; ezcb_free_list := ezcb_free_list st;
     ezcb_evt_head := ezcb_evt_head st; ezcb_evt_tail := t;
     ezcb_evt_queue := ezcb_evt_queue st |}.

Definition set_evt_queue (q : list ezcb_evt) (st : ezcb_state) :=
  {| ezcb_table := ezcb_table st; ezcb_buckets := ezcb_buckets st;
     ezcb_count := ezcb_count st; ezcb_free_list := ezcb_free_list st;
     ezcb_evt_head := ezcb_evt_head st; ezcb_evt_tail := ezcb_evt_tail st;
     ezcb_evt_queue := q |}.

(** The state at program start: every static variable is zero. *)
Definition initial_state (cfg : ezcb_config) : ezcb_state := {|
  ezcb_table := None;
  ezcb_buckets := 0;
  ezcb_count := 0;
  ezcb_free_list := [];
  ezcb_evt_head := 0;
  ezcb_evt_tail := 0;
  ezcb_evt_queue := replicate (Z.to_nat (EZCB_EVENT_QUEUE_SIZE cfg)) inhabitant
|}.

(** What the allocator answers during one call of the library. *)
Record heap := {
  calloc_init : bool;         (* [calloc] of ezcb_init gives a table *)
  calloc_resize : bool;       (* [calloc] of ezcb_resize gives a table *)
  malloc_node : option Z      (* [malloc] of ezcb_node_alloc *)
}.

(** ** Hash *)

Fixpoint ezcb_hash_loop (s : string) (h : Z) : Z :=
  match s with
  | EmptyString => h
  | String c s' =>
      ezcb_hash_loop s'
        (Z.lxor (uint32_t (Z.shiftl h 5 + h)) (Z.of_nat (nat_of_ascii c)))
  end.

Definition ezcb_hash (s : string) : Z := ezcb_hash_loop s 5381.

(** [ezcb_hash(trigger) % buckets], the index of a trigger's bucket. *)
Definition bucket_of (trigger : string) (buckets : Z) : nat :=
  Z.to_nat (uint32_t (ezcb_hash trigger mod buckets)).

Section Registry.

Variable cfg : ezcb_config.

(** ** Allocation *)

Definition ezcb_node_alloc (h : heap) (st : ezcb_state) : option Z * ezcb_state :=
  if EZCB_NO_MALLOC cfg then
    match ezcb_free_list st with
    | [] => (None, st)
    | n :: next => (Some n, set_free_list next st)
    end
  else (malloc_node h, st).

Definition ezcb_node_free (n : ezcb_node) (st : ezcb_state) : ezcb_state :=
  if EZCB_NO_MALLOC cfg then set_free_list (node_addr n :: ezcb_free_list st) st
  else st.

(** ** Resize *)

(** [n->next = new_table[idx]; new_table[idx] = n]. *)
Definition rehash_node (new_size : Z) (new_table : list (list ezcb_node))
    (n : ezcb_node) : list (list ezcb_node) :=
  let idx := bucket_of (node_trigger n) new_size in
  <[idx := n :: new_table !!! idx]> new_table.

Definition rehash_chain (new_size : Z) (new_table : list (list ezcb_node))
    (chain : list ezcb_node) : list (list ezcb_node) :=
  foldl (rehash_node new_size) new_table chain.

(** The result is [None] when the run reads through a null [ezcb_table];
    ezcb_register_internal never resizes a null table. *)
Definition ezcb_resize (h : heap) (new_size : Z) (st : ezcb_state)
    : option (ezcb_state * Z) :=
  if negb (calloc_resize h) then Some (st, -1)
  else
    match ezcb_table st with
    | None => None
    | Some table =>
        let new_table :=
          foldl (rehash_chain new_size)
                (replicate (Z.to_nat new_size) []) table in
        Some (set_buckets new_size (set_table (Some new_table) st), 0)
    end.

(** ** Initialize *)

Definition ezcb_init (h : heap) (st : ezcb_state) : ezcb_state :=
  match ezcb_table st with
  | Some _ => st
  | None =>
      if EZCB_NO_MALLOC cfg then
        let st := set_buckets (EZCB_MAX_BUCKETS cfg) st in
        let st :=
          set_table
            (Some (replicate (Z.to_nat (EZCB_MAX_BUCKETS cfg)) [])) st in
        let st :=
          set_free_list
            (foldl (fun free_list i => i :: free_list) []
                   (seqZ 0 (EZCB_MAX_NODES cfg))) st in
        set_count 0 st
      else
        let st := set_buckets 16 st in
        let st :=
          set_table (if calloc_init h then Some (replicate 16 []) else None)
                    st in
        set_count 0 st
  end.

(** ** Deinitialize *)

Definition deinit_chain (st : ezcb_state) (chain : list ezcb_node) : ezcb_state :=
  foldl (fun st n =>
           if EZCB_NO_MALLOC cfg
           then set_free_list (node_addr n :: ezcb_free_list st) st
           else st)
        st chain.

Definition ezcb_deinit (st : ezcb_state) : ezcb_state :=
  match ezcb_table st with
  | None => st
  | Some table =>
      let st := foldl deinit_chain st table in
      let st := set_table None st in
      let st := set_buckets 0 st in
      let st := set_count 0 st in
      if EZCB_ENABLE_ISR cfg then set_evt_tail 0 (set_evt_head 0 st) else st
  end.

(** ** Register *)

(** The scan [while ( *cur )] followed by [node->next = *cur; *cur = node]. *)
Fixpoint register_insert (trigger : string) (priority : Z) (node : ezcb_node)
    (chain : list ezcb_node) : list ezcb_node :=
  match chain with
  | [] => [node]
  | cur :: next =>
      if (strcmp (node_trigger cur) trigger =? 0)
         && (node_priority cur <? priority)
      then node :: chain
      else cur :: register_insert trigger priority node next
  end.

(** From [ezcb_node_alloc] to the end of ezcb_register_internal. *)
Definition register_node (h : heap) (trigger : string) (priority : Z)
    (fn ctx : Z) (once : bool) (st : ezcb_state) : option (ezcb_state * Z) :=
  match ezcb_node_alloc h st with
  | (None, st) => Some (st, -1)
  | (Some a, st) =>
      let node := {| node_addr := a; node_trigger := trigger;
                     node_priority := priority; node_once := once;
                     node_fn := fn; node_ctx := ctx |} in
      match ezcb_table st with
      | None => None
      | Some table =>
          let idx := bucket_of trigger (ezcb_buckets st) in
          let chain := register_insert trigger priority node (table !!! idx) in
          let st := set_table (Some (<[idx := chain]> table)) st in
          Some (set_count (size_t (ezcb_count st + 1)) st, 0)
      end
  end.

(** The result is [None] when the run reads through a null [ezcb_table],
    which happens when the [calloc] of ezcb_init has failed. *)
Definition ezcb_register_internal (h : heap) (trigger : string) (priority : Z)
    (fn ctx : Z) (once : bool) (st : ezcb_state) : option (ezcb_state * Z) :=
  let st := match ezcb_table st with
            | None => ezcb_init h st
            | Some _ => st
            end in
  if EZCB_NO_MALLOC cfg then
    let trigger_length := strlen trigger in
    if trigger_length >=? EZCB_MAX_TRIGGER_LENGTH cfg then Some (st, -1)
    else register_node h trigger priority fn ctx once st
  else
    if size_t (ezcb_count st * 4) >=? size_t (ezcb_buckets st * 3) then
      match ezcb_resize h (size_t (ezcb_buckets st * 2)) st with
      | None => None
      | Some (st, rc) =>
          if negb (rc =? 0) then Some (st, -1)
          else register_node h trigger priority fn ctx once st
      end
    else register_node h trigger priority fn ctx once st.

Definition ezcb_register (h : heap) (trigger : string) (priority : Z)
    (fn ctx : Z) (st : ezcb_state) : option (ezcb_state * Z) :=
  ezcb_register_internal h trigger priority fn ctx false st.

Definition ezcb_register_once (h : heap) (trigger : string) (priority : Z)
    (fn ctx : Z) (st : ezcb_state) : option (ezcb_state * Z) :=
  ezcb_register_internal h trigger priority fn ctx true st.

(** ** Unregister *)

(** The test of the first loop ([trigger] given) and of the second
    ([trigger] null). *)
Definition unregister_test (trigger : option string) (fn ctx : Z)
    (n : ezcb_node) : bool :=
  match trigger with
  | Some t =>
      (strcmp (node_trigger n) t =? 0)
      && ((fn =? NULL) || (node_fn n =? fn))
      && ((ctx =? NULL) || (node_ctx n =? ctx))
  | None =>
      ((fn =? NULL) || (node_fn n =? fn))
      && ((ctx =? NULL) || (node_ctx n =? ctx))
  end.

(** One [while ( *cur )] loop: the chain that is left, the state and the
    counter [removed]. *)
Fixpoint unregister_chain (trigger : option string) (fn ctx : Z)
    (chain : list ezcb_node) (st : ezcb_state) (removed : Z)
    : list ezcb_node * ezcb_state * Z :=
  match chain with
  | [] => ([], st, removed)
  | n :: next =>
      if unregister_test trigger fn ctx n then
        let st := ezcb_node_free n st in
        let st := set_count (size_t (ezcb_count st - 1)) st in
        unregister_chain trigger fn ctx next st (removed + 1)
      else
        let '(chain', st, removed) :=
          unregister_chain trigger fn ctx next st removed in
        (n :: chain', st, removed)
  end.

(** [for (i = 0; i < ezcb_buckets; i++)] over the bucket array. *)
Fixpoint unregister_table (fn ctx : Z) (table : list (list ezcb_node))
    (st : ezcb_state) (removed : Z)
    : list (list ezcb_node) * ezcb_state * Z :=
  match table with
  | [] => ([], st, removed)
  | chain :: table' =>
      let '(chain', st, removed) :=
        unregister_chain None fn ctx chain st removed in
      let '(table'', st, removed) :=
        unregister_table fn ctx table' st removed in
      (chain' :: table'', st, removed)
  end.

Definition ezcb_unregister (trigger : option string) (fn ctx : Z)
    (st : ezcb_state) : ezcb_state * Z :=
  match ezcb_table st with
  | None => (st, 0)
  | Some table =>
      match trigger with
      | Some t =>
          let idx := bucket_of t (ezcb_buckets st) in
          let '(chain, st, removed) :=
            unregister_chain trigger fn ctx (table !!! idx) st 0 in
          (set_table (Some (<[idx := chain]> table)) st, removed)
      | None =>
          let '(table', st, removed) := unregister_table fn ctx table st 0 in
          (set_table (Some table') st, removed)
      end
  end.

(** ** Trigger *)

Section Callbacks.

(** The caller's world and the code behind a function pointer:
    [call fn ctx data] is [fn(ctx, data)]. *)
Context {W : Type}.
Variable call : Z -> Z -> Z -> W -> ezcb_result_t * W.

(** The release of a [once] node inside ezcb_trigger. *)
Definition trigger_release (n : ezcb_node) (st : ezcb_state) : ezcb_state :=
  let st :=
    if EZCB_NO_MALLOC cfg
    then set_free_list (node_addr n :: ezcb_free_list st) st
    else st in
  set_count (size_t (ezcb_count st - 1)) st.

(** The loop [while ( *cur )] of ezcb_trigger: the chain that is left,
    the state, the caller's world, the nodes whose callback it has
    invoked, in order, and whether it has left through [break]. *)
Fixpoint trigger_chain (trigger : string) (data : Z)
    (chain : list ezcb_node) (st : ezcb_state) (w : W)
    : list ezcb_node * ezcb_state * W * list ezcb_node * bool :=
  match chain with
  | [] => ([], st, w, [], false)
  | n :: next =>
      if strcmp (node_trigger n) trigger =? 0 then
        let '(r, w) := call (node_fn n) (node_ctx n) data w in
        if node_once n then
          let st := trigger_release n st in
          if is_stop r then (next, st, w, [n], true)
          else
            let '(chain', st, w, fired, stopped) :=
              trigger_chain trigger data next st w in
            (chain', st, w, n :: fired, stopped)
        else
          if is_stop r then (n :: next, st, w, [n], true)
          else
            let '(chain', st, w, fired, stopped) :=
              trigger_chain trigger data next st w in
            (n :: chain', st, w, n :: fired, stopped)
      else
        let '(chain', st, w, fired, stopped) :=
          trigger_chain trigger data next st w in
        (n :: chain', st, w, fired, stopped)
  end.

Definition ezcb_trigger (trigger : string) (data : Z)
    (st : ezcb_state) (w : W) : ezcb_state * W * list ezcb_node :=
  match ezcb_table st with
  | None => (st, w, [])
  | Some table =>
      let idx := bucket_of trigger (ezcb_buckets st) in
      let '(chain, st, w, fired, _) :=
        trigger_chain trigger data (table !!! idx) st w in
      (set_table (Some (<[idx := chain]> table)) st, w, fired)
  end.

(** A sequence of ezcb_trigger calls, one per event, in order. *)
Fixpoint run_triggers (evts : list ezcb_evt) (st : ezcb_state) (w : W)
    : ezcb_state * W * list ezcb_node :=
  match evts with
  | [] => (st, w, [])
  | evt :: evts' =>
      let '(st, w, fired) :=
        ezcb_trigger (evt_trigger evt) (evt_data evt) st w in
      let '(st, w, fired') := run_triggers evts' st w in
      (st, w, fired ++ fired')
  end.

(** ** ISR support *)

Definition ezcb_trigger_isr (trigger : string) (data : Z)
    (st : ezcb_state) : ezcb_state * Z :=
  let next := uint8_t ((ezcb_evt_head st + 1) mod EZCB_EVENT_QUEUE_SIZE cfg) in
  if next =? ezcb_evt_tail st then (st, -1)
  else
    let evt := {| evt_trigger := trigger; evt_data := data |} in
    let st :=
      set_evt_queue
        (<[Z.to_nat (ezcb_evt_head st) := evt]> (ezcb_evt_queue st)) st in
    (set_evt_head next st, 0).

(** The loop of ezcb_dispatch, bounded by [fuel] iterations; [None] when
    the bound is reached with events still pending. *)
Fixpoint ezcb_dispatch (fuel : nat) (st : ezcb_state) (w : W)
    : option (ezcb_state * W * list ezcb_node) :=
  if negb (ezcb_evt_tail st =? ezcb_evt_head st) then
    match fuel with
    | O => None
    | S fuel =>
        let evt := ezcb_evt_queue st !!! Z.to_nat (ezcb_evt_tail st) in
        let st :=
          set_evt_tail
            (uint8_t ((ezcb_evt_tail st + 1) mod EZCB_EVENT_QUEUE_SIZE cfg))
            st in
        let '(st, w, fired) :=
          ezcb_trigger (evt_trigger evt) (evt_data evt) st w in
        match ezcb_dispatch fuel st w with
        | None => None
        | Some (st, w, fired') => Some (st, w, fired ++ fired')
        end
    end
  else Some (st, w, []).

End Callbacks.

End Registry.

Arguments trigger_chain cfg {W} call trigger data chain st w.
Arguments ezcb_trigger cfg {W} call trigger data st w.
Arguments run_triggers cfg {W} call evts st w.
Arguments ezcb_dispatch cfg {W} call fuel st w.

(** ** Vocabulary of the statements *)

(** The state a call of ezcb_register_internal works on once it is past
    its [if (!ezcb_table) ezcb_init();]. *)
Definition implicit_init (cfg : ezcb_config) (h : heap) (st : ezcb_state)
    : ezcb_state :=
  match ezcb_table st with
  | None => ezcb_init cfg h st
  | Some _ => st
  end.

(** Allocators used in the examples: one that grants every request (and
    places the node at [a]), one that refuses every request. *)
Definition heap_gives (a : Z) : heap :=
  {| calloc_init := true; calloc_resize := true; malloc_node := Some a |}.

Definition heap_exhausted : heap :=
  {| calloc_init := false; calloc_resize := false; malloc_node := None |}.

(** Callbacks used in the examples.  The world is the log of the function
    pointers called so far; the callback at address [fn] continues, except
    the one at address 86, which stops. *)
Definition logging_call (fn ctx data : Z) (log : list Z)
    : ezcb_result_t * list Z :=
  (if fn =? 86 then EZCB_STOP else EZCB_CONTINUE, log ++ [fn]).

(** The deferred queue.  Its indices are [uint8_t]: they reach the first
    256 slots of the array, all of them when EZCB_EVENT_QUEUE_SIZE is at
    most 256. *)
Definition ring_size (cfg : ezcb_config) : Z :=
  Z.min (EZCB_EVENT_QUEUE_SIZE cfg) 256.

(** The array has EZCB_EVENT_QUEUE_SIZE entries, at least one, and the
    indices are within the ring. *)
Definition queue_ok (cfg : ezcb_config) (st : ezcb_state) : Prop :=
  0 < EZCB_EVENT_QUEUE_SIZE cfg
  /\ 0 <= ezcb_evt_head st < ring_size cfg
  /\ 0 <= ezcb_evt_tail st < ring_size cfg
  /\ length (ezcb_evt_queue st) = Z.to_nat (EZCB_EVENT_QUEUE_SIZE cfg).

(** The number of events enqueued and not yet dispatched. *)
Definition pending_count (cfg : ezcb_config) (st : ezcb_state) : Z :=
  (ezcb_evt_head st - ezcb_evt_tail st) mod ring_size cfg.

(** [n] consecutive slots of the ring, from index [from] on. *)
Fixpoint queue_slice (size : Z) (queue : list ezcb_evt) (from : Z) (n : nat)
    : list ezcb_evt :=
  match n with
  | O => []
  | S n' =>
      queue !!! Z.to_nat from
      :: queue_slice size queue ((from + 1) mod size) n'
  end.

(** The pending events, oldest first: the slots from the consumer index
    up to the producer index. *)
Definition pending_events (cfg : ezcb_config) (st : ezcb_state)
    : list ezcb_evt :=
  queue_slice (ring_size cfg) (ezcb_evt_queue st)
    (ezcb_evt_tail st) (Z.to_nat (pending_count cfg st)).

(** The registry part of the state. *)
Definition registry_of (st : ezcb_state)
    : option (list (list ezcb_node)) * Z * Z * list Z :=
  (ezcb_table st, ezcb_buckets st, ezcb_count st, ezcb_free_list st).

(** ezcb_trigger_isr called once per event of [evts], in order: the state
    reached and the values returned. *)
Fixpoint enqueue_all (cfg : ezcb_config) (evts : list ezcb_evt)
    (st : ezcb_state) : ezcb_state * list Z :=
  match evts with
  | [] => (st, [])
  | evt :: evts' =>
      let '(st, rc) :=
        ezcb_trigger_isr cfg (evt_trigger evt) (evt_data evt) st in
      let '(st, rcs) := enqueue_all cfg evts' st in
      (st, rc :: rcs)
  end.

(** Fifteen events, as many as the default queue of 16 slots takes. *)
Definition fifteen_events : list ezcb_evt :=
  [{| evt_trigger := "tick"; evt_data := 1 |};
   {| evt_trigger := "tick"; evt_data := 2 |};
   {| evt_trigger := "tick"; evt_data := 3 |};
   {| evt_trigger := "tick"; evt_data := 4 |};
   {| evt_trigger := "tick"; evt_data := 5 |};
   {| evt_trigger := "tick"; evt_data := 6 |};
   {| evt_trigger := "tick"; evt_data := 7 |};
   {| evt_trigger := "tick"; evt_data := 8 |};
   {| evt_trigger := "tick"; evt_data := 9 |};
   {| evt_trigger := "tick"; evt_data := 10 |};
   {| evt_trigger := "tick"; evt_data := 11 |};
   {| evt_trigger := "tick"; evt_data := 12 |};
   {| evt_trigger := "tick"; evt_data := 13 |};
   {| evt_trigger := "tick"; evt_data := 14 |};
   {| evt_trigger := "tick"; evt_data := 15 |}].

(** The arguments of a register call. *)
Record registration := {
  reg_trigger : string;
  reg_priority : Z;
  reg_fn : Z;
  reg_ctx : Z;
  reg_once : bool
}.

(** A sequence of register calls, each with the answers of the allocator
    during it: the state reached and the values returned. *)
Fixpoint register_all (cfg : ezcb_config)
    (calls : list (heap * registration)) (st : ezcb_state)
    : option (ezcb_state * list Z) :=
  match calls with
  | [] => Some (st, [])
  | (h, r) :: calls' =>
      match ezcb_register_internal cfg h (reg_trigger r) (reg_priority r)
              (reg_fn r) (reg_ctx r) (reg_once r) st with
      | None => None
      | Some (st, rc) =>
          match register_all cfg calls' st with
          | None => None
          | Some (st, rcs) => Some (st, rc :: rcs)
          end
      end
  end.

Definition after_registering (cfg : ezcb_config)
    (calls : list (heap * registration)) (st : ezcb_state) : ezcb_state :=
  match register_all cfg calls st with
  | Some (st', _) => st'
  | None => st
  end.

(** Three triggers with one callback each (at addresses 1, 2 and 3), and
    one event for each. *)
Definition abc_registry : ezcb_state :=
  after_registering default_config
    [(heap_gives 4096,
      {| reg_trigger := "A"; reg_priority := 0; reg_fn := 1; reg_ctx := 0;
         reg_once := false |});
     (heap_gives 4128,
      {| reg_trigger := "B"; reg_priority := 0; reg_fn := 2; reg_ctx := 0;
         reg_once := false |});
     (heap_gives 4160,
      {| reg_trigger := "C"; reg_priority := 0; reg_fn := 3; reg_ctx := 0;
         reg_once := false |})]
    (initial_state default_config).

Definition abc_events : list ezcb_evt :=
  [{| evt_trigger := "A"; evt_data := 10 |};
   {| evt_trigger := "B"; evt_data := 20 |};
   {| evt_trigger := "C"; evt_data := 30 |}].

(** The nodes linked into the table, bucket after bucket. *)
Definition registered_nodes (st : ezcb_state) : list ezcb_node :=
  match ezcb_table st with
  | Some table => concat table
  | None => []
  end.

#[global] Instance ezcb_node_eq_dec : EqDecision ezcb_node.
Proof. solve_decision. Defined.

(** A static configuration with a single bucket: every trigger collides
    with every other. *)
Definition one_bucket_config : ezcb_config := {|
  EZCB_NO_MALLOC := true;
  EZCB_ENABLE_ISR := true;
  EZCB_MAX_BUCKETS := 1;
  EZCB_MAX_NODES := 8;
  EZCB_MAX_TRIGGER_LENGTH := 32;
  EZCB_EVENT_QUEUE_SIZE := 16
|}.

(** Five registrations in that bucket: two triggers, and for "alpha" a
    [once] callback that stops (address 86) between two that continue. *)
Definition beta_2 : ezcb_node :=
  {| node_addr := 7; node_trigger := "beta"; node_priority := 0;
     node_once := false; node_fn := 2; node_ctx := 0 |}.
Definition alpha_1 : ezcb_node :=
  {| node_addr := 6; node_trigger := "alpha"; node_priority := 5;
     node_once := false; node_fn := 1; node_ctx := 0 |}.
Definition alpha_stop : ezcb_node :=
  {| node_addr := 5; node_trigger := "alpha"; node_priority := 4;
     node_once := true; node_fn := 86; node_ctx := 0 |}.
Definition beta_4 : ezcb_node :=
  {| node_addr := 4; node_trigger := "beta"; node_priority := 0;
     node_once := false; node_fn := 4; node_ctx := 0 |}.
Definition alpha_3 : ezcb_node :=
  {| node_addr := 3; node_trigger := "alpha"; node_priority := 1;
     node_once := false; node_fn := 3; node_ctx := 0 |}.

Definition registration_of (n : ezcb_node) : heap * registration :=
  (heap_exhausted,
   {| reg_trigger := node_trigger n; reg_priority := node_priority n;
      reg_fn := node_fn n; reg_ctx := node_ctx n; reg_once := node_once n |}).

Definition collide_registry : ezcb_state :=
  after_registering one_bucket_config
    (registration_of <$> [beta_2; alpha_1; alpha_stop; beta_4; alpha_3])
    (initial_state one_bucket_config).

(** Every chain of [table], taken as the buckets [i], [i + 1], ... of an
    array of [buckets] buckets, holds only nodes whose trigger hashes to
    its index. *)
Fixpoint chains_placed (buckets : Z) (i : nat)
    (table : list (list ezcb_node)) : bool :=
  match table with
  | [] => true
  | chain :: table' =>
      forallb (fun n => Nat.eqb (bucket_of (node_trigger n) buckets) i) chain
      && chains_placed buckets (S i) table'
  end.

(** The table of an initialized registry has [ezcb_buckets] buckets, at
    least one, and every node is in the bucket of its trigger. *)
Definition table_ok (st : ezcb_state) : Prop :=
  match ezcb_table st with
  | None => True
  | Some table =>
      0 < ezcb_buckets st
      /\ length table = Z.to_nat (ezcb_buckets st)
      /\ chains_placed (ezcb_buckets st) 0 table = true
  end.

(** The request of an unregister call, in the words of its documentation:
    a registration matches when every argument that is given (not null)
    is equal to its field. *)
Definition matches_request (trigger : option string) (fn ctx : Z)
    (n : ezcb_node) : Prop :=
  match trigger with
  | Some t => node_trigger n = t
  | None => True
  end
  /\ (fn = NULL \/ node_fn n = fn)
  /\ (ctx = NULL \/ node_ctx n = ctx).

#[global] Instance matches_request_dec (trigger : option string) (fn ctx : Z)
    (n : ezcb_node) : Decision (matches_request trigger fn ctx n).
Proof. unfold matches_request. destruct trigger; apply _. Defined.

(** The node that a register call builds at address [a]. *)
Definition new_node (a : Z) (trigger : string) (priority fn ctx : Z)
    (once : bool) : ezcb_node :=
  {| node_addr := a; node_trigger := trigger; node_priority := priority;
     node_once := once; node_fn := fn; node_ctx := ctx |}.

(** Registrations under the trigger "a": the callback of priority [p] is
    at address [p]. Twelve of them, by descending priority, bring the
    default table of 16 buckets to its growth threshold. *)
Definition a_registration (p : Z) : heap * registration :=
  (heap_gives (4096 + 32 * p),
   {| reg_trigger := "a"; reg_priority := p; reg_fn := p; reg_ctx := 0;
      reg_once := false |}).

Definition twelve_registry : ezcb_state :=
  after_registering default_config
    (a_registration <$> [12; 11; 10; 9; 8; 7; 6; 5; 4; 3; 2; 1])
    (initial_state default_config).

(** An allocator whose [calloc] fails although [malloc] would succeed. *)
Definition heap_no_table : heap :=
  {| calloc_init := false; calloc_resize := false; malloc_node := Some 8192 |}.

(** The node is an entry for the registration [r]. *)
Definition is_registration (r : registration) (n : ezcb_node) : Prop :=
  node_trigger n = reg_trigger r
  /\ node_priority n = reg_priority r
  /\ node_fn n = reg_fn r
  /\ node_ctx n = reg_ctx r
  /\ node_once n = reg_once r.

#[global] Instance is_registration_dec (r : registration) (n : ezcb_node) :
  Decision (is_registration r n).
Proof. unfold is_registration. apply _. Defined.

(** The allocator grants what a register call may ask for after the
    initialization: a table to grow into, and a node. *)
Definition heap_grants (h : heap) : bool :=
  calloc_resize h
  && match malloc_node h with Some _ => true | None => false end.

(** There are resources for one register call of [r] per element of [hs]:
    under EZCB_NO_MALLOC the name fits the buffer and the free list is
    long enough; otherwise the allocator grants every request, and the
    counters stay far from the end of [size_t]. *)
Definition resources_permit (cfg : ezcb_config) (hs : list heap)
    (r : registration) (st : ezcb_state) : Prop :=
  if EZCB_NO_MALLOC cfg then
    strlen (reg_trigger r) < EZCB_MAX_TRIGGER_LENGTH cfg
    /\ (length hs <= length (ezcb_free_list st))%nat
  else
    forallb heap_grants hs = true
    /\ 0 <= ezcb_count st
    /\ ezcb_count st + Z.of_nat (length hs) <= 2 ^ 60
    /\ ezcb_buckets st <= 2 ^ 62.

(** The registration used in the examples of repeated registration, and
    three allocator answers for it. *)
Definition tick_registration : registration :=
  {| reg_trigger := "tick"; reg_priority := 3; reg_fn := 1; reg_ctx := 2;
     reg_once := false |}.

Definition three_heaps : list heap :=
  [heap_gives 4096; heap_gives 4128; heap_gives 4160].

Definition fresh_registry : ezcb_state :=
  ezcb_init default_config (heap_gives 0) (initial_state default_config).

(** The order of a chain: a node that comes after a node of the same
    trigger has at most its priority. *)
Definition in_order (m n : ezcb_node) : Prop :=
  node_trigger n = node_trigger m -> node_priority n <= node_priority m.

Definition chain_ordered (chain : list ezcb_node) : Prop :=
  StronglySorted in_order chain.

Definition table_ordered (st : ezcb_state) : Prop :=
  match ezcb_table st with
  | None => True
  | Some table => Forall chain_ordered table
  end.

(** A thirteenth registration under "a", of priority 0, on
    [twelve_registry]. *)
Definition thirteen_registry : ezcb_state :=
  after_registering default_config [a_registration 0] twelve_registry.

(** The default configuration with a queue of 300 slots. *)
Definition wide_queue_config : ezcb_config := {|
  EZCB_NO_MALLOC := false;
  EZCB_ENABLE_ISR := true;
  EZCB_MAX_BUCKETS := 32;
  EZCB_MAX_NODES := 64;
  EZCB_MAX_TRIGGER_LENGTH := 32;
  EZCB_EVENT_QUEUE_SIZE := 300
|}.

Definition numbered_events (n : Z) : list ezcb_evt :=
  (fun i => {| evt_trigger := "tick"; evt_data := i |}) <$> seqZ 1 n.

(** Registrations under "a" that all have priority 5: the callback
    registered as the [i]-th is at address [i]. *)
Definition level_registration (i : Z) : heap * registration :=
  (heap_gives (4096 + 32 * i),
   {| reg_trigger := "a"; reg_priority := 5; reg_fn := i; reg_ctx := 0;
      reg_once := false |}).

Definition twelve_level : ezcb_state :=
  after_registering default_config
    (level_registration <$> [1; 2; 3; 4; 5; 6; 7; 8; 9; 10; 11; 12])
    (initial_state default_config).

(** ** Vocabulary of the further properties *)

(** Unlinking a node gives it back and decrements the count: the two
    statements that follow [*cur = n->next] in ezcb_unregister and, for a
    [once] node, in ezcb_trigger. *)
Definition release_node (cfg : ezcb_config) (n : ezcb_node)
    (st : ezcb_state) : ezcb_state :=
  let st := ezcb_node_free cfg n st in
  set_count (size_t (ezcb_count st - 1)) st.

Definition release_all (cfg : ezcb_config) (l : list ezcb_node)
    (st : ezcb_state) : ezcb_state :=
  foldl (fun st n => release_node cfg n st) st l.

(** The slots of the static pool: [&ezcb_nodes[i]] for
    [i < EZCB_MAX_NODES]. *)
Definition pool_slots (cfg : ezcb_config) : list Z :=
  seqZ 0 (EZCB_MAX_NODES cfg).

(** Every slot of the pool is linked in the table or is on the free
    list, and is there once. *)
Definition pool_ok (cfg : ezcb_config) (st : ezcb_state) : Prop :=
  (node_addr <$> registered_nodes st) ++ ezcb_free_list st ≡ₚ pool_slots cfg.

(** [ezcb_count] is the number of linked nodes. *)
Definition count_ok (st : ezcb_state) : Prop :=
  ezcb_count st = Z.of_nat (length (registered_nodes st)).

(** A call of the public API, with what the allocator answers during it
    and, for ezcb_dispatch, a bound on the iterations of its loop. *)
Inductive api_call :=
| call_init (h : heap)
| call_deinit
| call_register (h : heap) (r : registration)
| call_unregister (trigger : option string) (fn ctx : Z)
| call_trigger (trigger : string) (data : Z)
| call_trigger_isr (trigger : string) (data : Z)
| call_dispatch (fuel : nat).

(** A client: a sequence of calls. The result is [None] when a call has
    none (a register call that reads through a null table, a dispatch
    that runs out of fuel). ezcb_trigger_isr and ezcb_dispatch are there
    for a client of a build with EZCB_ENABLE_ISR. *)
Definition run_call (cfg : ezcb_config) {W : Type}
    (call : Z -> Z -> Z -> W -> ezcb_result_t * W)
    (c : api_call) (st : ezcb_state) (w : W) : option (ezcb_state * W) :=
  match c with
  | call_init h => Some (ezcb_init cfg h st, w)
  | call_deinit => Some (ezcb_deinit cfg st, w)
  | call_register h r =>
      match ezcb_register_internal cfg h (reg_trigger r) (reg_priority r)
              (reg_fn r) (reg_ctx r) (reg_once r) st with
      | Some (st', _) => Some (st', w)
      | None => None
      end
  | call_unregister trigger fn ctx =>
      Some ((ezcb_unregister cfg trigger fn ctx st).1, w)
  | call_trigger trigger data =>
      Some ((ezcb_trigger cfg call trigger data st w).1)
  | call_trigger_isr trigger data =>
      Some ((ezcb_trigger_isr cfg trigger data st).1, w)
  | call_dispatch fuel =>
      match ezcb_dispatch cfg call fuel st w with
      | Some (st', w', _) => Some (st', w')
      | None => None
      end
  end.

Fixpoint run_calls (cfg : ezcb_config) {W : Type}
    (call : Z -> Z -> Z -> W -> ezcb_result_t * W)
    (cs : list api_call) (st : ezcb_state) (w : W)
    : option (ezcb_state * W) :=
  match cs with
  | [] => Some (st, w)
  | c :: cs' =>
      match run_call cfg call c st w with
      | Some (st', w') => run_calls cfg call cs' st' w'
      | None => None
      end
  end.

(** What holds of every state of a registry built with EZCB_NO_MALLOC. *)
Definition static_invariant (cfg : ezcb_config) (st : ezcb_state) : Prop :=
  table_ok st
  /\ table_ordered st
  /\ count_ok st
  /\ (is_Some (ezcb_table st) -> pool_ok cfg st)
  /\ queue_ok cfg st.

(** A build with EZCB_NO_MALLOC whose constants are usable: at least one
    bucket and one queue slot, a pool whose size is a [size_t]. *)
Definition static_build_ok (cfg : ezcb_config) : Prop :=
  EZCB_NO_MALLOC cfg = true
  /\ 0 < EZCB_MAX_BUCKETS cfg
  /\ 0 <= EZCB_MAX_NODES cfg < 2 ^ 64
  /\ 0 < EZCB_EVENT_QUEUE_SIZE cfg.

(** A client of the static build used in the examples: three
    registrations under "tick" (the second one a [once] callback) and one
    under "tock"; then a deferred and a direct "tick", and the removal of
    the callback at address 3. *)
Definition tick_registrations : list api_call :=
  [call_register heap_exhausted
     {| reg_trigger := "tick"; reg_priority := 1; reg_fn := 1; reg_ctx := 0;
        reg_once := false |};
   call_register heap_exhausted
     {| reg_trigger := "tick"; reg_priority := 7; reg_fn := 2; reg_ctx := 0;
        reg_once := true |};
   call_register heap_exhausted
     {| reg_trigger := "tick"; reg_priority := 4; reg_fn := 3; reg_ctx := 0;
        reg_once := false |};
   call_register heap_exhausted
     {| reg_trigger := "tock"; reg_priority := 9; reg_fn := 4; reg_ctx := 0;
        reg_once := false |}].

Definition tick_session : list api_call :=
  tick_registrations
  ++ [call_trigger_isr "tick" 10;
      call_dispatch 4;
      call_trigger "tick" 11;
      call_unregister None 3 0].

(** The registry after the four registrations, and after the whole
    session. *)
Definition four_registry : ezcb_state :=
  match run_calls static_config logging_call tick_registrations
          (initial_state static_config) [] with
  | Some (st, _) => st
  | None => initial_state static_config
  end.

Definition tick_registry : ezcb_state :=
  match run_calls static_config logging_call tick_session
          (initial_state static_config) [] with
  | Some (st, _) => st
  | None => initial_state static_config
  end.

(** Callbacks that never stop; the world is the log of the function
    pointers called so far. *)
Definition continuing_call (fn ctx data : Z) (log : list Z)
    : ezcb_result_t * list Z :=
  (EZCB_CONTINUE, log ++ [fn]).

(** [tick_registry] with one more registration under "tick", of
    priority 4. *)
Definition tick_registry_more : ezcb_state :=
  after_registering static_config
    [(heap_exhausted,
      {| reg_trigger := "tick"; reg_priority := 4; reg_fn := 5; reg_ctx := 0;
         reg_once := false |})]
    tick_registry.

(** The deferred queue is the same in both states. *)
Definition same_queue (st st' : ezcb_state) : Prop :=
  ezcb_evt_head st' = ezcb_evt_head st
  /\ ezcb_evt_tail st' = ezcb_evt_tail st
  /\ ezcb_evt_queue st' = ezcb_evt_queue st.

(** What holds of a registry built without EZCB_NO_MALLOC after at most
    [k] calls: the table is well formed, [ezcb_count] is the number of
    linked nodes, at most [k], and the table has grown no further than
    the load asks for. *)
Definition dynamic_invariant (k : Z) (st : ezcb_state) : Prop :=
  table_ok st
  /\ count_ok st
  /\ ezcb_count st <= k
  /\ 0 <= ezcb_buckets st
  /\ 3 * ezcb_buckets st <= Z.max 48 (8 * k).

(** A client of the default build: thirteen registrations, enough for the
    table to grow once. *)
Definition growing_session : list api_call :=
  (fun p => call_register (a_registration p).1 (a_registration p).2)
    <$> [12; 11; 10; 9; 8; 7; 6; 5; 4; 3; 2; 1; 0].

(** ** The mutex

    With EZCB_THREAD_SAFE the macros EZCB_MUTEX_INIT, EZCB_MUTEX_LOCK,
    EZCB_MUTEX_UNLOCK and EZCB_MUTEX_DESTROY are the calls [mtx_init],
    [mtx_lock], [mtx_unlock] and [mtx_destroy] on the plain mutex
    [ezcb_mtx]; without it they expand to nothing. What a function does
    to the mutex is the sequence of the macros that its run reaches, in
    order; the run is the one that the definitions above describe. *)

Inductive mutex_op :=
| EZCB_MUTEX_INIT
| EZCB_MUTEX_LOCK
| EZCB_MUTEX_UNLOCK
| EZCB_MUTEX_DESTROY.

Definition ezcb_lock : list mutex_op := [EZCB_MUTEX_LOCK].

Definition ezcb_unlock : list mutex_op := [EZCB_MUTEX_UNLOCK].

(** ezcb_node_alloc unlocks before it returns NULL. *)
Definition ezcb_node_alloc_mutex (cfg : ezcb_config) (st : ezcb_state)
    : list mutex_op :=
  if EZCB_NO_MALLOC cfg then
    match ezcb_free_list st with
    | [] => ezcb_unlock
    | _ :: _ => []
    end
  else [].

(** ezcb_node_free takes the mutex around the push on the free list. *)
Definition ezcb_node_free_mutex (cfg : ezcb_config) : list mutex_op :=
  if EZCB_NO_MALLOC cfg then ezcb_lock ++ ezcb_unlock else [].

Definition ezcb_init_mutex (cfg : ezcb_config) (st : ezcb_state)
    : list mutex_op :=
  match ezcb_table st with
  | Some _ => []
  | None =>
      [EZCB_MUTEX_INIT]
      ++ (if EZCB_NO_MALLOC cfg then ezcb_lock ++ ezcb_unlock else [])
  end.

(** From [ezcb_node_alloc] to the end of ezcb_register_internal; nothing
    more is reached when the run indexes a null table. *)
Definition register_node_mutex (cfg : ezcb_config) (h : heap)
    (st : ezcb_state) : list mutex_op :=
  ezcb_node_alloc_mutex cfg st
  ++ match ezcb_node_alloc cfg h st with
     | (None, _) => ezcb_unlock
     | (Some _, st) =>
         match ezcb_table st with
         | None => []
         | Some _ => ezcb_unlock
         end
     end.

Definition ezcb_register_internal_mutex (cfg : ezcb_config) (h : heap)
    (trigger : string) (st : ezcb_state) : list mutex_op :=
  ezcb_lock
  ++ match ezcb_table st with
     | None => ezcb_init_mutex cfg st
     | Some _ => []
     end
  ++ let st := match ezcb_table st with
               | None => ezcb_init cfg h st
               | Some _ => st
               end in
     if EZCB_NO_MALLOC cfg then
       if strlen trigger >=? EZCB_MAX_TRIGGER_LENGTH cfg then ezcb_unlock
       else register_node_mutex cfg h st
     else
       if size_t (ezcb_count st * 4) >=? size_t (ezcb_buckets st * 3) then
         match ezcb_resize h (size_t (ezcb_buckets st * 2)) st with
         | None => []
         | Some (st, rc) =>
             if negb (rc =? 0) then ezcb_unlock
             else register_node_mutex cfg h st
         end
       else register_node_mutex cfg h st.

(** One [while ( *cur )] loop of ezcb_unregister: a call of ezcb_node_free
    for each node that passes the test. *)
Fixpoint unregister_chain_mutex (cfg : ezcb_config) (trigger : option string)
    (fn ctx : Z) (chain : list ezcb_node) : list mutex_op :=
  match chain with
  | [] => []
  | n :: next =>
      if unregister_test trigger fn ctx n then
        ezcb_node_free_mutex cfg
        ++ unregister_chain_mutex cfg trigger fn ctx next
      else unregister_chain_mutex cfg trigger fn ctx next
  end.

Fixpoint unregister_table_mutex (cfg : ezcb_config) (fn ctx : Z)
    (table : list (list ezcb_node)) : list mutex_op :=
  match table with
  | [] => []
  | chain :: table' =>
      unregister_chain_mutex cfg None fn ctx chain
      ++ unregister_table_mutex cfg fn ctx table'
  end.

Definition ezcb_unregister_mutex (cfg : ezcb_config) (trigger : option string)
    (fn ctx : Z) (st : ezcb_state) : list mutex_op :=
  ezcb_lock
  ++ match ezcb_table st with
     | None => ezcb_unlock
     | Some table =>
         match trigger with
         | Some t =>
             unregister_chain_mutex cfg trigger fn ctx
               (table !!! bucket_of t (ezcb_buckets st))
             ++ ezcb_unlock
         | None => unregister_table_mutex cfg fn ctx table ++ ezcb_unlock
         end
     end.

(** The discipline of a plain mutex, for one thread that does not hold
    it at first when [held] is [false]: it is locked only while not held,
    unlocked only while held, and not held in the end. *)
Fixpoint mutex_discipline (held : bool) (ops : list mutex_op) : bool :=
  match ops with
  | [] => negb held
  | EZCB_MUTEX_LOCK :: ops' => negb held && mutex_discipline true ops'
  | EZCB_MUTEX_UNLOCK :: ops' => held && mutex_discipline false ops'
  | _ :: ops' => mutex_discipline held ops'
  end.

(** * Properties *)

(** Reads of a field after writes of fields. *)
Ltac state_simpl :=
  cbn [ezcb_table ezcb_buckets ezcb_count ezcb_free_list ezcb_evt_head
       ezcb_evt_tail ezcb_evt_queue set_table set_buckets set_count
       set_free_list set_evt_head set_evt_tail set_evt_queue registry_of] in *.

(** Naming the five results of a walk of ezcb_trigger. *)
Ltac destruct_walk :=
  match goal with
  | |- context [trigger_chain ?c ?k ?t ?d ?ch ?s ?w] =>
      destruct (trigger_chain c k t d ch s w) as [[[[? ?] ?] ?] ?] eqn:?
  end.

(** Closed goals: conjunctions of equations and comparisons. *)
Ltac by_computation :=
  vm_compute; repeat split;
  first [reflexivity | discriminate | (intro; discriminate)].

(** ** Machine integers, strings, hash *)

Lemma strcmp_eq (a b : string) : strcmp a b = 0 <-> a = b.
Proof.
  unfold strcmp. split; intros H.
  - apply String.compare_eq_iff. destruct (String.compare a b); congruence.
  - subst b. pose proof (String.compare_antisym a a) as Ha.
    destruct (String.compare a a); simpl in Ha; congruence.
Qed.

Lemma strcmp_eqb_true (a b : string) : (strcmp a b =? 0) = true <-> a = b.
Proof. rewrite Z.eqb_eq. apply strcmp_eq. Qed.

Lemma uint32_t_range (z : Z) : 0 <= uint32_t z < 2 ^ 32.
Proof. unfold uint32_t. apply Z.mod_pos_bound. lia. Qed.

Lemma lxor_byte_range (h c : Z) :
  0 <= h < 2 ^ 32 -> 0 <= c < 2 ^ 8 -> 0 <= Z.lxor h c < 2 ^ 32.
Proof.
  intros Hh Hc. split.
  - apply Z.lxor_nonneg. lia.
  - destruct (Z.eq_dec (Z.lxor h c) 0) as [->|Hne]; [lia|].
    apply Z.log2_lt_cancel. rewrite (Z.log2_pow2 32) by lia.
    eapply Z.le_lt_trans; [apply Z.log2_lxor; lia|].
    assert (Z.log2 h < 32).
    { destruct (Z.eq_dec h 0) as [->|]; [simpl; lia|].
      apply Z.log2_lt_pow2; lia. }
    assert (Z.log2 c < 32).
    { destruct (Z.eq_dec c 0) as [->|]; [simpl; lia|].
      apply Z.log2_lt_pow2; lia. }
    lia.
Qed.

Lemma ezcb_hash_loop_range (s : string) (h : Z) :
  0 <= h < 2 ^ 32 -> 0 <= ezcb_hash_loop s h < 2 ^ 32.
Proof.
  revert h. induction s as [|c s IH]; intros h Hh; simpl; [done|].
  apply IH. apply lxor_byte_range; [apply uint32_t_range|].
  pose proof (nat_ascii_bounded c). change (2 ^ 8) with 256. lia.
Qed.

(** The hash is a 32-bit value. *)
Lemma ezcb_hash_range (s : string) : 0 <= ezcb_hash s < 2 ^ 32.
Proof. apply ezcb_hash_loop_range. lia. Qed.

(** The conversion of the bucket index to [uint32_t] loses nothing. *)
Lemma bucket_of_eq (trigger : string) (buckets : Z) :
  0 < buckets ->
  bucket_of trigger buckets = Z.to_nat (ezcb_hash trigger mod buckets).
Proof.
  intros Hb. unfold bucket_of, uint32_t. f_equal.
  apply Z.mod_small.
  pose proof (ezcb_hash_range trigger).
  pose proof (Z.mod_pos_bound (ezcb_hash trigger) buckets Hb).
  pose proof (Z.mod_le (ezcb_hash trigger) buckets). lia.
Qed.

Lemma bucket_of_lt (trigger : string) (buckets : Z) :
  0 < buckets -> (bucket_of trigger buckets < Z.to_nat buckets)%nat.
Proof.
  intros Hb. rewrite bucket_of_eq by done.
  pose proof (Z.mod_pos_bound (ezcb_hash trigger) buckets Hb). lia.
Qed.

(** ** The uninitialized registry *)

Lemma ezcb_init_initialized (cfg : ezcb_config) (h : heap) (st : ezcb_state) :
  is_Some (ezcb_table st) -> ezcb_init cfg h st = st.
Proof. intros [t Ht]. unfold ezcb_init. by rewrite Ht. Qed.

Lemma ezcb_init_table (cfg : ezcb_config) (h : heap) (st : ezcb_state) :
  ezcb_table st = None ->
  EZCB_NO_MALLOC cfg = true \/ calloc_init h = true ->
  ezcb_table (ezcb_init cfg h st)
  = Some (replicate (Z.to_nat (if EZCB_NO_MALLOC cfg
                               then EZCB_MAX_BUCKETS cfg else 16)) []).
Proof.
  intros Ht Hres. unfold ezcb_init. rewrite Ht.
  destruct (EZCB_NO_MALLOC cfg); simpl; [done|].
  destruct Hres as [Hm|Hc]; [done|]. by rewrite Hc.
Qed.

Lemma implicit_init_idem (cfg : ezcb_config) (h : heap) (st : ezcb_state) :
  implicit_init cfg h (implicit_init cfg h st) = implicit_init cfg h st.
Proof.
  unfold implicit_init, ezcb_init.
  destruct (ezcb_table st) eqn:Ht; rewrite ?Ht; [done|].
  destruct (EZCB_NO_MALLOC cfg); simpl; [done|].
  destruct (calloc_init h); done.
Qed.

Lemma ezcb_register_internal_init (cfg : ezcb_config) (h : heap)
    (trigger : string) (priority fn ctx : Z) (once : bool) (st : ezcb_state) :
  ezcb_register_internal cfg h trigger priority fn ctx once st
  = ezcb_register_internal cfg h trigger priority fn ctx once
      (implicit_init cfg h st).
Proof.
  unfold ezcb_register_internal.
  fold (implicit_init cfg h st).
  fold (implicit_init cfg h (implicit_init cfg h st)).
  by rewrite implicit_init_idem.
Qed.

(** What holds of an uninitialized registry ([ezcb_table] null) when
    the first ezcb_init sets the table up (always under EZCB_NO_MALLOC,
    when its calloc succeeds otherwise): a second ezcb_init changes
    nothing; ezcb_unregister returns 0, ezcb_trigger invokes no callback
    and ezcb_deinit leaves the registry as it is, uninitialized; a
    register call does what it does on the registry that ezcb_init makes
    of this one. *)
Theorem uninitialized_registry (cfg : ezcb_config) {W : Type}
    (call : Z -> Z -> Z -> W -> ezcb_result_t * W)
    (st : ezcb_state) (h1 h2 h : heap)
    (utrigger : option string) (ufn uctx : Z)
    (ttrigger : string) (tdata : Z) (w : W)
    (rtrigger : string) (rpriority rfn rctx : Z) (ronce : bool) :
  ezcb_table st = None ->
  EZCB_NO_MALLOC cfg = true \/ calloc_init h1 = true ->
  (is_Some (ezcb_table (ezcb_init cfg h1 st))
   /\ ezcb_init cfg h2 (ezcb_init cfg h1 st) = ezcb_init cfg h1 st)
  /\ ezcb_unregister cfg utrigger ufn uctx st = (st, 0)
  /\ ezcb_trigger cfg call ttrigger tdata st w = (st, w, [])
  /\ (ezcb_deinit cfg st = st /\ ezcb_table (ezcb_deinit cfg st) = None)
  /\ ezcb_register_internal cfg h rtrigger rpriority rfn rctx ronce st
     = ezcb_register_internal cfg h rtrigger rpriority rfn rctx ronce
         (ezcb_init cfg h st).
Proof.
  intros Ht Hres.
  assert (Hsome : is_Some (ezcb_table (ezcb_init cfg h1 st))).
  { rewrite ezcb_init_table by done. by eexists. }
  repeat split.
  - done.
  - by apply ezcb_init_initialized.
  - unfold ezcb_unregister. by rewrite Ht.
  - unfold ezcb_trigger. by rewrite Ht.
  - unfold ezcb_deinit. by rewrite Ht.
  - unfold ezcb_deinit. by rewrite Ht.
  - rewrite ezcb_register_internal_init. unfold implicit_init. by rewrite Ht.
Qed.

Lemma uninitialized_registry_witness :
  let cfg := default_config in
  let st := initial_state default_config in
  let h := heap_gives 4096 in
  (ezcb_table st = None /\ calloc_init h = true)
  /\ (is_Some (ezcb_table (ezcb_init cfg h st))
      /\ ezcb_init cfg heap_exhausted (ezcb_init cfg h st) = ezcb_init cfg h st)
  /\ ezcb_unregister cfg (Some "boot"%string) NULL NULL st = (st, 0)
  /\ ezcb_trigger cfg logging_call "boot" 7 st [] = (st, [], [])
  /\ (ezcb_deinit cfg st = st /\ ezcb_table (ezcb_deinit cfg st) = None)
  /\ ezcb_register_internal cfg h "boot" 3 1 2 false st
     = ezcb_register_internal cfg h "boot" 3 1 2 false (ezcb_init cfg h st).
Proof.
  intros cfg st h. split; [split; reflexivity|].
  apply (uninitialized_registry cfg logging_call st h heap_exhausted h).
  - reflexivity.
  - right. reflexivity.
Defined.

(** C8, at the input where the code departs from it. Without
    EZCB_NO_MALLOC, at program start, with a calloc that fails: ezcb_init
    does not test the result, so it leaves [ezcb_table] null, yet
    [ezcb_buckets] at 16; a second ezcb_init, whose calloc succeeds, then
    changes the state; and a register call that meets the failure does
    not proceed normally: when the malloc of the node succeeds it indexes
    the null table (the run has no result), and only when that malloc
    fails too does it return -1. With a calloc that succeeds the register
    call returns 0 and links the node. *)
Theorem failed_calloc_uninitialized_registry :
  let cfg := default_config in
  let st := initial_state cfg in
  let st1 := ezcb_init cfg heap_no_table st in
  ezcb_table st = None
  /\ (ezcb_table st1 = None /\ ezcb_buckets st1 = 16 /\ st1 <> st)
  /\ (is_Some (ezcb_table (ezcb_init cfg (heap_gives 4096) st1))
      /\ ezcb_init cfg (heap_gives 4096) st1 <> st1)
  /\ ezcb_register_internal cfg heap_no_table "boot" 3 1 2 false st = None
  /\ ezcb_register_internal cfg heap_exhausted "boot" 3 1 2 false st
     = Some (st1, -1)
  /\ exists st',
       ezcb_register_internal cfg (heap_gives 4096) "boot" 3 1 2 false st
       = Some (st', 0)
       /\ registered_nodes st' = [new_node 4096 "boot" 3 1 2 false].
Proof.
  intros cfg st st1. split_and!.
  - reflexivity.
  - reflexivity.
  - reflexivity.
  - intros Heq. apply (f_equal ezcb_buckets) in Heq. discriminate Heq.
  - vm_compute. eexists. reflexivity.
  - intros Heq. apply (f_equal ezcb_table) in Heq. discriminate Heq.
  - vm_compute. reflexivity.
  - vm_compute. reflexivity.
  - eexists. split; vm_compute; reflexivity.
Qed.

(** ** Registration under EZCB_NO_MALLOC: the length of the name *)

Lemma implicit_init_initialized (cfg : ezcb_config) (h : heap)
    (st : ezcb_state) :
  is_Some (ezcb_table st) -> implicit_init cfg h st = st.
Proof. intros [t Ht]. unfold implicit_init. by rewrite Ht. Qed.

Lemma implicit_init_static_table (cfg : ezcb_config) (h : heap)
    (st : ezcb_state) :
  EZCB_NO_MALLOC cfg = true -> is_Some (ezcb_table (implicit_init cfg h st)).
Proof.
  intros Hm. unfold implicit_init.
  destruct (ezcb_table st) eqn:Ht; [by rewrite Ht|].
  rewrite ezcb_init_table by auto. by eexists.
Qed.

(** C7, as the code has it. Under EZCB_NO_MALLOC a register call with a
    name of EZCB_MAX_TRIGGER_LENGTH bytes or more returns -1 whatever the
    free list holds, and acquires no node: the state it leaves is the one
    it found if the registry was initialized, and the freshly initialized,
    empty registry if it was not. A name one byte shorter is accepted when
    the free list has a node: the call returns 0, takes the head of the
    free list and links the node into the bucket of the name. *)
Theorem register_trigger_length (cfg : ezcb_config) (h : heap)
    (trigger : string) (priority fn ctx : Z) (once : bool) (st : ezcb_state) :
  EZCB_NO_MALLOC cfg = true ->
  (strlen trigger >= EZCB_MAX_TRIGGER_LENGTH cfg ->
     ezcb_register_internal cfg h trigger priority fn ctx once st
     = Some (implicit_init cfg h st, -1))
  /\ (is_Some (ezcb_table st) -> implicit_init cfg h st = st)
  /\ (ezcb_table st = None ->
      implicit_init cfg h st = ezcb_init cfg h st
      /\ ezcb_table (ezcb_init cfg h st)
         = Some (replicate (Z.to_nat (EZCB_MAX_BUCKETS cfg)) [])
      /\ ezcb_count (ezcb_init cfg h st) = 0)
  /\ (strlen trigger = EZCB_MAX_TRIGGER_LENGTH cfg - 1 ->
      forall a free_list,
        ezcb_free_list (implicit_init cfg h st) = a :: free_list ->
        exists table,
          ezcb_table (implicit_init cfg h st) = Some table
          /\ ezcb_register_internal cfg h trigger priority fn ctx once st
             = let st0 := implicit_init cfg h st in
               let idx := bucket_of trigger (ezcb_buckets st0) in
               let node := {| node_addr := a; node_trigger := trigger;
                              node_priority := priority; node_once := once;
                              node_fn := fn; node_ctx := ctx |} in
               let chain :=
                 register_insert trigger priority node (table !!! idx) in
               Some (set_count (size_t (ezcb_count st0 + 1))
                       (set_table (Some (<[idx := chain]> table))
                          (set_free_list free_list st0)), 0)).
Proof.
  intros Hm. repeat split.
  - intros Hlen. unfold ezcb_register_internal.
    fold (implicit_init cfg h st). rewrite Hm.
    destruct (Z.geb_spec (strlen trigger) (EZCB_MAX_TRIGGER_LENGTH cfg));
      [done | lia].
  - apply implicit_init_initialized.
  - unfold implicit_init in *. by rewrite H.
  - rewrite ezcb_init_table by auto. by rewrite Hm.
  - unfold ezcb_init. rewrite H, Hm. done.
  - intros Hlen a free_list Hfl.
    destruct (implicit_init_static_table cfg h st Hm) as [table Ht].
    exists table. split; [done|].
    unfold ezcb_register_internal.
    fold (implicit_init cfg h st). rewrite Hm.
    destruct (Z.geb_spec (strlen trigger) (EZCB_MAX_TRIGGER_LENGTH cfg));
      [lia|].
    unfold register_node, ezcb_node_alloc. rewrite Hm, Hfl. simpl.
    rewrite Ht. done.
Qed.

Lemma register_trigger_length_witness :
  let cfg := static_config in
  let h := heap_exhausted in
  let st := ezcb_init cfg h (initial_state cfg) in
  let long := "0123456789abcdef0123456789abcdef"%string in
  let short := "0123456789abcdef0123456789abcde"%string in
  (EZCB_NO_MALLOC cfg = true
   /\ strlen long >= EZCB_MAX_TRIGGER_LENGTH cfg
   /\ strlen short = EZCB_MAX_TRIGGER_LENGTH cfg - 1
   /\ is_Some (ezcb_table st))
  /\ ezcb_register_internal cfg h long 1 2 3 false st = Some (st, -1)
  /\ exists st',
       ezcb_register_internal cfg h short 1 2 3 false st = Some (st', 0)
       /\ ezcb_count st' = 1
       /\ ezcb_free_list st = 63 :: ezcb_free_list st'.
Proof.
  intros cfg h st long short.
  assert (Hm : EZCB_NO_MALLOC cfg = true) by reflexivity.
  assert (Hlong : strlen long >= EZCB_MAX_TRIGGER_LENGTH cfg)
    by by_computation.
  assert (Hshort : strlen short = EZCB_MAX_TRIGGER_LENGTH cfg - 1)
    by by_computation.
  assert (Ht : is_Some (ezcb_table st)) by (by eexists).
  split; [exact (conj Hm (conj Hlong (conj Hshort Ht)))|].
  destruct (register_trigger_length cfg h long 1 2 3 false st Hm)
    as (Hreject & Hsame & _).
  destruct (register_trigger_length cfg h short 1 2 3 false st Hm)
    as (_ & _ & _ & Haccept).
  split.
  - rewrite (Hreject Hlong). by rewrite (Hsame Ht).
  - destruct (Haccept Hshort 63 (tail (ezcb_free_list st)))
      as (table & _ & Hrun); [by rewrite (Hsame Ht)|].
    eexists. split; [exact Hrun|]. rewrite (Hsame Ht). split; reflexivity.
Defined.

(** C7 as stated fails: on the uninitialized registry a register call with
    a name of EZCB_MAX_TRIGGER_LENGTH bytes returns -1 and leaves the
    registry initialized, not as it was. *)
Lemma register_long_name_initializes :
  let st := initial_state static_config in
  let long := "0123456789abcdef0123456789abcdef"%string in
  strlen long >= EZCB_MAX_TRIGGER_LENGTH static_config
  /\ exists st',
       ezcb_register static_config heap_exhausted long 1 2 3 st
       = Some (st', -1)
       /\ st' <> st
       /\ ezcb_table st = None
       /\ ezcb_table st' = Some (replicate 32 [])
       /\ ezcb_buckets st = 0 /\ ezcb_buckets st' = 32
       /\ ezcb_free_list st = [] /\ length (ezcb_free_list st') = 64%nat.
Proof.
  intros st long. split; [by vm_compute|].
  eexists. split; [vm_compute; reflexivity|].
  split; [intros Heq; apply (f_equal ezcb_buckets) in Heq; discriminate Heq|].
  repeat split.
Qed.

(** ** The deferred queue *)

Section Queue.

Variable cfg : ezcb_config.

Let slots := EZCB_EVENT_QUEUE_SIZE cfg.
Let size := ring_size cfg.

Lemma ring_size_range : 0 < slots -> 0 < size <= 256 /\ size <= slots.
Proof. unfold size, ring_size, slots. lia. Qed.

(** The successor of an index, as the code computes it. *)
Lemma ring_next (x : Z) :
  0 < slots -> 0 <= x < size ->
  uint8_t ((x + 1) mod slots) = (if x + 1 =? size then 0 else x + 1)
  /\ 0 <= uint8_t ((x + 1) mod slots) < size
  /\ uint8_t ((x + 1) mod slots) = (x + 1) mod size.
Proof.
  intros Hslots Hx. destruct (ring_size_range Hslots) as [Hs Hle].
  assert (Hcode : uint8_t ((x + 1) mod slots)
                  = if x + 1 =? size then 0 else x + 1).
  { unfold uint8_t. destruct (Z.eqb_spec (x + 1) size) as [Heq|Hne].
    - destruct (Z.eq_dec slots size) as [Hsame|Hmore].
      + rewrite Heq, <- Hsame, Z.mod_same by lia. done.
      + assert (size = 256) as Hfull
          by (unfold size, ring_size, slots in *; lia).
        rewrite (Z.mod_small (x + 1) slots) by lia.
        rewrite Heq, Hfull. done.
    - rewrite (Z.mod_small (x + 1) slots) by lia.
      rewrite Z.mod_small by lia. done. }
  rewrite Hcode. destruct (Z.eqb_spec (x + 1) size) as [Heq|Hne].
  - rewrite Heq, Z.mod_same by lia. lia.
  - rewrite Z.mod_small by lia. lia.
Qed.

Lemma ring_distance (head tail : Z) :
  0 <= head < size -> 0 <= tail < size ->
  (head - tail) mod size
  = if tail <=? head then head - tail else head - tail + size.
Proof.
  intros Hh Ht. destruct (Z.leb_spec tail head).
  - apply Z.mod_small. lia.
  - rewrite <- (Z.mod_add (head - tail) 1 size) by lia.
    rewrite Z.mod_small by lia. lia.
Qed.

Lemma pending_count_range (st : ezcb_state) :
  queue_ok cfg st -> 0 <= pending_count cfg st <= size - 1.
Proof.
  intros (Hslots & Hh & Ht & _). destruct (ring_size_range Hslots) as [Hs _].
  unfold pending_count. fold size.
  pose proof (Z.mod_pos_bound (ezcb_evt_head st - ezcb_evt_tail st) size).
  lia.
Qed.

Lemma pending_count_zero (st : ezcb_state) :
  queue_ok cfg st ->
  pending_count cfg st = 0 <-> ezcb_evt_tail st = ezcb_evt_head st.
Proof.
  intros (Hslots & Hh & Ht & _). destruct (ring_size_range Hslots) as [Hs _].
  unfold pending_count. fold size in Hh, Ht |- *.
  rewrite ring_distance by done.
  destruct (Z.leb_spec (ezcb_evt_tail st) (ezcb_evt_head st)); lia.
Qed.

Lemma queue_slice_snoc (queue : list ezcb_evt) (from : Z) (n : nat) :
  0 < size -> 0 <= from < size ->
  queue_slice size queue from (S n)
  = queue_slice size queue from n
    ++ [queue !!! Z.to_nat ((from + Z.of_nat n) mod size)].
Proof.
  intros Hs. revert from. induction n as [|n IH]; intros from Hf.
  - simpl. rewrite Z.add_0_r, Z.mod_small by lia. done.
  - change (queue_slice size queue from (S (S n)))
      with (queue !!! Z.to_nat from
            :: queue_slice size queue ((from + 1) mod size) (S n)).
    rewrite IH by (apply Z.mod_pos_bound; lia).
    rewrite Zplus_mod_idemp_l.
    replace (from + 1 + Z.of_nat n) with (from + Z.of_nat (S n)) by lia.
    done.
Qed.

Lemma queue_slice_insert (queue : list ezcb_evt) (i : Z) (evt : ezcb_evt)
    (from : Z) (n : nat) :
  0 < size -> 0 <= from < size -> 0 <= i ->
  (forall k, 0 <= k < Z.of_nat n -> (from + k) mod size <> i) ->
  queue_slice size (<[Z.to_nat i := evt]> queue) from n
  = queue_slice size queue from n.
Proof.
  intros Hs. revert from. induction n as [|n IH]; intros from Hf Hi Hne.
  - done.
  - simpl. f_equal.
    + apply list_lookup_total_insert_ne.
      specialize (Hne 0). rewrite Z.add_0_r, Z.mod_small in Hne by lia.
      intros Heq. apply Hne; lia.
    + apply IH; [apply Z.mod_pos_bound; lia | done |].
      intros k Hk. rewrite Zplus_mod_idemp_l.
      replace (from + 1 + k) with (from + (k + 1)) by lia.
      apply Hne. lia.
Qed.

(** What a successful ezcb_trigger_isr does to the pending events. *)
Lemma ezcb_trigger_isr_accepts (trigger : string) (data : Z)
    (st : ezcb_state) :
  queue_ok cfg st -> pending_count cfg st < size - 1 ->
  exists st',
    ezcb_trigger_isr cfg trigger data st = (st', 0)
    /\ queue_ok cfg st'
    /\ ezcb_evt_tail st' = ezcb_evt_tail st
    /\ ezcb_evt_head st' = (ezcb_evt_head st + 1) mod size
    /\ ezcb_evt_head st' <> ezcb_evt_tail st'
    /\ registry_of st' = registry_of st
    /\ pending_count cfg st' = pending_count cfg st + 1
    /\ pending_events cfg st'
       = pending_events cfg st
         ++ [{| evt_trigger := trigger; evt_data := data |}].
Proof.
  intros Hok Hlt. pose proof Hok as (Hslots & Hh & Ht & Hlen).
  fold slots in Hslots, Hlen. fold size in Hh, Ht.
  destruct (ring_size_range Hslots) as [Hs Hle].
  destruct (ring_next (ezcb_evt_head st) Hslots Hh)
    as (Hnext & Hrange & Hnext').
  assert (Hpc : pending_count cfg st
                = if ezcb_evt_tail st <=? ezcb_evt_head st
                  then ezcb_evt_head st - ezcb_evt_tail st
                  else ezcb_evt_head st - ezcb_evt_tail st + size).
  { unfold pending_count. fold size. by apply ring_distance. }
  assert (Hne : uint8_t ((ezcb_evt_head st + 1) mod slots)
                <> ezcb_evt_tail st).
  { rewrite Hnext. rewrite Hpc in Hlt.
    destruct (Z.eqb_spec (ezcb_evt_head st + 1) size);
      destruct (Z.leb_spec (ezcb_evt_tail st) (ezcb_evt_head st)); lia. }
  eexists. split.
  { unfold ezcb_trigger_isr. fold slots.
    destruct (Z.eqb_spec (uint8_t ((ezcb_evt_head st + 1) mod slots))
                (ezcb_evt_tail st)); [done|]. reflexivity. }
  assert (Hpc' : (uint8_t ((ezcb_evt_head st + 1) mod slots)
                  - ezcb_evt_tail st) mod size
                 = pending_count cfg st + 1).
  { rewrite ring_distance by done. rewrite Hpc. rewrite Hnext in Hne |- *.
    destruct (Z.eqb_spec (ezcb_evt_head st + 1) size);
      destruct (Z.leb_spec (ezcb_evt_tail st) (ezcb_evt_head st));
      destruct (Z.leb_spec (ezcb_evt_tail st) 0);
      destruct (Z.leb_spec (ezcb_evt_tail st) (ezcb_evt_head st + 1)); lia. }
  unfold queue_ok. state_simpl. fold slots. fold size.
  repeat split; try done; try lia.
  - by rewrite length_insert.
  - unfold pending_events, pending_count. state_simpl. fold slots.
    fold size. rewrite Hpc'.
    fold (pending_count cfg st).
    pose proof (pending_count_range st Hok) as Hr.
    replace (Z.to_nat (pending_count cfg st + 1))
      with (S (Z.to_nat (pending_count cfg st))) by lia.
    rewrite queue_slice_snoc by lia.
    rewrite Z2Nat.id by lia.
    assert (Hslot : (ezcb_evt_tail st + pending_count cfg st) mod size
                    = ezcb_evt_head st).
    { unfold pending_count. fold size. rewrite Zplus_mod_idemp_r.
      replace (ezcb_evt_tail st + (ezcb_evt_head st - ezcb_evt_tail st))
        with (ezcb_evt_head st) by lia.
      apply Z.mod_small. lia. }
    rewrite Hslot. rewrite list_lookup_total_insert_eq by lia.
    f_equal. apply queue_slice_insert; [lia | lia | lia |].
    intros k Hk Heq.
    assert (k = pending_count cfg st);
      [|unfold pending_count, size in *; lia].
    unfold pending_count. fold size. rewrite <- Heq.
    rewrite Zminus_mod_idemp_l.
    replace (ezcb_evt_tail st + k - ezcb_evt_tail st) with k by lia.
    symmetry. apply Z.mod_small. unfold pending_count, size in *. lia.
Qed.

(** ezcb_trigger_isr refuses exactly when [size - 1] events are pending,
    and then changes nothing. *)
Lemma ezcb_trigger_isr_full (trigger : string) (data : Z) (st : ezcb_state) :
  queue_ok cfg st -> pending_count cfg st = size - 1 ->
  ezcb_trigger_isr cfg trigger data st = (st, -1).
Proof.
  intros (Hslots & Hh & Ht & Hlen) Hfull. fold size in Hh, Ht.
  destruct (ring_size_range Hslots) as [Hs Hle].
  destruct (ring_next (ezcb_evt_head st) Hslots Hh) as (Hnext & Hrange & _).
  unfold pending_count in Hfull. fold size in Hfull.
  rewrite ring_distance in Hfull by done.
  unfold ezcb_trigger_isr. fold slots. rewrite Hnext.
  destruct (Z.eqb_spec (ezcb_evt_head st + 1) size);
    destruct (Z.leb_spec (ezcb_evt_tail st) (ezcb_evt_head st));
    match goal with
    | |- context [?a =? ?b] => destruct (Z.eqb_spec a b)
    end; try done; lia.
Qed.

End Queue.

(** C9, as the code has it. The ring of the deferred queue has
    min(EZCB_EVENT_QUEUE_SIZE, 256) slots, the indices being [uint8_t], and
    holds at most one event less: with that many pending, ezcb_trigger_isr
    returns -1 and writes nothing; with fewer, it returns 0, one more event
    is pending, and the producer index has not reached the consumer index.
    With EZCB_EVENT_QUEUE_SIZE up to 256 that capacity is
    EZCB_EVENT_QUEUE_SIZE - 1; above, it is 255. *)
Theorem isr_queue_capacity (cfg : ezcb_config) (trigger : string) (data : Z)
    (st : ezcb_state) :
  queue_ok cfg st ->
  0 <= pending_count cfg st <= ring_size cfg - 1
  /\ (pending_count cfg st = ring_size cfg - 1 ->
      ezcb_trigger_isr cfg trigger data st = (st, -1))
  /\ (pending_count cfg st < ring_size cfg - 1 ->
      exists st',
        ezcb_trigger_isr cfg trigger data st = (st', 0)
        /\ pending_count cfg st' = pending_count cfg st + 1
        /\ ezcb_evt_head st' <> ezcb_evt_tail st')
  /\ (EZCB_EVENT_QUEUE_SIZE cfg <= 256 ->
      ring_size cfg - 1 = EZCB_EVENT_QUEUE_SIZE cfg - 1)
  /\ (256 < EZCB_EVENT_QUEUE_SIZE cfg -> ring_size cfg - 1 = 255).
Proof.
  intros Hok. split; [by apply pending_count_range|]. split_and!.
  - by apply ezcb_trigger_isr_full.
  - intros Hlt.
    destruct (ezcb_trigger_isr_accepts cfg trigger data st Hok Hlt)
      as (st' & Hrun & _ & _ & _ & Hne & _ & Hpc & _).
    by exists st'.
  - unfold ring_size. lia.
  - unfold ring_size. lia.
Qed.

Lemma isr_queue_capacity_witness :
  let cfg := default_config in
  let st := (enqueue_all cfg fifteen_events (initial_state cfg)).1 in
  queue_ok cfg st
  /\ (enqueue_all cfg fifteen_events (initial_state cfg)).2 = replicate 15 0
  /\ pending_count cfg st = EZCB_EVENT_QUEUE_SIZE cfg - 1
  /\ ezcb_trigger_isr cfg "tock" 16 st = (st, -1).
Proof.
  intros cfg st.
  assert (Hok : queue_ok cfg st) by by_computation.
  split; [exact Hok|]. split; [by_computation|]. split; [by_computation|].
  apply (isr_queue_capacity cfg "tock" 16 st Hok). by_computation.
Defined.

(** C9 as stated fails for a queue of more than 256 slots: with
    EZCB_EVENT_QUEUE_SIZE at 300, 255 calls of ezcb_trigger_isr succeed and
    the next one returns -1, with 255 events pending and not 299. *)
Lemma isr_queue_of_300_slots :
  let cfg := wide_queue_config in
  let run := enqueue_all cfg (numbered_events 255) (initial_state cfg) in
  EZCB_EVENT_QUEUE_SIZE cfg = 300
  /\ run.2 = replicate 255 0
  /\ pending_count cfg run.1 = 255
  /\ 255 < EZCB_EVENT_QUEUE_SIZE cfg - 1
  /\ ezcb_trigger_isr cfg "tock" 256 run.1 = (run.1, -1).
Proof. by_computation. Qed.

(** ** ezcb_trigger: what the walk leaves alone *)

Section Trigger.

Variable cfg : ezcb_config.
Context {W : Type}.
Variable call : Z -> Z -> Z -> W -> ezcb_result_t * W.

Lemma trigger_release_set_evt_tail (x : Z) (n : ezcb_node) (st : ezcb_state) :
  trigger_release cfg n (set_evt_tail x st)
  = set_evt_tail x (trigger_release cfg n st).
Proof. unfold trigger_release. by destruct (EZCB_NO_MALLOC cfg). Qed.

Lemma trigger_chain_set_evt_tail (x : Z) (trigger : string) (data : Z)
    (chain : list ezcb_node) (st : ezcb_state) (w : W) :
  trigger_chain cfg call trigger data chain (set_evt_tail x st) w
  = let '(chain', st', w', fired, stopped) :=
      trigger_chain cfg call trigger data chain st w in
    (chain', set_evt_tail x st', w', fired, stopped).
Proof.
  revert st w. induction chain as [|n next IH]; intros st w; simpl; [done|].
  destruct (strcmp (node_trigger n) trigger =? 0).
  - destruct (call (node_fn n) (node_ctx n) data w) as [r w1].
    destruct (node_once n), (is_stop r);
      rewrite ?trigger_release_set_evt_tail, ?IH; try done;
      by destruct_walk.
  - rewrite IH. by destruct_walk.
Qed.

Lemma ezcb_trigger_set_evt_tail (x : Z) (trigger : string) (data : Z)
    (st : ezcb_state) (w : W) :
  ezcb_trigger cfg call trigger data (set_evt_tail x st) w
  = let '(st', w', fired) := ezcb_trigger cfg call trigger data st w in
    (set_evt_tail x st', w', fired).
Proof.
  unfold ezcb_trigger. state_simpl.
  destruct (ezcb_table st) as [table|]; [|done].
  rewrite trigger_chain_set_evt_tail. by destruct_walk.
Qed.

Lemma run_triggers_set_evt_tail (x : Z) (evts : list ezcb_evt)
    (st : ezcb_state) (w : W) :
  run_triggers cfg call evts (set_evt_tail x st) w
  = let '(st', w', fired) := run_triggers cfg call evts st w in
    (set_evt_tail x st', w', fired).
Proof.
  revert st w. induction evts as [|evt evts IH]; intros st w; simpl; [done|].
  rewrite ezcb_trigger_set_evt_tail.
  destruct (ezcb_trigger cfg call (evt_trigger evt) (evt_data evt) st w)
    as [[st1 w1] fired1].
  rewrite IH. by destruct (run_triggers cfg call evts st1 w1) as [[? ?] ?].
Qed.

(** The walk writes [ezcb_free_list] and [ezcb_count] only. *)
Lemma trigger_chain_frame (trigger : string) (data : Z)
    (chain : list ezcb_node) (st : ezcb_state) (w : W) :
  let st' := (trigger_chain cfg call trigger data chain st w).1.1.1.2 in
  ezcb_table st' = ezcb_table st
  /\ ezcb_buckets st' = ezcb_buckets st
  /\ ezcb_evt_head st' = ezcb_evt_head st
  /\ ezcb_evt_tail st' = ezcb_evt_tail st
  /\ ezcb_evt_queue st' = ezcb_evt_queue st.
Proof.
  revert st w. induction chain as [|n next IH]; intros st w; simpl; [done|].
  assert (Hrel : forall s,
    ezcb_table (trigger_release cfg n s) = ezcb_table s
    /\ ezcb_buckets (trigger_release cfg n s) = ezcb_buckets s
    /\ ezcb_evt_head (trigger_release cfg n s) = ezcb_evt_head s
    /\ ezcb_evt_tail (trigger_release cfg n s) = ezcb_evt_tail s
    /\ ezcb_evt_queue (trigger_release cfg n s) = ezcb_evt_queue s).
  { intros s. unfold trigger_release. by destruct (EZCB_NO_MALLOC cfg). }
  destruct (strcmp (node_trigger n) trigger =? 0).
  - destruct (call (node_fn n) (node_ctx n) data w) as [r w1].
    destruct (node_once n), (is_stop r).
    + apply Hrel.
    + specialize (IH (trigger_release cfg n st) w1).
      destruct_walk. cbn [fst snd] in *.
      destruct (Hrel st) as (<- & <- & <- & <- & <-). done.
    + done.
    + specialize (IH st w1). by destruct_walk.
  - specialize (IH st w). by destruct_walk.
Qed.

Lemma ezcb_trigger_frame (trigger : string) (data : Z)
    (st : ezcb_state) (w : W) :
  let st' := (ezcb_trigger cfg call trigger data st w).1.1 in
  ezcb_buckets st' = ezcb_buckets st
  /\ ezcb_evt_head st' = ezcb_evt_head st
  /\ ezcb_evt_tail st' = ezcb_evt_tail st
  /\ ezcb_evt_queue st' = ezcb_evt_queue st.
Proof.
  unfold ezcb_trigger.
  destruct (ezcb_table st) as [table|]; [|done].
  pose proof (trigger_chain_frame trigger data
                (table !!! bucket_of trigger (ezcb_buckets st)) st w) as H.
  destruct_walk. simpl in *. state_simpl. tauto.
Qed.

Lemma run_triggers_frame (evts : list ezcb_evt) (st : ezcb_state) (w : W) :
  let st' := (run_triggers cfg call evts st w).1.1 in
  ezcb_buckets st' = ezcb_buckets st
  /\ ezcb_evt_head st' = ezcb_evt_head st
  /\ ezcb_evt_tail st' = ezcb_evt_tail st
  /\ ezcb_evt_queue st' = ezcb_evt_queue st.
Proof.
  revert st w. induction evts as [|evt evts IH]; intros st w; simpl; [done|].
  pose proof (ezcb_trigger_frame (evt_trigger evt) (evt_data evt) st w) as H1.
  destruct (ezcb_trigger cfg call (evt_trigger evt) (evt_data evt) st w)
    as [[st1 w1] fired1].
  specialize (IH st1 w1).
  destruct (run_triggers cfg call evts st1 w1) as [[st2 w2] fired2].
  cbn [fst snd] in *.
  destruct H1 as (<- & <- & <- & <-). done.
Qed.

End Trigger.

(** ** ezcb_dispatch *)

Section Dispatch.

Variable cfg : ezcb_config.
Context {W : Type}.
Variable call : Z -> Z -> Z -> W -> ezcb_result_t * W.

Let slots := EZCB_EVENT_QUEUE_SIZE cfg.
Let size := ring_size cfg.

Lemma set_evt_tail_same (st : ezcb_state) :
  set_evt_tail (ezcb_evt_tail st) st = st.
Proof. by destruct st. Qed.

(** Popping the oldest event. *)
Lemma pending_events_pop (st : ezcb_state) :
  queue_ok cfg st -> ezcb_evt_tail st <> ezcb_evt_head st ->
  let st1 :=
    set_evt_tail (uint8_t ((ezcb_evt_tail st + 1) mod slots)) st in
  queue_ok cfg st1
  /\ pending_count cfg st1 = pending_count cfg st - 1
  /\ pending_events cfg st
     = ezcb_evt_queue st !!! Z.to_nat (ezcb_evt_tail st)
       :: pending_events cfg st1.
Proof.
  intros Hok Hne st1. pose proof Hok as (Hslots & Hh & Ht & Hlen).
  fold slots in Hslots, Hlen. fold size in Hh, Ht.
  destruct (ring_size_range cfg Hslots) as [Hs Hle]. fold size in Hs, Hle.
  destruct (ring_next cfg (ezcb_evt_tail st) Hslots Ht)
    as (Hnext & Hrange & Hnext').
  fold slots in Hnext, Hrange, Hnext'. fold size in Hnext, Hrange, Hnext'.
  assert (Hpc : pending_count cfg st1 = pending_count cfg st - 1).
  { unfold pending_count, st1. state_simpl. fold size.
    rewrite !(ring_distance cfg) by done. fold size. rewrite Hnext.
    destruct (Z.eqb_spec (ezcb_evt_tail st + 1) size);
      destruct (Z.leb_spec (ezcb_evt_tail st) (ezcb_evt_head st));
      destruct (Z.leb_spec 0 (ezcb_evt_head st));
      destruct (Z.leb_spec (ezcb_evt_tail st + 1) (ezcb_evt_head st)); lia. }
  split; [|split; [done|]].
  - unfold queue_ok, st1. state_simpl. fold slots. fold size. done.
  - pose proof (pending_count_range cfg st1) as Hr1.
    unfold pending_events. rewrite Hpc. fold size.
    assert (0 <= pending_count cfg st - 1).
    { rewrite <- Hpc. apply Hr1. unfold queue_ok, st1. state_simpl.
      fold slots. fold size. done. }
    replace (Z.to_nat (pending_count cfg st))
      with (S (Z.to_nat (pending_count cfg st - 1))) by lia.
    unfold st1. state_simpl. by rewrite Hnext'.
Qed.

(** With fuel above the number of pending events, ezcb_dispatch returns:
    it has called ezcb_trigger on each pending event, oldest first, and
    has moved the consumer index up to the producer index. *)
Lemma ezcb_dispatch_run (fuel : nat) (st : ezcb_state) (w : W) :
  queue_ok cfg st -> (Z.to_nat (pending_count cfg st) < fuel)%nat ->
  ezcb_dispatch cfg call fuel st w
  = let '(st', w', fired) :=
      run_triggers cfg call (pending_events cfg st) st w in
    Some (set_evt_tail (ezcb_evt_head st) st', w', fired).
Proof.
  revert st w. induction fuel as [|fuel IH]; intros st w Hok Hfuel; [lia|].
  destruct (Z.eq_dec (ezcb_evt_tail st) (ezcb_evt_head st)) as [Heq|Hne].
  - assert (Hz : pending_count cfg st = 0) by by apply pending_count_zero.
    unfold pending_events. rewrite Hz. simpl.
    rewrite <- Heq, set_evt_tail_same.
    rewrite Heq, Z.eqb_refl. done.
  - destruct (pending_events_pop st Hok Hne) as (Hok1 & Hpc1 & Hev).
    rewrite Hev.
    cbn [ezcb_dispatch run_triggers].
    destruct (Z.eqb_spec (ezcb_evt_tail st) (ezcb_evt_head st)); [done|].
    cbn [negb]. fold slots.
    set (evt := ezcb_evt_queue st !!! Z.to_nat (ezcb_evt_tail st)) in *.
    set (nx := uint8_t ((ezcb_evt_tail st + 1) mod slots)) in *.
    rewrite ezcb_trigger_set_evt_tail.
    pose proof (ezcb_trigger_frame cfg call (evt_trigger evt) (evt_data evt)
                  st w) as Hframe.
    destruct (ezcb_trigger cfg call (evt_trigger evt) (evt_data evt) st w)
      as [[sa wa] fa]. cbn [fst snd] in Hframe.
    destruct Hframe as (Hb & Hh & Ht & Hq).
    assert (Hpe : pending_events cfg (set_evt_tail nx sa)
                  = pending_events cfg (set_evt_tail nx st)).
    { unfold pending_events, pending_count. state_simpl.
      by rewrite Hh, Hq. }
    assert (Hok2 : queue_ok cfg (set_evt_tail nx sa)).
    { unfold queue_ok in *. state_simpl. by rewrite Hh, Hq. }
    assert (Hpc2 : pending_count cfg (set_evt_tail nx sa)
                   = pending_count cfg st - 1).
    { rewrite <- Hpc1. unfold pending_count. state_simpl. by rewrite Hh. }
    pose proof (pending_count_range cfg _ Hok2) as Hr2.
    rewrite IH by (done || lia).
    rewrite Hpe, run_triggers_set_evt_tail.
    destruct (run_triggers cfg call (pending_events cfg (set_evt_tail nx st))
                sa wa) as [[sb wb] fb].
    state_simpl. by rewrite Hh.
Qed.

End Dispatch.

Lemma enqueue_all_accepts (cfg : ezcb_config) (evts : list ezcb_evt)
    (st : ezcb_state) :
  queue_ok cfg st ->
  pending_count cfg st + Z.of_nat (length evts) <= ring_size cfg - 1 ->
  exists st',
    enqueue_all cfg evts st = (st', replicate (length evts) 0)
    /\ queue_ok cfg st'
    /\ registry_of st' = registry_of st
    /\ pending_count cfg st' = pending_count cfg st + Z.of_nat (length evts)
    /\ pending_events cfg st' = pending_events cfg st ++ evts.
Proof.
  revert st. induction evts as [|evt evts IH]; intros st Hok Hroom.
  - exists st. simpl. rewrite app_nil_r. split_and!; try done. lia.
  - cbn [length] in Hroom.
    destruct (ezcb_trigger_isr_accepts cfg (evt_trigger evt) (evt_data evt)
                st Hok)
      as (st1 & Hrun & Hok1 & _ & _ & _ & Hreg1 & Hpc1 & Hev1); [lia|].
    destruct (IH st1 Hok1) as (st2 & Hall & Hok2 & Hreg2 & Hpc2 & Hev2);
      [lia|].
    exists st2. cbn [enqueue_all length replicate]. rewrite Hrun, Hall.
    split_and!; try done.
    + congruence.
    + lia.
    + rewrite Hev2, Hev1, <- app_assoc. by destruct evt.
Qed.

Lemma length_queue_slice (size : Z) (queue : list ezcb_evt) (from : Z)
    (n : nat) :
  length (queue_slice size queue from n) = n.
Proof. revert from. induction n; intros; simpl; by f_equal. Qed.

(** C4. With fewer events pending than the ring takes (one less than its
    size, which is EZCB_EVENT_QUEUE_SIZE up to 256 slots),
    ezcb_trigger_isr returns 0, moves the producer index one slot on and
    leaves the consumer index and the registry alone: the event is the
    newest pending one. Otherwise it returns -1 and the state is unchanged.
    ezcb_dispatch, given fuel above the number of pending events, calls
    ezcb_trigger once for each pending event, oldest first, and leaves the
    queue empty. So events enqueued in a row are triggered in that order. *)
Theorem deferred_queue_fifo (cfg : ezcb_config) {W : Type}
    (call : Z -> Z -> Z -> W -> ezcb_result_t * W)
    (trigger : string) (data : Z) (evts : list ezcb_evt)
    (st : ezcb_state) (w : W) (fuel : nat) :
  queue_ok cfg st ->
  (pending_count cfg st < ring_size cfg - 1 ->
     exists st',
       ezcb_trigger_isr cfg trigger data st = (st', 0)
       /\ ezcb_evt_head st' = (ezcb_evt_head st + 1) mod ring_size cfg
       /\ ezcb_evt_tail st' = ezcb_evt_tail st
       /\ registry_of st' = registry_of st
       /\ pending_events cfg st'
          = pending_events cfg st
            ++ [{| evt_trigger := trigger; evt_data := data |}])
  /\ (~ pending_count cfg st < ring_size cfg - 1 ->
      ezcb_trigger_isr cfg trigger data st = (st, -1))
  /\ ((length (pending_events cfg st) < fuel)%nat ->
      exists st' w' fired,
        run_triggers cfg call (pending_events cfg st) st w = (st', w', fired)
        /\ ezcb_dispatch cfg call fuel st w
           = Some (set_evt_tail (ezcb_evt_head st) st', w', fired)
        /\ pending_events cfg (set_evt_tail (ezcb_evt_head st) st') = [])
  /\ (pending_count cfg st + Z.of_nat (length evts) <= ring_size cfg - 1 ->
      exists st',
        enqueue_all cfg evts st = (st', replicate (length evts) 0)
        /\ pending_events cfg st' = pending_events cfg st ++ evts).
Proof.
  intros Hok. repeat split.
  - intros Hlt.
    destruct (ezcb_trigger_isr_accepts cfg trigger data st Hok Hlt)
      as (st' & Hrun & _ & Ht & Hh & _ & Hreg & _ & Hev).
    by exists st'.
  - intros Hfull. apply ezcb_trigger_isr_full; [done|].
    pose proof (pending_count_range cfg st Hok). lia.
  - intros Hfuel.
    unfold pending_events in Hfuel. rewrite length_queue_slice in Hfuel.
    pose proof (ezcb_dispatch_run cfg call fuel st w Hok Hfuel) as Hrun.
    pose proof (run_triggers_frame cfg call (pending_events cfg st) st w)
      as Hframe.
    destruct (run_triggers cfg call (pending_events cfg st) st w)
      as [[st' w'] fired] eqn:Hr.
    cbn [fst snd] in Hframe. destruct Hframe as (_ & Hh & _ & _).
    exists st', w', fired. repeat split; [done|].
    unfold pending_events, pending_count. state_simpl.
    rewrite Hh, Z.sub_diag, Z.mod_0_l; [done|].
    destruct Hok as [Hslots _]. unfold ring_size. lia.
  - intros Hroom.
    destruct (enqueue_all_accepts cfg evts st Hok Hroom)
      as (st' & Hall & _ & _ & _ & Hev).
    by exists st'.
Qed.

Lemma deferred_queue_fifo_witness :
  let cfg := default_config in
  let st := abc_registry in
  queue_ok cfg st
  /\ pending_count cfg st + Z.of_nat (length abc_events)
       <= ring_size cfg - 1
  /\ exists st',
       enqueue_all cfg abc_events st = (st', replicate (length abc_events) 0)
       /\ pending_events cfg st' = pending_events cfg st ++ abc_events.
Proof.
  intros cfg st.
  assert (Hok : queue_ok cfg st) by by_computation.
  assert (Hroom : pending_count cfg st + Z.of_nat (length abc_events)
                  <= ring_size cfg - 1) by by_computation.
  split; [exact Hok|]. split; [exact Hroom|].
  apply (deferred_queue_fifo cfg logging_call "A" 10 abc_events st [] 16 Hok).
  exact Hroom.
Defined.

(** Events A, B, C enqueued and dispatched: the callbacks of A, B and C
    run in that order, and the queue is empty afterwards. *)
Example dispatch_abc :
  let cfg := default_config in
  let st := (enqueue_all cfg abc_events abc_registry).1 in
  exists st',
    ezcb_dispatch cfg logging_call 16 st [] = Some (st', [1; 2; 3], 
      [{| node_addr := 4096; node_trigger := "A"; node_priority := 0;
          node_once := false; node_fn := 1; node_ctx := 0 |};
       {| node_addr := 4128; node_trigger := "B"; node_priority := 0;
          node_once := false; node_fn := 2; node_ctx := 0 |};
       {| node_addr := 4160; node_trigger := "C"; node_priority := 0;
          node_once := false; node_fn := 3; node_ctx := 0 |}])
    /\ pending_events cfg st = abc_events
    /\ pending_events cfg st' = [].
Proof. eexists. split; [vm_compute; reflexivity|]. by vm_compute. Qed.

(** ** ezcb_trigger: the walk of a chain *)

Section Walk.

Variable cfg : ezcb_config.
Context {W : Type}.
Variable call : Z -> Z -> Z -> W -> ezcb_result_t * W.

(** The walk of [pre ++ post] is the walk of [pre] followed, unless that
    one has left through [break], by the walk of [post]. *)
Lemma trigger_chain_app (trigger : string) (data : Z)
    (pre post : list ezcb_node) (st : ezcb_state) (w : W) :
  trigger_chain cfg call trigger data (pre ++ post) st w
  = let '(pre', st1, w1, fired1, stopped1) :=
      trigger_chain cfg call trigger data pre st w in
    if stopped1 then (pre' ++ post, st1, w1, fired1, true)
    else
      let '(post', st2, w2, fired2, stopped2) :=
        trigger_chain cfg call trigger data post st1 w1 in
      (pre' ++ post', st2, w2, fired1 ++ fired2, stopped2).
Proof.
  revert st w. induction pre as [|n pre IH]; intros st w.
  - simpl. by destruct_walk.
  - cbn [app trigger_chain].
    destruct (strcmp (node_trigger n) trigger =? 0).
    + destruct (call (node_fn n) (node_ctx n) data w) as [r w1].
      destruct (node_once n), (is_stop r); try done.
      * rewrite IH. destruct_walk. destruct b; [done|]. by destruct_walk.
      * rewrite IH. destruct_walk. destruct b; [done|]. by destruct_walk.
    + rewrite IH. destruct_walk. destruct b; [done|]. by destruct_walk.
Qed.

(** A node of another trigger is stepped over: it stays in the chain,
    and the walk goes on behind it. *)
Lemma trigger_chain_skip (trigger : string) (data : Z) (m : ezcb_node)
    (rest : list ezcb_node) (st : ezcb_state) (w : W) :
  strcmp (node_trigger m) trigger <> 0 ->
  trigger_chain cfg call trigger data (m :: rest) st w
  = let '(rest', st', w', fired, stopped) :=
      trigger_chain cfg call trigger data rest st w in
    (m :: rest', st', w', fired, stopped).
Proof.
  intros Hne. cbn [trigger_chain].
  by destruct (Z.eqb_spec (strcmp (node_trigger m) trigger) 0).
Qed.

(** The walk only unlinks: what it leaves and what it fires are
    sub-sequences of the chain. *)
Lemma trigger_chain_sublist (trigger : string) (data : Z)
    (chain : list ezcb_node) (st : ezcb_state) (w : W) :
  let r := trigger_chain cfg call trigger data chain st w in
  r.1.1.1.1 `sublist_of` chain /\ r.1.2 `sublist_of` chain.
Proof.
  revert st w. induction chain as [|n next IH]; intros st w.
  - simpl. split; constructor.
  - cbn [trigger_chain].
    destruct (strcmp (node_trigger n) trigger =? 0).
    + destruct (call (node_fn n) (node_ctx n) data w) as [r w1].
      destruct (node_once n), (is_stop r); cbn [fst snd].
      * split; [by apply sublist_cons | apply sublist_skip, sublist_nil_l].
      * specialize (IH (trigger_release cfg n st) w1). destruct_walk.
        cbn [fst snd] in *. destruct IH.
        split; [by apply sublist_cons | by apply sublist_skip].
      * split; [done | apply sublist_skip, sublist_nil_l].
      * specialize (IH st w1). destruct_walk.
        cbn [fst snd] in *. destruct IH.
        split; by apply sublist_skip.
    + specialize (IH st w). destruct_walk. cbn [fst snd] in *. destruct IH.
      split; [by apply sublist_skip | by apply sublist_cons].
Qed.

(** The walk only pushes on the free list. *)
Lemma trigger_chain_free_list (trigger : string) (data : Z)
    (chain : list ezcb_node) (st : ezcb_state) (w : W) (a : Z) :
  a ∈ ezcb_free_list st ->
  a ∈ ezcb_free_list (trigger_chain cfg call trigger data chain st w).1.1.1.2.
Proof.
  revert st w. induction chain as [|n next IH]; intros st w Ha; [done|].
  assert (Hrel : a ∈ ezcb_free_list (trigger_release cfg n st)).
  { unfold trigger_release. destruct (EZCB_NO_MALLOC cfg); state_simpl;
      [by apply list_elem_of_further | done]. }
  cbn [trigger_chain].
  destruct (strcmp (node_trigger n) trigger =? 0).
  - destruct (call (node_fn n) (node_ctx n) data w) as [r w1].
    destruct (node_once n), (is_stop r); cbn [fst snd]; try done.
    + specialize (IH (trigger_release cfg n st) w1 Hrel). by destruct_walk.
    + specialize (IH st w1 Ha). by destruct_walk.
  - specialize (IH st w Ha). by destruct_walk.
Qed.

Lemma trigger_release_free_list (n : ezcb_node) (st : ezcb_state) :
  EZCB_NO_MALLOC cfg = true ->
  node_addr n ∈ ezcb_free_list (trigger_release cfg n st).
Proof.
  intros Hm. unfold trigger_release. rewrite Hm. state_simpl.
  apply list_elem_of_here.
Qed.

End Walk.

(** ** The bucket array *)

Lemma concat_lookup (table : list (list ezcb_node)) (i : nat)
    (chain : list ezcb_node) :
  table !! i = Some chain ->
  concat table
  = concat (take i table) ++ chain ++ concat (drop (S i) table).
Proof.
  intros Hi. rewrite <- (take_drop_middle table i chain Hi) at 1.
  by rewrite concat_app.
Qed.

Lemma concat_insert (table : list (list ezcb_node)) (i : nat)
    (chain chain' : list ezcb_node) :
  table !! i = Some chain ->
  concat (<[i := chain']> table)
  = concat (take i table) ++ chain' ++ concat (drop (S i) table).
Proof.
  intros Hi. rewrite insert_take_drop by by eapply lookup_lt_Some.
  by rewrite concat_app.
Qed.

(** Reading a bucket with [!!!]: either the index is in range, or the
    read gives the empty chain and a write at that index is lost. *)
Lemma table_lookup_total (table : list (list ezcb_node)) (i : nat) :
  table !! i = Some (table !!! i)
  \/ (table !!! i = [] /\ forall chain, <[i := chain]> table = table).
Proof.
  destruct (table !! i) as [chain|] eqn:Hi.
  - left. by rewrite (list_lookup_total_correct _ _ _ Hi).
  - right. split.
    + by rewrite list_lookup_total_alt, Hi.
    + intros chain. apply list_insert_ge. by apply lookup_ge_None.
Qed.

(** ** ezcb_trigger: stop, and once *)

Section Fire.

Variable cfg : ezcb_config.
Context {W : Type}.
Variable call : Z -> Z -> Z -> W -> ezcb_result_t * W.

(** C2. A ezcb_trigger call walks the chain [pre ++ n :: post] of the
    bucket of [trigger]. If the walk reaches [n], whose trigger is
    [trigger], and the callback of [n] returns EZCB_STOP, then the call
    has invoked what the walk of [pre] has invoked, then [n], and nothing
    else: no node of [post] is invoked, whatever its trigger, and [post]
    stays linked as it is. A node whose trigger is not [trigger] is
    stepped over: the walk goes on behind it as if it were not there. *)
Theorem stop_halts_walk (trigger : string) (data : Z) (st : ezcb_state)
    (w : W) (table : list (list ezcb_node)) (pre post : list ezcb_node)
    (n : ezcb_node) (pre' : list ezcb_node) (st1 : ezcb_state) (w1 w2 : W)
    (fired1 : list ezcb_node) :
  ezcb_table st = Some table ->
  table !! bucket_of trigger (ezcb_buckets st) = Some (pre ++ n :: post) ->
  trigger_chain cfg call trigger data pre st w
  = (pre', st1, w1, fired1, false) ->
  strcmp (node_trigger n) trigger = 0 ->
  call (node_fn n) (node_ctx n) data w1 = (EZCB_STOP, w2) ->
  (exists st',
     ezcb_trigger cfg call trigger data st w = (st', w2, fired1 ++ [n])
     /\ ezcb_table st'
        = Some (<[bucket_of trigger (ezcb_buckets st) :=
                   pre' ++ (if node_once n then [] else [n]) ++ post]> table))
  /\ (forall (m : ezcb_node) (rest : list ezcb_node) (s : ezcb_state) (v : W),
        strcmp (node_trigger m) trigger <> 0 ->
        trigger_chain cfg call trigger data (m :: rest) s v
        = let '(rest', s', v', fired, stopped) :=
            trigger_chain cfg call trigger data rest s v in
          (m :: rest', s', v', fired, stopped)).
Proof.
  intros Ht Hchain Hpre Hn Hstop. split.
  - unfold ezcb_trigger. rewrite Ht.
    rewrite (list_lookup_total_correct _ _ _ Hchain).
    rewrite trigger_chain_app, Hpre.
    cbn [trigger_chain]. rewrite Hn, Hstop. cbn [Z.eqb is_stop].
    destruct (node_once n); eexists; (split; [reflexivity|]); done.
  - intros m rest s v Hm. by apply trigger_chain_skip.
Qed.

End Fire.

Section Once.

Variable cfg : ezcb_config.
Context {W : Type}.
Variable call : Z -> Z -> Z -> W -> ezcb_result_t * W.

(** A call fires linked nodes only, and links none. *)
Lemma ezcb_trigger_nodes (trigger : string) (data : Z) (st : ezcb_state)
    (w : W) (x : ezcb_node) :
  let r := ezcb_trigger cfg call trigger data st w in
  (x ∈ r.2 -> x ∈ registered_nodes st)
  /\ (x ∈ registered_nodes r.1.1 -> x ∈ registered_nodes st).
Proof.
  unfold ezcb_trigger, registered_nodes.
  destruct (ezcb_table st) as [table|] eqn:Ht; [|by cbn; rewrite Ht].
  set (idx := bucket_of trigger (ezcb_buckets st)).
  pose proof (trigger_chain_sublist cfg call trigger data
                (table !!! idx) st w) as [Hsub1 Hsub2].
  destruct (trigger_chain cfg call trigger data (table !!! idx) st w)
    as [[[[chain' st'] w'] fired] stopped].
  cbn [fst snd] in *. state_simpl.
  destruct (table_lookup_total table idx) as [Hin|[Hout Hlost]].
  - rewrite (concat_insert _ _ _ _ Hin), (concat_lookup _ _ _ Hin).
    rewrite !elem_of_app. split.
    + intros Hx. right. left. by eapply elem_of_sublist.
    + intros [Hx|[Hx|Hx]]; [by left | | by right; right].
      right. left. by eapply elem_of_sublist.
  - rewrite Hlost. rewrite Hout in Hsub2.
    apply sublist_nil_r in Hsub2 as ->. split; [|done].
    by intros ?%elem_of_nil.
Qed.

Lemma run_triggers_nodes (evts : list ezcb_evt) (st : ezcb_state) (w : W)
    (x : ezcb_node) :
  x ∈ (run_triggers cfg call evts st w).2 -> x ∈ registered_nodes st.
Proof.
  revert st w. induction evts as [|evt evts IH]; intros st w; simpl.
  - by intros ?%elem_of_nil.
  - pose proof (ezcb_trigger_nodes (evt_trigger evt) (evt_data evt) st w x)
      as [Hfired Hleft].
    destruct (ezcb_trigger cfg call (evt_trigger evt) (evt_data evt) st w)
      as [[st1 w1] fired1].
    specialize (IH st1 w1).
    destruct (run_triggers cfg call evts st1 w1) as [[st2 w2] fired2].
    cbn [fst snd] in *. rewrite elem_of_app. intros [Hx|Hx]; auto.
Qed.

(** C3. A ezcb_trigger call walks the chain [pre ++ n :: post] of the
    bucket of [trigger], where [n] is a [once] node of that trigger, and
    the walk reaches [n]; the linked nodes are distinct. Then, whatever
    the callback of [n] returns, the call invokes [n] exactly once, and
    afterwards [n] is linked nowhere in the table; under EZCB_NO_MALLOC
    its slot is on the free list. No later sequence of ezcb_trigger calls
    invokes it. *)
Theorem once_fires_once (trigger : string) (data : Z) (st : ezcb_state)
    (w : W) (table : list (list ezcb_node)) (pre post : list ezcb_node)
    (n : ezcb_node) (pre' : list ezcb_node) (st1 : ezcb_state) (w1 : W)
    (fired1 : list ezcb_node) :
  ezcb_table st = Some table ->
  NoDup (concat table) ->
  table !! bucket_of trigger (ezcb_buckets st) = Some (pre ++ n :: post) ->
  trigger_chain cfg call trigger data pre st w
  = (pre', st1, w1, fired1, false) ->
  strcmp (node_trigger n) trigger = 0 ->
  node_once n = true ->
  exists st' w' fired fired2,
    ezcb_trigger cfg call trigger data st w = (st', w', fired)
    /\ (fired = fired1 ++ n :: fired2 /\ ~ n ∈ fired1 /\ ~ n ∈ fired2)
    /\ ~ n ∈ registered_nodes st'
    /\ (EZCB_NO_MALLOC cfg = true -> node_addr n ∈ ezcb_free_list st')
    /\ (forall (evts : list ezcb_evt) (v : W),
          ~ n ∈ (run_triggers cfg call evts st' v).2).
Proof.
  intros Ht Hnodup Hchain Hpre Hn Honce.
  set (idx := bucket_of trigger (ezcb_buckets st)) in *.
  rewrite (concat_lookup _ _ _ Hchain) in Hnodup.
  apply NoDup_app in Hnodup as (_ & Hleft & Hnodup).
  apply NoDup_app in Hnodup as (Hnd & Hright & _).
  apply NoDup_app in Hnd as (_ & Hnpre & Hnd).
  apply NoDup_cons in Hnd as (Hnpost & _).
  assert (Hn_pre : n ∉ pre).
  { intros Hin. apply (Hnpre n Hin). apply list_elem_of_here. }
  assert (Hn_left : n ∉ concat (take idx table)).
  { intros Hin. apply (Hleft n Hin). rewrite !elem_of_app. left. right.
    apply list_elem_of_here. }
  assert (Hn_right : n ∉ concat (drop (S idx) table)).
  { apply Hright. rewrite elem_of_app. right. apply list_elem_of_here. }
  pose proof (trigger_chain_sublist cfg call trigger data pre st w)
    as [Hsub_pre Hsub_fired1].
  rewrite Hpre in Hsub_pre, Hsub_fired1. cbn [fst snd] in *.
  assert (Hwalk :
    exists post' st' w' fired2 stopped,
      trigger_chain cfg call trigger data (pre ++ n :: post) st w
      = (pre' ++ post', st', w', fired1 ++ n :: fired2, stopped)
      /\ post' `sublist_of` post /\ fired2 `sublist_of` post
      /\ (EZCB_NO_MALLOC cfg = true -> node_addr n ∈ ezcb_free_list st')).
  { rewrite trigger_chain_app, Hpre. cbn [trigger_chain].
    rewrite Hn, Honce. cbn [Z.eqb].
    destruct (call (node_fn n) (node_ctx n) data w1) as [r w2].
    destruct (is_stop r).
    - exists post, (trigger_release cfg n st1), w2, [], true.
      split_and!; [done | done | apply sublist_nil_l |].
      apply trigger_release_free_list.
    - pose proof (trigger_chain_sublist cfg call trigger data post
                    (trigger_release cfg n st1) w2) as [Hs1 Hs2].
      pose proof (fun Hm =>
        trigger_chain_free_list cfg call trigger data post
          (trigger_release cfg n st1) w2 (node_addr n)
          (trigger_release_free_list cfg n st1 Hm)) as Hfree.
      destruct (trigger_chain cfg call trigger data post
                  (trigger_release cfg n st1) w2)
        as [[[[post' st'] w'] fired2] stopped].
      cbn [fst snd] in *.
      by exists post', st', w', fired2, stopped. }
  destruct Hwalk as (post' & st' & w' & fired2 & stopped & Hwalk & Hsp & Hsf
                     & Hfree).
  assert (Hgone : n ∉ registered_nodes
                        (set_table (Some (<[idx := pre' ++ post']> table)) st')).
  { unfold registered_nodes. state_simpl.
    rewrite (concat_insert _ _ _ _ Hchain). rewrite !not_elem_of_app.
    split_and!; try done.
    - intros Hin. apply Hn_pre. by eapply elem_of_sublist.
    - intros Hin. apply Hnpost. by eapply elem_of_sublist. }
  eexists _, w', _, fired2. split_and!.
  - unfold ezcb_trigger. rewrite Ht. fold idx.
    rewrite (list_lookup_total_correct _ _ _ Hchain), Hwalk. reflexivity.
  - done.
  - intros Hin. apply Hn_pre. by eapply elem_of_sublist.
  - intros Hin. apply Hnpost. by eapply elem_of_sublist.
  - done.
  - done.
  - intros evts v Hin. apply Hgone. by eapply run_triggers_nodes.
Qed.

End Once.

Lemma stop_halts_walk_witness :
  let cfg := one_bucket_config in
  let st := collide_registry in
  (ezcb_table st = Some [[beta_2; alpha_1; alpha_stop; beta_4; alpha_3]]
   /\ trigger_chain cfg logging_call "alpha" 0 [beta_2; alpha_1] st []
      = ([beta_2; alpha_1], st, [1], [alpha_1], false)
   /\ logging_call (node_fn alpha_stop) (node_ctx alpha_stop) 0 [1]
      = (EZCB_STOP, [1; 86]))
  /\ exists st',
       ezcb_trigger cfg logging_call "alpha" 0 st []
       = (st', [1; 86], [alpha_1; alpha_stop])
       /\ ezcb_table st' = Some [[beta_2; alpha_1; beta_4; alpha_3]].
Proof.
  intros cfg st. split; [by vm_compute|].
  refine (proj1 (stop_halts_walk cfg logging_call "alpha" 0 st []
                   [[beta_2; alpha_1; alpha_stop; beta_4; alpha_3]]
                   [beta_2; alpha_1] [beta_4; alpha_3] alpha_stop
                   [beta_2; alpha_1] st [1] [1; 86] [alpha_1] _ _ _ _ _));
    by vm_compute.
Defined.

Lemma once_fires_once_witness :
  let cfg := one_bucket_config in
  let st := collide_registry in
  (ezcb_table st = Some [[beta_2; alpha_1; alpha_stop; beta_4; alpha_3]]
   /\ NoDup (concat [[beta_2; alpha_1; alpha_stop; beta_4; alpha_3]])
   /\ trigger_chain cfg logging_call "alpha" 0 [beta_2; alpha_1] st []
      = ([beta_2; alpha_1], st, [1], [alpha_1], false)
   /\ node_once alpha_stop = true)
  /\ exists st' w' fired fired2,
       ezcb_trigger cfg logging_call "alpha" 0 st [] = (st', w', fired)
       /\ (fired = [alpha_1] ++ alpha_stop :: fired2
           /\ ~ alpha_stop ∈ [alpha_1] /\ ~ alpha_stop ∈ fired2)
       /\ ~ alpha_stop ∈ registered_nodes st'
       /\ (EZCB_NO_MALLOC cfg = true ->
           node_addr alpha_stop ∈ ezcb_free_list st')
       /\ (forall (evts : list ezcb_evt) (v : list Z),
             ~ alpha_stop ∈ (run_triggers cfg logging_call evts st' v).2).
Proof.
  intros cfg st.
  assert (Hnodup : NoDup (concat [[beta_2; alpha_1; alpha_stop; beta_4;
                                   alpha_3]])) by compute_done.
  split; [by vm_compute|].
  refine (once_fires_once cfg logging_call "alpha" 0 st []
            [[beta_2; alpha_1; alpha_stop; beta_4; alpha_3]]
            [beta_2; alpha_1] [beta_4; alpha_3] alpha_stop
            [beta_2; alpha_1] st [1] [alpha_1] _ Hnodup _ _ _ _);
    by vm_compute.
Defined.

(** ** ezcb_unregister *)

Lemma filter_none {A : Type} (P : A -> Prop) `{!forall x, Decision (P x)}
    (l : list A) :
  (forall x, x ∈ l -> ~ P x) -> filter P l = [].
Proof.
  induction l as [|x l IH]; intros Hl; [done|].
  rewrite filter_cons_False by (apply Hl; apply list_elem_of_here).
  apply IH. intros y Hy. apply Hl. by apply list_elem_of_further.
Qed.

Lemma filter_all {A : Type} (P : A -> Prop) `{!forall x, Decision (P x)}
    (l : list A) :
  (forall x, x ∈ l -> P x) -> filter P l = l.
Proof.
  induction l as [|x l IH]; intros Hl; [done|].
  rewrite filter_cons_True by (apply Hl; apply list_elem_of_here).
  f_equal. apply IH. intros y Hy. apply Hl. by apply list_elem_of_further.
Qed.

Lemma elem_of_concat {A : Type} (ls : list (list A)) (x : A) :
  x ∈ concat ls <-> exists i l, ls !! i = Some l /\ x ∈ l.
Proof.
  induction ls as [|l ls IH]; simpl.
  - split; [by intros ?%elem_of_nil | by intros (i & l & ? & _)].
  - rewrite elem_of_app, IH. split.
    + intros [Hx|(i & l' & Hi & Hx)]; [by exists 0%nat, l|].
      by exists (S i), l'.
    + intros ([|i] & l' & Hi & Hx); simplify_eq/=; [by left|].
      right. by exists i, l'.
Qed.

Lemma chains_placed_lookup (buckets : Z) (i j : nat)
    (table : list (list ezcb_node)) (chain : list ezcb_node) (n : ezcb_node) :
  chains_placed buckets i table = true ->
  table !! j = Some chain -> n ∈ chain ->
  bucket_of (node_trigger n) buckets = (i + j)%nat.
Proof.
  revert i j. induction table as [|c table IH]; intros i j Hp Hj Hn; [done|].
  cbn [chains_placed] in Hp. apply andb_prop in Hp as [Hc Hrest].
  destruct j as [|j]; simplify_eq/=.
  - rewrite forallb_forall in Hc. apply list_elem_of_In, Hc in Hn.
    apply Nat.eqb_eq in Hn. lia.
  - rewrite (IH (S i) j Hrest Hj Hn). lia.
Qed.

Section Unregister.

Variable cfg : ezcb_config.

(** The test of the code is the request of the documentation. *)
Lemma unregister_test_spec (trigger : option string) (fn ctx : Z)
    (n : ezcb_node) :
  unregister_test trigger fn ctx n = true <-> matches_request trigger fn ctx n.
Proof.
  unfold unregister_test, matches_request.
  destruct trigger as [t|];
    rewrite ?andb_true_iff, ?orb_true_iff, ?Z.eqb_eq, ?strcmp_eq; tauto.
Qed.

Lemma unregister_chain_spec (trigger : option string) (fn ctx : Z)
    (chain : list ezcb_node) (st : ezcb_state) (removed : Z) :
  let r := unregister_chain cfg trigger fn ctx chain st removed in
  r.1.1 = filter (fun n => ~ matches_request trigger fn ctx n) chain
  /\ r.2 = removed
           + Z.of_nat (length (filter (matches_request trigger fn ctx) chain)).
Proof.
  revert st removed. induction chain as [|n next IH]; intros st removed.
  - simpl. split; [done | lia].
  - cbn [unregister_chain].
    destruct (unregister_test trigger fn ctx n) eqn:Htest.
    + apply unregister_test_spec in Htest.
      rewrite filter_cons_False by tauto. rewrite filter_cons_True by done.
      set (st1 := set_count _ _).
      destruct (IH st1 (removed + 1)) as [-> ->].
      cbn [length]. split; [done | lia].
    + assert (~ matches_request trigger fn ctx n) as Hno.
      { rewrite <- unregister_test_spec. by rewrite Htest. }
      rewrite filter_cons_True by done. rewrite filter_cons_False by done.
      specialize (IH st removed).
      destruct (unregister_chain cfg trigger fn ctx next st removed)
        as [[chain' st'] removed'].
      cbn [fst snd] in *. destruct IH as [-> ->]. done.
Qed.

Lemma unregister_table_spec (fn ctx : Z) (table : list (list ezcb_node))
    (st : ezcb_state) (removed : Z) :
  let r := unregister_table cfg fn ctx table st removed in
  r.1.1 = filter (fun n => ~ matches_request None fn ctx n) <$> table
  /\ r.2 = removed
           + Z.of_nat (length (filter (matches_request None fn ctx)
                                      (concat table))).
Proof.
  revert st removed. induction table as [|chain table IH]; intros st removed.
  - simpl. split; [done | lia].
  - cbn [unregister_table].
    pose proof (unregister_chain_spec None fn ctx chain st removed) as Hc.
    destruct (unregister_chain cfg None fn ctx chain st removed)
      as [[chain' st1] removed1].
    specialize (IH st1 removed1).
    destruct (unregister_table cfg fn ctx table st1 removed1)
      as [[table' st2] removed2].
    cbn [fst snd concat] in *. destruct Hc as [-> ->]. destruct IH as [-> ->].
    rewrite filter_app, length_app. split; [done | lia].
Qed.

End Unregister.

Lemma filter_concat {A : Type} (P : A -> Prop) `{!forall x, Decision (P x)}
    (ls : list (list A)) :
  filter P (concat ls) = concat (filter P <$> ls).
Proof.
  induction ls as [|l ls IH]; [done|].
  cbn [concat fmap list_fmap]. by rewrite filter_app, IH.
Qed.



(** ** ezcb_resize *)

Lemma chains_placed_insert (buckets : Z) (i j : nat)
    (table : list (list ezcb_node)) (chain : list ezcb_node) :
  chains_placed buckets i table = true ->
  forallb (fun n => Nat.eqb (bucket_of (node_trigger n) buckets) (i + j))
          chain = true ->
  chains_placed buckets i (<[j := chain]> table) = true.
Proof.
  revert i j. induction table as [|c table IH]; intros i j Hp Hc; [done|].
  cbn [chains_placed] in Hp. apply andb_prop in Hp as [Hc0 Hrest].
  destruct j as [|j]; cbn [chains_placed].
  - rewrite Nat.add_0_r in Hc. change (<[0%nat:=chain]> (c :: table))
      with (chain :: table). cbn [chains_placed]. by rewrite Hc, Hrest.
  - change (<[S j:=chain]> (c :: table)) with (c :: <[j:=chain]> table).
    cbn [chains_placed]. rewrite Hc0. cbn [andb].
    apply IH; [done|]. by replace (S i + j)%nat with (i + S j)%nat by lia.
Qed.

Lemma chains_placed_lookup_total (buckets : Z) (i j : nat)
    (table : list (list ezcb_node)) :
  chains_placed buckets i table = true ->
  forallb (fun n => Nat.eqb (bucket_of (node_trigger n) buckets) (i + j))
          (table !!! j) = true.
Proof.
  intros Hp. apply forallb_forall. intros n Hn. apply Nat.eqb_eq.
  destruct (table_lookup_total table j) as [Hin|[Hout _]].
  - eapply chains_placed_lookup; [done | done |]. by apply list_elem_of_In.
  - rewrite Hout in Hn. by destruct Hn.
Qed.

Lemma chains_placed_replicate (buckets : Z) (i n : nat) :
  chains_placed buckets i (replicate n []) = true.
Proof. revert i. induction n as [|n IH]; intros i; [done|]. apply IH. Qed.

(** Writing a chain over a bucket: the nodes of the table afterwards. *)
Lemma concat_insert_total (table : list (list ezcb_node)) (i : nat)
    (chain : list ezcb_node) :
  (i < length table)%nat ->
  forall extra, chain ≡ₚ extra ++ table !!! i ->
  concat (<[i := chain]> table) ≡ₚ extra ++ concat table.
Proof.
  intros Hi extra Hperm.
  destruct (lookup_lt_is_Some_2 table i Hi) as [old Hold].
  rewrite (list_lookup_total_correct _ _ _ Hold) in Hperm.
  rewrite (concat_insert _ _ _ _ Hold), (concat_lookup _ _ _ Hold), Hperm.
  rewrite !app_assoc. do 2 f_equiv. apply Permutation_app_comm.
Qed.

Section Resize.

Variable new_size : Z.
Hypothesis new_size_pos : 0 < new_size.

Lemma rehash_node_spec (new_table : list (list ezcb_node)) (n : ezcb_node) :
  length new_table = Z.to_nat new_size ->
  chains_placed new_size 0 new_table = true ->
  length (rehash_node new_size new_table n) = Z.to_nat new_size
  /\ chains_placed new_size 0 (rehash_node new_size new_table n) = true
  /\ concat (rehash_node new_size new_table n) ≡ₚ n :: concat new_table.
Proof.
  intros Hlen Hp. unfold rehash_node.
  set (idx := bucket_of (node_trigger n) new_size).
  assert (Hidx : (idx < length new_table)%nat).
  { rewrite Hlen. by apply bucket_of_lt. }
  split_and!.
  - by rewrite length_insert.
  - apply chains_placed_insert; [done|]. cbn [forallb Nat.add].
    rewrite Nat.eqb_refl. cbn [andb].
    by apply (chains_placed_lookup_total new_size 0 idx).
  - by apply (concat_insert_total _ _ _ Hidx [n]).
Qed.

Lemma rehash_chain_spec (chain : list ezcb_node)
    (new_table : list (list ezcb_node)) :
  length new_table = Z.to_nat new_size ->
  chains_placed new_size 0 new_table = true ->
  length (rehash_chain new_size new_table chain) = Z.to_nat new_size
  /\ chains_placed new_size 0 (rehash_chain new_size new_table chain) = true
  /\ concat (rehash_chain new_size new_table chain)
     ≡ₚ chain ++ concat new_table.
Proof.
  unfold rehash_chain. revert new_table.
  induction chain as [|n chain IH]; intros new_table Hlen Hp; [done|].
  cbn [foldl].
  destruct (rehash_node_spec new_table n Hlen Hp) as (Hlen1 & Hp1 & Hperm1).
  destruct (IH _ Hlen1 Hp1) as (Hlen2 & Hp2 & Hperm2).
  split_and!; [done | done |].
  rewrite Hperm2, Hperm1. cbn [app]. by rewrite Permutation_middle.
Qed.

Lemma rehash_table_spec (table new_table : list (list ezcb_node)) :
  length new_table = Z.to_nat new_size ->
  chains_placed new_size 0 new_table = true ->
  length (foldl (rehash_chain new_size) new_table table) = Z.to_nat new_size
  /\ chains_placed new_size 0 (foldl (rehash_chain new_size) new_table table)
     = true
  /\ concat (foldl (rehash_chain new_size) new_table table)
     ≡ₚ concat table ++ concat new_table.
Proof.
  revert new_table.
  induction table as [|chain table IH]; intros new_table Hlen Hp; [done|].
  cbn [foldl concat].
  destruct (rehash_chain_spec chain new_table Hlen Hp)
    as (Hlen1 & Hp1 & Hperm1).
  destruct (IH _ Hlen1 Hp1) as (Hlen2 & Hp2 & Hperm2).
  split_and!; [done | done |].
  rewrite Hperm2, Hperm1. rewrite !app_assoc. f_equiv.
  apply Permutation_app_comm.
Qed.

End Resize.

(** A successful ezcb_resize: the new table has [new_size] buckets and
    holds the nodes of the old one, each in the bucket of its trigger. *)
Lemma ezcb_resize_spec (h : heap) (new_size : Z)
    (st : ezcb_state) (table : list (list ezcb_node)) :
  0 < new_size ->
  ezcb_table st = Some table ->
  calloc_resize h = true ->
  exists new_table,
    ezcb_resize h new_size st
    = Some (set_buckets new_size (set_table (Some new_table) st), 0)
    /\ length new_table = Z.to_nat new_size
    /\ chains_placed new_size 0 new_table = true
    /\ concat new_table ≡ₚ concat table.
Proof.
  intros Hpos Ht Hcalloc. unfold ezcb_resize. rewrite Hcalloc, Ht. cbn [negb].
  eexists. split; [reflexivity|].
  destruct (rehash_table_spec new_size Hpos table
              (replicate (Z.to_nat new_size) []))
    as (Hlen & Hp & Hperm).
  - by rewrite length_replicate.
  - apply chains_placed_replicate.
  - split_and!; [done | done |]. rewrite Hperm.
    assert (Hnil : forall n, concat (replicate n (@nil ezcb_node)) = []).
    { intros n. induction n; [done|]. done. }
    by rewrite Hnil, app_nil_r.
Qed.

(** A failed ezcb_resize changes nothing. *)
Lemma ezcb_resize_fails (h : heap) (new_size : Z) (st : ezcb_state) :
  calloc_resize h = false -> ezcb_resize h new_size st = Some (st, -1).
Proof. intros Hcalloc. unfold ezcb_resize. by rewrite Hcalloc. Qed.

(** ** ezcb_register_internal *)

Lemma register_insert_perm (trigger : string) (priority : Z)
    (node : ezcb_node) (chain : list ezcb_node) :
  register_insert trigger priority node chain ≡ₚ node :: chain.
Proof.
  induction chain as [|cur next IH]; [done|]. cbn [register_insert].
  destruct ((strcmp (node_trigger cur) trigger =? 0)
            && (node_priority cur <? priority)); [done|].
  rewrite IH. apply perm_swap.
Qed.

Lemma register_insert_forallb (P : ezcb_node -> bool) (trigger : string)
    (priority : Z) (node : ezcb_node) (chain : list ezcb_node) :
  P node = true -> forallb P chain = true ->
  forallb P (register_insert trigger priority node chain) = true.
Proof.
  intros Hnode. induction chain as [|cur next IH]; intros Hchain.
  - cbn. by rewrite Hnode.
  - cbn [register_insert].
    destruct ((strcmp (node_trigger cur) trigger =? 0)
              && (node_priority cur <? priority)).
    + cbn [forallb]. by rewrite Hnode.
    + cbn [forallb] in *. apply andb_prop in Hchain as [-> Hnext].
      by rewrite IH.
Qed.

Section Register.

Variable cfg : ezcb_config.

Lemma ezcb_node_alloc_frame (h : heap) (st : ezcb_state) :
  let r := ezcb_node_alloc cfg h st in
  ezcb_table r.2 = ezcb_table st
  /\ ezcb_buckets r.2 = ezcb_buckets st
  /\ ezcb_count r.2 = ezcb_count st
  /\ (r.1 = None -> r.2 = st).
Proof.
  unfold ezcb_node_alloc.
  destruct (EZCB_NO_MALLOC cfg); [|done].
  by destruct (ezcb_free_list st).
Qed.

(** Allocation and insertion, on an initialized registry. *)
Lemma register_node_spec (h : heap) (trigger : string) (priority fn ctx : Z)
    (once : bool) (st : ezcb_state) (table : list (list ezcb_node)) :
  ezcb_table st = Some table ->
  table_ok st ->
  match ezcb_node_alloc cfg h st with
  | (None, _) =>
      register_node cfg h trigger priority fn ctx once st = Some (st, -1)
  | (Some a, st_alloc) =>
      let idx := bucket_of trigger (ezcb_buckets st) in
      let st' :=
        set_count (size_t (ezcb_count st + 1))
          (set_table
             (Some (<[idx := register_insert trigger priority
                               (new_node a trigger priority fn ctx once)
                               (table !!! idx)]> table))
             st_alloc) in
      register_node cfg h trigger priority fn ctx once st = Some (st', 0)
      /\ table_ok st'
      /\ ezcb_buckets st' = ezcb_buckets st
      /\ registered_nodes st'
         ≡ₚ new_node a trigger priority fn ctx once :: registered_nodes st
  end.
Proof.
  intros Ht Hok. unfold register_node.
  pose proof (ezcb_node_alloc_frame h st) as (Hft & Hfb & Hfc & Hnone).
  destruct (ezcb_node_alloc cfg h st) as [[a|] st_alloc]; cbn [fst snd] in *.
  - rewrite Hft, Ht. state_simpl. rewrite Hfb, Hfc.
    fold (new_node a trigger priority fn ctx once).
    unfold table_ok in Hok. rewrite Ht in Hok.
    destruct Hok as (Hb & Hlen & Hplaced).
    set (idx := bucket_of trigger (ezcb_buckets st)).
    assert (Hidx : (idx < length table)%nat).
    { rewrite Hlen. by apply bucket_of_lt. }
    split_and!.
    + done.
    + unfold table_ok. state_simpl. rewrite Hfb.
      split_and!; [done | by rewrite length_insert |].
      apply chains_placed_insert; [done|].
      apply register_insert_forallb.
      * cbn. apply Nat.eqb_refl.
      * by apply (chains_placed_lookup_total _ 0 idx).
    + done.
    + unfold registered_nodes. state_simpl. rewrite Ht.
      apply (concat_insert_total _ _ _ Hidx
               [new_node a trigger priority fn ctx once]).
      apply register_insert_perm.
  - by rewrite Hnone.
Qed.

Lemma register_node_returns (h : heap) (trigger : string)
    (priority fn ctx : Z) (once : bool) (st : ezcb_state) :
  is_Some (ezcb_table st) ->
  exists st' rc,
    register_node cfg h trigger priority fn ctx once st = Some (st', rc)
    /\ ezcb_buckets st' = ezcb_buckets st.
Proof.
  intros [table Ht]. unfold register_node.
  pose proof (ezcb_node_alloc_frame h st) as (Hft & Hfb & Hfc & Hnone).
  destruct (ezcb_node_alloc cfg h st) as [[a|] st_alloc]; cbn [fst snd] in *.
  - rewrite Hft, Ht. by eexists _, _.
  - by eexists _, _.
Qed.

(** C6. Without EZCB_NO_MALLOC, on an initialized registry whose counters
    are far from the end of [size_t]: when ezcb_count * 4 >= ezcb_buckets * 3
    a register call first replaces the table by one of twice the size that
    holds the same nodes, each in the bucket of its trigger, and only then
    allocates the node and links it (so that the table stays doubled when
    malloc fails); when the calloc of the new table fails, the call returns
    -1 and the state is the one it found; when ezcb_count * 4 < ezcb_buckets * 3
    the table is not resized. So the number of buckets is doubled exactly
    when the test holds and calloc succeeds, and is unchanged otherwise. *)
Theorem register_grows_table (h : heap) (trigger : string)
    (priority fn ctx : Z) (once : bool) (st : ezcb_state)
    (table : list (list ezcb_node)) :
  EZCB_NO_MALLOC cfg = false ->
  ezcb_table st = Some table ->
  0 < ezcb_buckets st -> 0 <= ezcb_count st ->
  ezcb_count st * 4 < 2 ^ 64 -> ezcb_buckets st * 3 < 2 ^ 64 ->
  let run := ezcb_register_internal cfg h trigger priority fn ctx once st in
  (ezcb_count st * 4 >= ezcb_buckets st * 3 -> calloc_resize h = true ->
     exists new_table,
       let resized :=
         set_buckets (ezcb_buckets st * 2) (set_table (Some new_table) st) in
       run = register_node cfg h trigger priority fn ctx once resized
       /\ length new_table = Z.to_nat (ezcb_buckets st * 2)
       /\ chains_placed (ezcb_buckets st * 2) 0 new_table = true
       /\ concat new_table ≡ₚ concat table
       /\ (malloc_node h = None -> run = Some (resized, -1)))
  /\ (ezcb_count st * 4 >= ezcb_buckets st * 3 -> calloc_resize h = false ->
      run = Some (st, -1))
  /\ (ezcb_count st * 4 < ezcb_buckets st * 3 ->
      run = register_node cfg h trigger priority fn ctx once st)
  /\ (exists st' rc,
        run = Some (st', rc)
        /\ (ezcb_buckets st' = ezcb_buckets st * 2
            <-> ezcb_count st * 4 >= ezcb_buckets st * 3
                /\ calloc_resize h = true)
        /\ (ezcb_buckets st' = ezcb_buckets st
            <-> ~ (ezcb_count st * 4 >= ezcb_buckets st * 3
                   /\ calloc_resize h = true))).
Proof.
  intros Hm Ht Hb Hc Hc4 Hb3 run.
  assert (Hrun : run
    = if ezcb_count st * 4 >=? ezcb_buckets st * 3 then
        match ezcb_resize h (ezcb_buckets st * 2) st with
        | None => None
        | Some (st1, rc) =>
            if negb (rc =? 0) then Some (st1, -1)
            else register_node cfg h trigger priority fn ctx once st1
        end
      else register_node cfg h trigger priority fn ctx once st).
  { unfold run, ezcb_register_internal. rewrite Ht, Hm.
    unfold size_t. rewrite !Z.mod_small by lia. done. }
  assert (Hgrow : ezcb_count st * 4 >= ezcb_buckets st * 3 ->
                  calloc_resize h = true ->
                  exists new_table,
                    run = register_node cfg h trigger priority fn ctx once
                            (set_buckets (ezcb_buckets st * 2)
                               (set_table (Some new_table) st))
                    /\ length new_table = Z.to_nat (ezcb_buckets st * 2)
                    /\ chains_placed (ezcb_buckets st * 2) 0 new_table = true
                    /\ concat new_table ≡ₚ concat table).
  { intros Hge Hcalloc.
    destruct (ezcb_resize_spec h (ezcb_buckets st * 2) st table)
      as (new_table & Hres & Hlen & Hp & Hperm); [lia | done | done |].
    exists new_table. rewrite Hrun, Hres.
    destruct (Z.geb_spec (ezcb_count st * 4) (ezcb_buckets st * 3)); [|lia].
    done. }
  assert (Hfail : ezcb_count st * 4 >= ezcb_buckets st * 3 ->
                  calloc_resize h = false -> run = Some (st, -1)).
  { intros Hge Hcalloc. rewrite Hrun, ezcb_resize_fails by done.
    by destruct (Z.geb_spec (ezcb_count st * 4) (ezcb_buckets st * 3));
      [|lia]. }
  assert (Hkeep : ezcb_count st * 4 < ezcb_buckets st * 3 ->
                  run = register_node cfg h trigger priority fn ctx once st).
  { intros Hlt. rewrite Hrun.
    by destruct (Z.geb_spec (ezcb_count st * 4) (ezcb_buckets st * 3));
      [lia|]. }
  split_and!; [| done | done |].
  - intros Hge Hcalloc.
    destruct (Hgrow Hge Hcalloc) as (new_table & Hr & Hlen & Hp & Hperm).
    exists new_table. cbn zeta. split_and!; try done.
    intros Hmalloc. rewrite Hr. unfold register_node, ezcb_node_alloc.
    by rewrite Hm, Hmalloc.
  - destruct (Z_lt_ge_dec (ezcb_count st * 4) (ezcb_buckets st * 3))
      as [Hlt|Hge].
    + destruct (register_node_returns h trigger priority fn ctx once st)
        as (st' & rc & Hr & Hbk); [by rewrite Ht|].
      exists st', rc. rewrite Hkeep by done. split_and!; [done | lia | lia].
    + destruct (calloc_resize h) eqn:Hcalloc.
      * destruct (Hgrow Hge eq_refl) as (new_table & Hr & _).
        destruct (register_node_returns h trigger priority fn ctx once
                    (set_buckets (ezcb_buckets st * 2)
                       (set_table (Some new_table) st)))
          as (st' & rc & Hr' & Hbk); [by eexists|].
        exists st', rc. rewrite Hr. state_simpl.
        split_and!; [done | | ]; rewrite Hbk; split; try done; try lia.
      * exists st, (-1). rewrite Hfail by done.
        split_and!; [done | | ]; split; try done; try lia.
Qed.

End Register.

Lemma register_grows_table_witness :
  let cfg := default_config in
  let st := twelve_registry in
  (EZCB_NO_MALLOC cfg = false
   /\ ezcb_buckets st = 16 /\ ezcb_count st = 12
   /\ ezcb_count st * 4 >= ezcb_buckets st * 3)
  /\ ezcb_register_internal cfg heap_no_table "a" 0 0 0 false st
     = Some (st, -1)
  /\ exists st' rc,
       ezcb_register_internal cfg (heap_gives 8192) "a" 0 0 0 false st
       = Some (st', rc)
       /\ (ezcb_buckets st' = ezcb_buckets st * 2
           <-> ezcb_count st * 4 >= ezcb_buckets st * 3
               /\ calloc_resize (heap_gives 8192) = true)
       /\ (ezcb_buckets st' = ezcb_buckets st
           <-> ~ (ezcb_count st * 4 >= ezcb_buckets st * 3
                  /\ calloc_resize (heap_gives 8192) = true)).
Proof.
  intros cfg st.
  assert (Ht : ezcb_table st = Some (default [] (ezcb_table st)))
    by (vm_compute; reflexivity).
  assert (Hge : ezcb_count st * 4 >= ezcb_buckets st * 3) by by_computation.
  split; [by_computation|]. split.
  - refine (proj1 (proj2
      (register_grows_table cfg heap_no_table "a" 0 0 0 false st _
         _ Ht _ _ _ _)) Hge _); by_computation.
  - refine (proj2 (proj2 (proj2
      (register_grows_table cfg (heap_gives 8192) "a" 0 0 0 false st _
         _ Ht _ _ _ _))));
      by_computation.
Defined.

(** ** Registering the same arguments again and again *)

Lemma filter_filter_weaker {A : Type} (P Q : A -> Prop)
    `{!forall x, Decision (P x)} `{!forall x, Decision (Q x)} (l : list A) :
  (forall x, P x -> Q x) -> filter P (filter Q l) = filter P l.
Proof.
  intros HPQ. induction l as [|x l IH]; [done|].
  destruct (decide (Q x)) as [Hq|Hq].
  - rewrite (filter_cons_True Q) by done.
    destruct (decide (P x)) as [Hp|Hp].
    + rewrite !(filter_cons_True P) by done. by rewrite IH.
    + rewrite !(filter_cons_False P) by done. done.
  - rewrite (filter_cons_False Q) by done.
    rewrite (filter_cons_False P) by (intros Hp; by apply Hq, HPQ). done.
Qed.

(** With every node in the bucket of its trigger, the nodes of one
    trigger are all in one chain. *)
Lemma filter_registered_bucket (P : ezcb_node -> Prop)
    `{!forall x, Decision (P x)} (trigger : string) (st : ezcb_state)
    (table : list (list ezcb_node)) :
  ezcb_table st = Some table -> table_ok st ->
  (forall n, P n -> node_trigger n = trigger) ->
  filter P (concat table)
  = filter P (table !!! bucket_of trigger (ezcb_buckets st)).
Proof.
  intros Ht Hok HP. unfold table_ok in Hok. rewrite Ht in Hok.
  destruct Hok as (Hb & Hlen & Hplaced).
  set (idx := bucket_of trigger (ezcb_buckets st)).
  assert (Hidx : (idx < length table)%nat).
  { rewrite Hlen. by apply bucket_of_lt. }
  destruct (lookup_lt_is_Some_2 table idx Hidx) as [chain Hchain].
  rewrite (list_lookup_total_correct _ _ _ Hchain).
  assert (Hother : forall j c n,
            table !! j = Some c -> n ∈ c -> P n -> j = idx).
  { intros j c n Hj Hn Hp.
    pose proof (chains_placed_lookup _ 0 j table c n Hplaced Hj Hn) as Hbj.
    cbn [Nat.add] in Hbj. by rewrite <- Hbj, (HP n Hp). }
  rewrite (concat_lookup _ _ _ Hchain), !filter_app.
  rewrite (filter_none _ (concat (take idx table))).
  - rewrite (filter_none _ (concat (drop (S idx) table)));
      [by rewrite app_nil_r|].
    intros n (j & c & Hj & Hn)%elem_of_concat Hm.
    rewrite lookup_drop in Hj.
    pose proof (Hother _ _ _ Hj Hn Hm). lia.
  - intros n (j & c & Hj & Hn)%elem_of_concat Hm.
    apply lookup_take_Some in Hj as [Hj Hlt].
    pose proof (Hother _ _ _ Hj Hn Hm). lia.
Qed.

Section Continue.

Variable cfg : ezcb_config.
Context {W : Type}.
Variable call : Z -> Z -> Z -> W -> ezcb_result_t * W.
Hypothesis call_continues :
  forall fn ctx data w, (call fn ctx data w).1 = EZCB_CONTINUE.

(** When no callback stops, the walk invokes every node of the trigger,
    in the order of the chain. *)
Lemma trigger_chain_continue (trigger : string) (data : Z)
    (chain : list ezcb_node) (st : ezcb_state) (w : W) :
  (trigger_chain cfg call trigger data chain st w).1.2
  = filter (fun n => node_trigger n = trigger) chain.
Proof.
  revert st w. induction chain as [|n next IH]; intros st w; [done|].
  cbn [trigger_chain].
  destruct (Z.eqb_spec (strcmp (node_trigger n) trigger) 0) as [Heq|Hne].
  - apply strcmp_eq in Heq. rewrite filter_cons_True by done.
    pose proof (call_continues (node_fn n) (node_ctx n) data w) as Hc.
    destruct (call (node_fn n) (node_ctx n) data w) as [r w1].
    cbn [fst] in Hc. subst r. cbn [is_stop].
    destruct (node_once n).
    + specialize (IH (trigger_release cfg n st) w1).
      destruct (trigger_chain cfg call trigger data next
                  (trigger_release cfg n st) w1) as [[[[? ?] ?] ?] ?].
      cbn [fst snd] in *. by rewrite IH.
    + specialize (IH st w1).
      destruct (trigger_chain cfg call trigger data next st w1)
        as [[[[? ?] ?] ?] ?].
      cbn [fst snd] in *. by rewrite IH.
  - rewrite filter_cons_False by (by rewrite <- strcmp_eq).
    specialize (IH st w).
    destruct (trigger_chain cfg call trigger data next st w)
      as [[[[? ?] ?] ?] ?].
    done.
Qed.

Lemma ezcb_trigger_continue (trigger : string) (data : Z)
    (st : ezcb_state) (w : W) (table : list (list ezcb_node)) :
  ezcb_table st = Some table ->
  (ezcb_trigger cfg call trigger data st w).2
  = filter (fun n => node_trigger n = trigger)
           (table !!! bucket_of trigger (ezcb_buckets st)).
Proof.
  intros Ht. unfold ezcb_trigger. rewrite Ht.
  rewrite <- (trigger_chain_continue trigger data _ st w).
  by destruct (trigger_chain cfg call trigger data _ st w)
    as [[[[? ?] ?] ?] ?].
Qed.

End Continue.

Section Repeat.

Variable cfg : ezcb_config.

Lemma registered_nodes_table (st : ezcb_state)
    (table : list (list ezcb_node)) :
  ezcb_table st = Some table -> registered_nodes st = concat table.
Proof. intros Ht. unfold registered_nodes. by rewrite Ht. Qed.

(** One register call with the resources for it. *)
Lemma register_step (h : heap) (hs : list heap) (r : registration)
    (st : ezcb_state) :
  is_Some (ezcb_table st) -> table_ok st ->
  resources_permit cfg (h :: hs) r st ->
  exists st' a,
    ezcb_register_internal cfg h (reg_trigger r) (reg_priority r)
      (reg_fn r) (reg_ctx r) (reg_once r) st = Some (st', 0)
    /\ is_Some (ezcb_table st')
    /\ table_ok st'
    /\ resources_permit cfg hs r st'
    /\ registered_nodes st'
       ≡ₚ new_node a (reg_trigger r) (reg_priority r) (reg_fn r) (reg_ctx r)
            (reg_once r) :: registered_nodes st.
Proof.
  intros [table Ht] Hok Hres.
  unfold resources_permit in *. unfold ezcb_register_internal. rewrite Ht.
  destruct (EZCB_NO_MALLOC cfg) eqn:Hm.
  - (* static pool *)
    destruct Hres as [Hlen Hfree]. cbn [length] in Hfree.
    destruct (Z.geb_spec (strlen (reg_trigger r))
                (EZCB_MAX_TRIGGER_LENGTH cfg)); [lia|].
    destruct (ezcb_free_list st) as [|a free_list] eqn:Hfl;
      [cbn [length] in Hfree; lia|].
    pose proof (register_node_spec cfg h (reg_trigger r) (reg_priority r)
                  (reg_fn r) (reg_ctx r) (reg_once r) st table Ht Hok)
      as Hnode.
    unfold ezcb_node_alloc in Hnode. rewrite Hm, Hfl in Hnode.
    cbn zeta in Hnode. destruct Hnode as (Hrun & Hok' & Hb' & Hperm).
    eexists _, a. split_and!; [exact Hrun | by eexists | done | done | |
                               done].
    state_simpl. cbn [length] in Hfree. lia.
  - (* heap *)
    destruct Hres as (Hgrants & Hc & Hck & Hbk).
    cbn [forallb length] in *. apply andb_prop in Hgrants as [Hh Hhs].
    unfold heap_grants in Hh. apply andb_prop in Hh as [Hcalloc Hmalloc].
    destruct (malloc_node h) as [a|] eqn:Hma; [|done].
    pose proof Hok as Hok0. unfold table_ok in Hok0. rewrite Ht in Hok0.
    destruct Hok0 as (Hb & _).
    unfold size_t. rewrite !(Z.mod_small (_ * _)) by lia.
    assert (Hfinish : forall st1 table1,
      ezcb_table st1 = Some table1 -> table_ok st1 ->
      ezcb_count st1 = ezcb_count st ->
      ezcb_buckets st1 <= 2 ^ 62 ->
      registered_nodes st1 ≡ₚ registered_nodes st ->
      exists st' a,
        register_node cfg h (reg_trigger r) (reg_priority r) (reg_fn r)
          (reg_ctx r) (reg_once r) st1 = Some (st', 0)
        /\ is_Some (ezcb_table st') /\ table_ok st'
        /\ (forallb heap_grants hs = true
            /\ 0 <= ezcb_count st'
            /\ ezcb_count st' + Z.of_nat (length hs) <= 2 ^ 60
            /\ ezcb_buckets st' <= 2 ^ 62)
        /\ registered_nodes st'
           ≡ₚ new_node a (reg_trigger r) (reg_priority r) (reg_fn r)
                (reg_ctx r) (reg_once r) :: registered_nodes st).
    { intros st1 table1 Ht1 Hok1 Hc1 Hb1 Hperm1.
      pose proof (register_node_spec cfg h (reg_trigger r) (reg_priority r)
                    (reg_fn r) (reg_ctx r) (reg_once r) st1 table1 Ht1 Hok1)
        as Hnode.
      unfold ezcb_node_alloc in Hnode. rewrite Hm, Hma in Hnode.
      cbn zeta in Hnode. destruct Hnode as (Hrun & Hok' & Hb' & Hperm).
      eexists _, a. split_and!; [exact Hrun | by eexists | done | done | | |
                                 | by rewrite Hperm, Hperm1].
      - state_simpl. unfold size_t. rewrite Z.mod_small by lia. lia.
      - state_simpl. unfold size_t. rewrite Z.mod_small by lia. lia.
      - state_simpl. lia. }
    destruct (Z.geb_spec (ezcb_count st * 4) (ezcb_buckets st * 3))
      as [Hge|Hlt].
    + destruct (ezcb_resize_spec h (ezcb_buckets st * 2) st table)
        as (new_table & Hresize & Hlen & Hplaced & Hperm); [lia|done|done|].
      rewrite Hresize. cbn [Z.eqb negb].
      apply (Hfinish _ new_table); state_simpl; try done; try lia.
      * unfold table_ok. state_simpl. split_and!; [lia | done | done].
      * unfold registered_nodes. state_simpl. by rewrite Ht.
    + by apply (Hfinish st table).
Qed.

(** As many register calls of [r] as there are resources for. *)
Lemma register_repeat (hs : list heap) (r : registration) (st : ezcb_state) :
  is_Some (ezcb_table st) -> table_ok st ->
  resources_permit cfg hs r st ->
  exists st' new_nodes,
    register_all cfg ((fun h => (h, r)) <$> hs) st
    = Some (st', replicate (length hs) 0)
    /\ is_Some (ezcb_table st')
    /\ table_ok st'
    /\ length new_nodes = length hs
    /\ Forall (is_registration r) new_nodes
    /\ registered_nodes st' ≡ₚ new_nodes ++ registered_nodes st.
Proof.
  revert st. induction hs as [|h hs IH]; intros st Ht Hok Hres.
  - exists st, []. by split_and!.
  - destruct (register_step h hs r st Ht Hok Hres)
      as (st1 & a & Hrun & Ht1 & Hok1 & Hres1 & Hperm1).
    destruct (IH st1 Ht1 Hok1 Hres1)
      as (st2 & new_nodes & Hall & Ht2 & Hok2 & Hlen & Hnew & Hperm2).
    exists st2, (new_nodes
                 ++ [new_node a (reg_trigger r) (reg_priority r) (reg_fn r)
                       (reg_ctx r) (reg_once r)]).
    cbn [fmap list_fmap register_all length replicate].
    rewrite Hrun, Hall. split_and!; try done.
    + rewrite length_app. cbn [length]. lia.
    + apply Forall_app. split; [done|]. by apply Forall_singleton.
    + rewrite Hperm2, Hperm1, <- app_assoc. done.
Qed.

End Repeat.

(** C10. On an initialized registry, with resources for them, [k] register
    calls with the same arguments all return 0 and link [k] new nodes, one
    per call, each carrying those arguments; nothing is merged with a node
    that is already there. A ezcb_trigger call for that trigger in which
    no callback stops then invokes [k] nodes with those arguments more
    than it would have invoked before. *)
Theorem register_never_deduplicates (cfg : ezcb_config) {W : Type}
    (call : Z -> Z -> Z -> W -> ezcb_result_t * W)
    (hs : list heap) (r : registration) (st : ezcb_state) :
  is_Some (ezcb_table st) -> table_ok st ->
  resources_permit cfg hs r st ->
  exists st' new_nodes,
    register_all cfg ((fun h => (h, r)) <$> hs) st
    = Some (st', replicate (length hs) 0)
    /\ length new_nodes = length hs
    /\ Forall (is_registration r) new_nodes
    /\ registered_nodes st' ≡ₚ new_nodes ++ registered_nodes st
    /\ ((forall fn ctx data w, (call fn ctx data w).1 = EZCB_CONTINUE) ->
        forall data w,
          length (filter (is_registration r)
                    (ezcb_trigger cfg call (reg_trigger r) data st' w).2)
          = (length hs
             + length (filter (is_registration r) (registered_nodes st)))%nat).
Proof.
  intros Ht Hok Hres.
  destruct (register_repeat cfg hs r st Ht Hok Hres)
    as (st' & new_nodes & Hall & [table' Ht'] & Hok' & Hlen & Hnew & Hperm).
  exists st', new_nodes. split_and!; try done.
  intros Hcont data w.
  rewrite (ezcb_trigger_continue cfg call Hcont _ _ _ _ table' Ht').
  rewrite filter_filter_weaker by (by intros n (Heq & _)).
  rewrite <- (filter_registered_bucket _ (reg_trigger r) st' table' Ht' Hok')
    by (by intros n (Heq & _)).
  rewrite <- (registered_nodes_table st' table' Ht'), Hperm.
  rewrite filter_app, length_app.
  rewrite (filter_all _ new_nodes), Hlen; [done|].
  intros n Hn. by eapply Forall_forall in Hnew.
Qed.

Lemma register_never_deduplicates_witness :
  let cfg := default_config in
  let st := fresh_registry in
  (is_Some (ezcb_table st) /\ table_ok st
   /\ resources_permit cfg three_heaps tick_registration st)
  /\ exists st' new_nodes,
       register_all cfg ((fun h => (h, tick_registration)) <$> three_heaps) st
       = Some (st', replicate (length three_heaps) 0)
       /\ length new_nodes = length three_heaps
       /\ Forall (is_registration tick_registration) new_nodes
       /\ registered_nodes st' ≡ₚ new_nodes ++ registered_nodes st
       /\ ((forall fn ctx data w,
              ((fun (_ _ _ : Z) (u : unit) => (EZCB_CONTINUE, u)) fn ctx data
                 w).1 = EZCB_CONTINUE) ->
           forall data w,
             length (filter (is_registration tick_registration)
                       (ezcb_trigger cfg
                          (fun (_ _ _ : Z) (u : unit) => (EZCB_CONTINUE, u))
                          (reg_trigger tick_registration) data st' w).2)
             = (length three_heaps
                + length (filter (is_registration tick_registration)
                            (registered_nodes st)))%nat).
Proof.
  intros cfg st.
  assert (Ht : is_Some (ezcb_table st)) by (by eexists).
  assert (Hok : table_ok st) by by_computation.
  assert (Hres : resources_permit cfg three_heaps tick_registration st)
    by by_computation.
  split; [exact (conj Ht (conj Hok Hres))|].
  exact (register_never_deduplicates cfg
           (fun (_ _ _ : Z) (u : unit) => (EZCB_CONTINUE, u))
           three_heaps tick_registration st Ht Hok Hres).
Defined.

(** Three identical registrations, then one trigger: the callback runs
    three times. *)
Example register_three_times :
  let cfg := default_config in
  let st :=
    after_registering cfg ((fun h => (h, tick_registration)) <$> three_heaps)
      fresh_registry in
  ezcb_count st = 3
  /\ (ezcb_trigger cfg logging_call "tick" 0 st []).1.2 = [1; 1; 1]
  /\ node_addr <$> (ezcb_trigger cfg logging_call "tick" 0 st []).2
     = [4096; 4128; 4160].
Proof. by_computation. Qed.

(** ** The order of the chains *)

Lemma chain_ordered_sublist (l1 l2 : list ezcb_node) :
  l1 `sublist_of` l2 -> chain_ordered l2 -> chain_ordered l1.
Proof.
  unfold chain_ordered. induction 1 as [|x l1 l2 Hsub IH|x l1 l2 Hsub IH].
  - done.
  - rewrite !StronglySorted_cons. intros [Hx Hl2]. split; [|by apply IH].
    rewrite Forall_forall in Hx |- *. intros y Hy. apply Hx.
    by eapply elem_of_sublist.
  - rewrite StronglySorted_cons. intros [_ Hl2]. by apply IH.
Qed.

(** Where ezcb_register_internal links the node: behind every node of
    the trigger whose priority is not lower, the other nodes keeping
    their order; in an ordered chain, before every node of the trigger
    whose priority is lower. *)
Lemma register_insert_stable (trigger : string) (priority : Z)
    (node : ezcb_node) (chain : list ezcb_node) :
  exists pre post,
    chain = pre ++ post
    /\ register_insert trigger priority node chain = pre ++ node :: post
    /\ Forall (fun m => node_trigger m = trigger ->
                        priority <= node_priority m) pre
    /\ (chain_ordered chain ->
        Forall (fun m => node_trigger m = trigger ->
                         node_priority m < priority) post).
Proof.
  induction chain as [|cur next IH].
  - exists [], []. by split_and!.
  - cbn [register_insert].
    destruct (Z.eqb_spec (strcmp (node_trigger cur) trigger) 0) as [Heq|Hne];
      [destruct (Z.ltb_spec (node_priority cur) priority) as [Hlt|Hge]|];
      cbn [andb].
    + apply strcmp_eq in Heq. exists [], (cur :: next).
      split_and!; [done | done | done |].
      unfold chain_ordered. rewrite StronglySorted_cons. intros [Hcur _].
      apply Forall_cons. split; [done|].
      eapply Forall_impl; [exact Hcur|]. intros m Hm Hmt.
      unfold in_order in Hm. rewrite Heq in Hm. specialize (Hm Hmt). lia.
    + destruct IH as (pre & post & -> & Hins & Hpre & Hpost).
      exists (cur :: pre), post. rewrite Hins.
      split_and!; [done | done | |].
      * apply Forall_cons. split; [|done]. intros _. lia.
      * unfold chain_ordered. cbn [app]. rewrite StronglySorted_cons.
        intros [_ Hrest]. by apply Hpost.
    + destruct IH as (pre & post & -> & Hins & Hpre & Hpost).
      exists (cur :: pre), post. rewrite Hins.
      split_and!; [done | done | |].
      * apply Forall_cons. split; [|done]. intros Ht. exfalso.
        apply Hne. by apply strcmp_eq.
      * unfold chain_ordered. cbn [app]. rewrite StronglySorted_cons.
        intros [_ Hrest]. by apply Hpost.
Qed.

Lemma register_insert_ordered (trigger : string) (priority : Z)
    (node : ezcb_node) (chain : list ezcb_node) :
  node_trigger node = trigger -> node_priority node = priority ->
  chain_ordered chain ->
  chain_ordered (register_insert trigger priority node chain).
Proof.
  intros Ht Hp Hord.
  destruct (register_insert_stable trigger priority node chain)
    as (pre & post & -> & -> & Hpre & Hpost).
  specialize (Hpost Hord). unfold chain_ordered in *.
  apply StronglySorted_app in Hord as (Hcross & Hspre & Hspost).
  apply StronglySorted_app. split_and!; [|done|].
  - intros x Hx y [->|Hy]%elem_of_cons; [|by apply Hcross].
    rewrite Forall_forall in Hpre. unfold in_order. rewrite Ht, Hp.
    intros Heq. by apply Hpre.
  - apply StronglySorted_cons. split; [|done].
    eapply Forall_impl; [exact Hpost|]. intros m Hm. unfold in_order.
    rewrite Ht, Hp. intros Heq. specialize (Hm Heq). lia.
Qed.

Section Order.

Variable cfg : ezcb_config.

Lemma table_ordered_insert (st : ezcb_state) (table : list (list ezcb_node))
    (i : nat) (chain : list ezcb_node) (st' : ezcb_state) :
  ezcb_table st = Some table -> table_ordered st ->
  chain_ordered chain ->
  ezcb_table st' = Some (<[i := chain]> table) ->
  table_ordered st'.
Proof.
  unfold table_ordered. intros -> Hord Hchain ->. by apply Forall_insert.
Qed.

Lemma table_ordered_lookup (st : ezcb_state)
    (table : list (list ezcb_node)) (i : nat) :
  ezcb_table st = Some table -> table_ordered st ->
  chain_ordered (table !!! i).
Proof.
  unfold table_ordered. intros -> Hord.
  destruct (table_lookup_total table i) as [Hin|[-> _]].
  - by eapply Forall_lookup_1.
  - constructor.
Qed.

(** Allocation and insertion keep the chains ordered. *)
Lemma register_node_ordered (h : heap) (trigger : string)
    (priority fn ctx : Z) (once : bool) (st st' : ezcb_state) (rc : Z) :
  table_ordered st ->
  register_node cfg h trigger priority fn ctx once st = Some (st', rc) ->
  table_ordered st'.
Proof.
  intros Hord. unfold register_node.
  pose proof (ezcb_node_alloc_frame cfg h st) as (Hft & _ & _ & Hnone).
  destruct (ezcb_node_alloc cfg h st) as [[a|] st_alloc]; cbn [fst snd] in *.
  - rewrite Hft. destruct (ezcb_table st) as [table|] eqn:Ht; [|done].
    intros [= <- <-].
    eapply (table_ordered_insert st); [done | done | | reflexivity].
    apply register_insert_ordered; [done | done |].
    by apply (table_ordered_lookup st).
  - rewrite Hnone by done. by intros [= <- <-].
Qed.

(** Under EZCB_NO_MALLOC a register call keeps the chains ordered. *)
Lemma ezcb_register_internal_ordered (h : heap) (trigger : string)
    (priority fn ctx : Z) (once : bool) (st st' : ezcb_state) (rc : Z) :
  EZCB_NO_MALLOC cfg = true ->
  table_ordered st ->
  ezcb_register_internal cfg h trigger priority fn ctx once st
  = Some (st', rc) ->
  table_ordered st'.
Proof.
  intros Hm Hord. unfold ezcb_register_internal.
  fold (implicit_init cfg h st). rewrite Hm.
  assert (Hinit : table_ordered (implicit_init cfg h st)).
  { unfold implicit_init. destruct (ezcb_table st) eqn:Ht; [done|].
    unfold table_ordered. rewrite ezcb_init_table, Hm by auto.
    apply Forall_replicate. constructor. }
  destruct (strlen trigger >=? EZCB_MAX_TRIGGER_LENGTH cfg).
  - by intros [= <- <-].
  - by apply register_node_ordered.
Qed.

(** ezcb_unregister keeps the chains ordered. *)
Lemma ezcb_unregister_ordered (trigger : option string) (fn ctx : Z)
    (st : ezcb_state) :
  table_ordered st ->
  table_ordered (ezcb_unregister cfg trigger fn ctx st).1.
Proof.
  intros Hord. unfold ezcb_unregister.
  destruct (ezcb_table st) as [table|] eqn:Ht; [|done].
  destruct trigger as [t|].
  - pose proof (unregister_chain_spec cfg (Some t) fn ctx
                  (table !!! bucket_of t (ezcb_buckets st)) st 0) as [Hc _].
    destruct (unregister_chain cfg (Some t) fn ctx _ st 0)
      as [[chain' st1] removed].
    cbn [fst snd] in *. subst chain'.
    eapply (table_ordered_insert st); [done | done | | reflexivity].
    eapply chain_ordered_sublist; [apply sublist_filter; apply _|].
    by apply (table_ordered_lookup st).
  - pose proof (unregister_table_spec cfg fn ctx table st 0) as [Hc _].
    destruct (unregister_table cfg fn ctx table st 0)
      as [[table' st1] removed].
    cbn [fst snd] in *. subst table'.
    unfold table_ordered in *. state_simpl. rewrite Ht in Hord.
    apply Forall_fmap. eapply Forall_impl; [exact Hord|].
    intros chain Hchain. cbn.
    eapply chain_ordered_sublist; [apply sublist_filter; apply _|done].
Qed.

(** ezcb_trigger keeps the chains ordered. *)
Lemma ezcb_trigger_ordered {W : Type}
    (call : Z -> Z -> Z -> W -> ezcb_result_t * W)
    (trigger : string) (data : Z) (st : ezcb_state) (w : W) :
  table_ordered st ->
  table_ordered (ezcb_trigger cfg call trigger data st w).1.1.
Proof.
  intros Hord. unfold ezcb_trigger.
  destruct (ezcb_table st) as [table|] eqn:Ht; [|done].
  pose proof (trigger_chain_sublist cfg call trigger data
                (table !!! bucket_of trigger (ezcb_buckets st)) st w)
    as [Hsub _].
  destruct (trigger_chain cfg call trigger data _ st w)
    as [[[[chain' st1] w1] fired] stopped].
  cbn [fst snd] in *.
  eapply (table_ordered_insert st); [done | done | | reflexivity].
  eapply chain_ordered_sublist; [done|].
  by apply (table_ordered_lookup st).
Qed.

End Order.

(** C1, at the input where the code departs from it. Without
    EZCB_NO_MALLOC, twelve callbacks registered under "a" with priorities
    12 down to 1 fire in that order. The thirteenth register call (priority
    0) finds ezcb_count * 4 >= ezcb_buckets * 3 and resizes: ezcb_resize
    links each node at the head of its new chain, so the chain comes out
    reversed, and the new node is linked behind it. The chain of "a" is
    no longer ordered, and the callbacks fire with priorities 1, 2, ...,
    12, 0. *)
Theorem resize_reverses_order :
  let cfg := default_config in
  table_ordered twelve_registry
  /\ node_priority <$> (ezcb_trigger cfg logging_call "a" 0
                          twelve_registry []).2
     = [12; 11; 10; 9; 8; 7; 6; 5; 4; 3; 2; 1]
  /\ ezcb_register cfg (heap_gives 4096) "a" 0 0 0 twelve_registry
     = Some (thirteen_registry, 0)
  /\ ezcb_buckets twelve_registry = 16
  /\ ezcb_buckets thirteen_registry = 32
  /\ node_priority <$> (ezcb_trigger cfg logging_call "a" 0
                          thirteen_registry []).2
     = [1; 2; 3; 4; 5; 6; 7; 8; 9; 10; 11; 12; 0]
  /\ ~ table_ordered thirteen_registry.
Proof.
  intros cfg. split_and!; try by_computation.
  - unfold table_ordered.
    replace (ezcb_table twelve_registry)
      with (Some (default [] (ezcb_table twelve_registry)))
      by (vm_compute; reflexivity).
    vm_compute default.
    repeat (apply Forall_cons; split; [try (by constructor)|]);
      try (by constructor).
    unfold chain_ordered, in_order.
    repeat (apply StronglySorted_cons; split;
            [repeat (apply Forall_cons; split; [cbn; lia|]);
             apply Forall_nil_2|]).
    constructor.
  - unfold table_ordered.
    replace (ezcb_table thirteen_registry)
      with (Some (default [] (ezcb_table thirteen_registry)))
      by (vm_compute; reflexivity).
    vm_compute default. intros Hord.
    rewrite Forall_lookup in Hord. specialize (Hord 4%nat _ eq_refl).
    unfold chain_ordered in Hord.
    apply StronglySorted_cons in Hord as [Hhead _].
    apply Forall_cons in Hhead as [Hhead _].
    unfold in_order in Hhead. cbn in Hhead. specialize (Hhead eq_refl). lia.
Qed.

(** ** The table of a registry stays well formed *)

Lemma forallb_sublist {A : Type} (P : A -> bool) (l1 l2 : list A) :
  l1 `sublist_of` l2 -> forallb P l2 = true -> forallb P l1 = true.
Proof.
  rewrite !forallb_forall. intros Hsub Hl2 x Hx. apply Hl2.
  apply list_elem_of_In. eapply elem_of_sublist; [|done].
  by apply list_elem_of_In.
Qed.

Lemma chains_placed_sublists (buckets : Z) (i : nat)
    (table' table : list (list ezcb_node)) :
  Forall2 sublist table' table ->
  chains_placed buckets i table = true ->
  chains_placed buckets i table' = true.
Proof.
  intros Hsub. revert i.
  induction Hsub as [|c' c table' table Hc Hrest IH]; intros i; [done|].
  cbn [chains_placed]. intros [Hp Hps]%andb_prop.
  by rewrite (forallb_sublist _ _ _ Hc Hp), IH.
Qed.

Section TableOk.

Variable cfg : ezcb_config.

(** Replacing a chain by a sub-sequence of it. *)
Lemma table_ok_shrink (st st' : ezcb_state) (table : list (list ezcb_node))
    (i : nat) (chain : list ezcb_node) :
  ezcb_table st = Some table -> table_ok st ->
  chain `sublist_of` table !!! i ->
  ezcb_table st' = Some (<[i := chain]> table) ->
  ezcb_buckets st' = ezcb_buckets st ->
  table_ok st'.
Proof.
  unfold table_ok. intros -> (Hb & Hlen & Hp) Hsub -> ->.
  split_and!; [done | by rewrite length_insert |].
  apply chains_placed_insert; [done|].
  eapply forallb_sublist; [done|].
  by apply (chains_placed_lookup_total _ 0 i).
Qed.

Lemma ezcb_init_table_ok (h : heap) (st : ezcb_state) :
  0 < EZCB_MAX_BUCKETS cfg -> table_ok st -> table_ok (ezcb_init cfg h st).
Proof.
  intros Hmax Hok. unfold ezcb_init.
  destruct (ezcb_table st) eqn:Ht; [done|].
  unfold table_ok.
  destruct (EZCB_NO_MALLOC cfg); state_simpl.
  - split_and!; [done | by rewrite length_replicate |].
    apply chains_placed_replicate.
  - destruct (calloc_init h); [|done].
    split_and!; [done | done |]. apply (chains_placed_replicate 16 0 16).
Qed.

Lemma ezcb_deinit_table_ok (st : ezcb_state) : table_ok (ezcb_deinit cfg st).
Proof.
  unfold ezcb_deinit, table_ok.
  destruct (ezcb_table st) eqn:Ht; [|by rewrite Ht].
  by destruct (EZCB_ENABLE_ISR cfg).
Qed.

Lemma ezcb_unregister_table_ok (trigger : option string) (fn ctx : Z)
    (st : ezcb_state) :
  table_ok st -> table_ok (ezcb_unregister cfg trigger fn ctx st).1.
Proof.
  intros Hok. unfold ezcb_unregister.
  destruct (ezcb_table st) as [table|] eqn:Ht; [|done].
  assert (Hframe : forall t chain s removed,
            ezcb_buckets (unregister_chain cfg t fn ctx chain s removed).1.2
            = ezcb_buckets s).
  { intros t chain. induction chain as [|n next IH]; intros s removed;
      [done|].
    cbn [unregister_chain]. destruct (unregister_test t fn ctx n).
    - rewrite IH. unfold ezcb_node_free.
      by destruct (EZCB_NO_MALLOC cfg).
    - specialize (IH s removed).
      by destruct (unregister_chain cfg t fn ctx next s removed) as [[? ?] ?].
  }
  destruct trigger as [t|].
  - pose proof (unregister_chain_spec cfg (Some t) fn ctx
                  (table !!! bucket_of t (ezcb_buckets st)) st 0) as [Hc _].
    pose proof (Hframe (Some t) (table !!! bucket_of t (ezcb_buckets st))
                  st 0) as Hb.
    destruct (unregister_chain cfg (Some t) fn ctx _ st 0)
      as [[chain' st1] removed].
    cbn [fst snd] in *. subst chain'.
    eapply (table_ok_shrink st); [done | done | | reflexivity | done].
    apply sublist_filter; apply _.
  - pose proof (unregister_table_spec cfg fn ctx table st 0) as [Hc _].
    assert (Hall : forall tbl s removed,
              ezcb_buckets (unregister_table cfg fn ctx tbl s removed).1.2
              = ezcb_buckets s).
    { clear -Hframe.
      induction tbl as [|chain tbl IH]; intros s removed; [done|].
      cbn [unregister_table].
      pose proof (Hframe None chain s removed) as Hc.
      destruct (unregister_chain cfg None fn ctx chain s removed)
        as [[chain' s1] removed1].
      specialize (IH s1 removed1).
      destruct (unregister_table cfg fn ctx tbl s1 removed1)
        as [[table' s2] removed2].
      cbn [fst snd] in *. congruence. }
    pose proof (Hall table st 0) as Hb.
    destruct (unregister_table cfg fn ctx table st 0)
      as [[table' st1] removed].
    cbn [fst snd] in *. subst table'.
    unfold table_ok in *. rewrite Ht in Hok. state_simpl. rewrite Hb.
    destruct Hok as (Hbk & Hlen & Hp).
    split_and!; [done | by rewrite length_fmap |].
    eapply chains_placed_sublists; [|done].
    apply Forall2_fmap_l, Forall_Forall2_diag, Forall_forall.
    intros chain _. apply sublist_filter; apply _.
Qed.

Lemma ezcb_trigger_table_ok {W : Type}
    (call : Z -> Z -> Z -> W -> ezcb_result_t * W)
    (trigger : string) (data : Z) (st : ezcb_state) (w : W) :
  table_ok st -> table_ok (ezcb_trigger cfg call trigger data st w).1.1.
Proof.
  intros Hok. unfold ezcb_trigger.
  destruct (ezcb_table st) as [table|] eqn:Ht; [|done].
  pose proof (trigger_chain_sublist cfg call trigger data
                (table !!! bucket_of trigger (ezcb_buckets st)) st w)
    as [Hsub _].
  pose proof (trigger_chain_frame cfg call trigger data
                (table !!! bucket_of trigger (ezcb_buckets st)) st w)
    as (_ & Hb & _).
  destruct (trigger_chain cfg call trigger data _ st w)
    as [[[[chain' st1] w1] fired] stopped].
  cbn [fst snd] in *.
  by eapply (table_ok_shrink st); [done | done | | reflexivity | done].
Qed.

(** A register call, whatever it returns, when the doubled number of
    buckets still fits [size_t]. *)
Lemma ezcb_register_internal_table_ok (h : heap) (trigger : string)
    (priority fn ctx : Z) (once : bool) (st st' : ezcb_state) (rc : Z) :
  0 < EZCB_MAX_BUCKETS cfg ->
  0 <= ezcb_buckets st * 2 < 2 ^ 64 ->
  table_ok st ->
  ezcb_register_internal cfg h trigger priority fn ctx once st
  = Some (st', rc) ->
  table_ok st'.
Proof.
  intros Hmax Hfit Hok.
  assert (Hnode : forall s s' rc',
            table_ok s ->
            register_node cfg h trigger priority fn ctx once s
            = Some (s', rc') -> table_ok s').
  { intros s s' rc' Hs. destruct (ezcb_table s) as [table|] eqn:Ht.
    - pose proof (register_node_spec cfg h trigger priority fn ctx once
                    s table Ht Hs) as Hspec.
      destruct (ezcb_node_alloc cfg h s) as [[a|] s_alloc].
      + destruct Hspec as (-> & Hok' & _). by intros [= <- <-].
      + rewrite Hspec. by intros [= <- <-].
    - unfold register_node.
      pose proof (ezcb_node_alloc_frame cfg h s) as (Hft & _ & _ & Hnone).
      destruct (ezcb_node_alloc cfg h s) as [[a|] s_alloc];
        cbn [fst snd] in *.
      + by rewrite Hft, Ht.
      + rewrite Hnone by done. by intros [= <- <-]. }
  unfold ezcb_register_internal. fold (implicit_init cfg h st).
  assert (Hentry : table_ok (implicit_init cfg h st)).
  { unfold implicit_init. destruct (ezcb_table st); [done|].
    by apply ezcb_init_table_ok. }
  assert (Hentry_b : ezcb_table st = None
                     \/ implicit_init cfg h st = st).
  { unfold implicit_init. destruct (ezcb_table st); auto. }
  destruct (EZCB_NO_MALLOC cfg) eqn:Hm.
  - destruct (strlen trigger >=? EZCB_MAX_TRIGGER_LENGTH cfg).
    + by intros [= <- <-].
    + by apply Hnode.
  - destruct (size_t (ezcb_count (implicit_init cfg h st) * 4)
              >=? size_t (ezcb_buckets (implicit_init cfg h st) * 3));
      [|by apply Hnode].
    destruct (calloc_resize h) eqn:Hcalloc.
    + destruct (ezcb_table (implicit_init cfg h st)) as [table|] eqn:Ht.
      * assert (Hsize : 0 < size_t (ezcb_buckets (implicit_init cfg h st) * 2)).
        { unfold table_ok in Hentry. rewrite Ht in Hentry.
          destruct Hentry as (Hb & _). unfold size_t.
          destruct Hentry_b as [Hnone|Hsame].
          - unfold implicit_init, ezcb_init in *. rewrite Hnone, Hm in *.
            state_simpl. done.
          - rewrite Hsame in *. rewrite Z.mod_small by lia. lia. }
        destruct (ezcb_resize_spec h _ _ table Hsize Ht Hcalloc)
          as (new_table & -> & Hlen & Hp & _).
        cbn [Z.eqb negb]. apply Hnode.
        unfold table_ok. state_simpl. by split_and!.
      * unfold ezcb_resize. by rewrite Hcalloc, Ht.
    + rewrite ezcb_resize_fails by done. cbn. by intros [= <- <-].
Qed.

End TableOk.

(** The same resize on twelve callbacks of equal priority: they fire in
    the order of their registration before it, and in the reverse order
    after it, the thirteenth last. *)
Example resize_reverses_registration_order :
  let cfg := default_config in
  let st := after_registering cfg [level_registration 13] twelve_level in
  node_fn <$> (ezcb_trigger cfg logging_call "a" 0 twelve_level []).2
  = [1; 2; 3; 4; 5; 6; 7; 8; 9; 10; 11; 12]
  /\ ezcb_register cfg (heap_gives 4512) "a" 5 13 0 twelve_level
     = Some (st, 0)
  /\ node_fn <$> (ezcb_trigger cfg logging_call "a" 0 st []).2
     = [12; 11; 10; 9; 8; 7; 6; 5; 4; 3; 2; 1; 13].
Proof. by_computation. Qed.

(** * Further properties of the code *)

(** ** The hash and the bucket index *)

(** X1. The hash is a 32-bit value, and for a table of [buckets] chains
    the index that every operation computes from it,
    [ezcb_hash(trigger) % ezcb_buckets], is an index of the table: the
    conversion to [uint32_t] changes nothing and the access
    [ezcb_table[idx]] is in bounds. *)
Theorem bucket_index_in_range (trigger : string) (buckets : Z)
    (table : list (list ezcb_node)) :
  0 < buckets -> length table = Z.to_nat buckets ->
  0 <= ezcb_hash trigger < 2 ^ 32
  /\ Z.of_nat (bucket_of trigger buckets) = ezcb_hash trigger mod buckets
  /\ is_Some (table !! bucket_of trigger buckets).
Proof.
  intros Hb Hlen. split; [apply ezcb_hash_range|]. split.
  - rewrite bucket_of_eq by done. rewrite Z2Nat.id; [done|].
    apply Z.mod_pos_bound. lia.
  - apply lookup_lt_is_Some_2. rewrite Hlen. by apply bucket_of_lt.
Qed.

Lemma bucket_index_in_range_witness :
  (0 < 16 /\ length (replicate 16 (@nil ezcb_node)) = Z.to_nat 16)
  /\ 0 <= ezcb_hash "a" < 2 ^ 32
  /\ Z.of_nat (bucket_of "a" 16) = ezcb_hash "a" mod 16
  /\ is_Some (replicate 16 (@nil ezcb_node) !! bucket_of "a" 16).
Proof.
  split; [split; [lia | reflexivity]|].
  apply (bucket_index_in_range "a" 16 (replicate 16 [])); [lia | reflexivity].
Defined.

Lemma ezcb_hash_loop_app (s1 s2 : string) (h : Z) :
  ezcb_hash_loop (s1 ++ s2) h = ezcb_hash_loop s2 (ezcb_hash_loop s1 h).
Proof.
  revert h. induction s1 as [|c s1 IH]; intros h; [done|].
  cbn [String.append ezcb_hash_loop]. apply IH.
Qed.

(** X2. The hash is computed byte by byte from 5381: the hash of a name
    followed by one more byte [c] is 33 times the hash of the name, cut to
    32 bits, xor [c]; the hash of a concatenation continues the loop from
    the hash of the first part. *)
Theorem ezcb_hash_step (s1 s2 : string) (c : ascii) :
  ezcb_hash EmptyString = 5381
  /\ ezcb_hash (s1 ++ String c EmptyString)
     = Z.lxor ((33 * ezcb_hash s1) mod 2 ^ 32) (Z.of_nat (nat_of_ascii c))
  /\ ezcb_hash (s1 ++ s2) = ezcb_hash_loop s2 (ezcb_hash s1).
Proof.
  split; [done|]. unfold ezcb_hash. rewrite !ezcb_hash_loop_app.
  split; [|done]. cbn [ezcb_hash_loop]. unfold uint32_t. do 2 f_equal.
  rewrite Z.shiftl_mul_pow2 by lia. lia.
Qed.

(** ** What ezcb_trigger fires and what it keeps *)

Section Persist.

Variable cfg : ezcb_config.
Context {W : Type}.
Variable call : Z -> Z -> Z -> W -> ezcb_result_t * W.

Lemma trigger_chain_fired_named (trigger : string) (data : Z)
    (chain : list ezcb_node) (st : ezcb_state) (w : W) :
  Forall (fun n => node_trigger n = trigger)
         (trigger_chain cfg call trigger data chain st w).1.2.
Proof.
  revert st w. induction chain as [|n next IH]; intros st w; [constructor|].
  cbn [trigger_chain].
  destruct (Z.eqb_spec (strcmp (node_trigger n) trigger) 0) as [Heq|Hne].
  - apply strcmp_eq in Heq.
    destruct (call (node_fn n) (node_ctx n) data w) as [r w1].
    destruct (node_once n), (is_stop r); cbn [fst snd].
    + by repeat constructor.
    + specialize (IH (trigger_release cfg n st) w1). destruct_walk.
      by constructor.
    + by repeat constructor.
    + specialize (IH st w1). destruct_walk. by constructor.
  - specialize (IH st w). by destruct_walk.
Qed.

(** X3. A ezcb_trigger call invokes only nodes registered under the name
    it is given, each at most as often as it is linked and in the order of
    the chain; a node of another name is never invoked, also when it
    shares the bucket. *)
Theorem trigger_fires_only_named (trigger : string) (data : Z)
    (st : ezcb_state) (w : W) :
  let fired := (ezcb_trigger cfg call trigger data st w).2 in
  Forall (fun n => node_trigger n = trigger) fired
  /\ (forall n, n ∈ fired -> n ∈ registered_nodes st)
  /\ (forall table, ezcb_table st = Some table ->
      fired `sublist_of` table !!! bucket_of trigger (ezcb_buckets st)).
Proof.
  cbn zeta. split_and!.
  - unfold ezcb_trigger. destruct (ezcb_table st) as [table|]; [|constructor].
    pose proof (trigger_chain_fired_named trigger data
                  (table !!! bucket_of trigger (ezcb_buckets st)) st w) as H.
    by destruct_walk.
  - intros n. apply ezcb_trigger_nodes.
  - intros table Ht. unfold ezcb_trigger. rewrite Ht.
    pose proof (trigger_chain_sublist cfg call trigger data
                  (table !!! bucket_of trigger (ezcb_buckets st)) st w)
      as [_ H].
    by destruct_walk.
Qed.

Lemma trigger_chain_persistent (trigger : string) (data : Z)
    (chain : list ezcb_node) (st : ezcb_state) (w : W) :
  Forall (fun n => node_trigger n = trigger -> node_once n = false) chain ->
  (trigger_chain cfg call trigger data chain st w).1.1.1 = (chain, st).
Proof.
  revert st w. induction chain as [|n next IH]; intros st w Hp; [done|].
  apply Forall_cons in Hp as [Hn Hnext]. cbn [trigger_chain].
  destruct (Z.eqb_spec (strcmp (node_trigger n) trigger) 0) as [Heq|Hne].
  - apply strcmp_eq in Heq. rewrite (Hn Heq).
    destruct (call (node_fn n) (node_ctx n) data w) as [r w1].
    destruct (is_stop r); [done|].
    specialize (IH st w1 Hnext). destruct_walk. cbn [fst snd] in *.
    by simplify_eq.
  - specialize (IH st w Hnext). destruct_walk. cbn [fst snd] in *.
    by simplify_eq.
Qed.

Lemma set_table_same (st : ezcb_state) (table : list (list ezcb_node)) :
  ezcb_table st = Some table -> set_table (Some table) st = st.
Proof. destruct st. cbn. by intros ->. Qed.

Lemma table_insert_same (table : list (list ezcb_node)) (i : nat) :
  <[i := table !!! i]> table = table.
Proof.
  destruct (table_lookup_total table i) as [Hin|[_ Hlost]];
    [by apply list_insert_id | apply Hlost].
Qed.

(** X4. When no node of the trigger in its bucket is a [once] node, a
    ezcb_trigger call leaves the whole state as it was, whatever the
    callbacks return: the registrations, their order, the count and the
    free list. Registrations made with ezcb_register stay until they are
    unregistered. *)
Theorem trigger_keeps_persistent (trigger : string) (data : Z)
    (st : ezcb_state) (w : W) (table : list (list ezcb_node)) :
  ezcb_table st = Some table ->
  Forall (fun n => node_trigger n = trigger -> node_once n = false)
         (table !!! bucket_of trigger (ezcb_buckets st)) ->
  (ezcb_trigger cfg call trigger data st w).1.1 = st.
Proof.
  intros Ht Hp. unfold ezcb_trigger. rewrite Ht.
  pose proof (trigger_chain_persistent trigger data _ st w Hp) as Hwalk.
  destruct_walk. cbn [fst snd] in *. simplify_eq.
  rewrite table_insert_same. by apply set_table_same.
Qed.

End Persist.

Lemma trigger_keeps_persistent_witness :
  let cfg := default_config in
  let st := twelve_registry in
  Forall (fun n => node_trigger n = "a"%string -> node_once n = false)
         (default [] (ezcb_table st) !!! bucket_of "a" (ezcb_buckets st))
  /\ (ezcb_trigger cfg logging_call "a" 0 st []).1.1 = st.
Proof.
  intros cfg st.
  assert (Ht : ezcb_table st = Some (default [] (ezcb_table st)))
    by (vm_compute; reflexivity).
  assert (Hp : Forall (fun n => node_trigger n = "a"%string ->
                                node_once n = false)
                 (default [] (ezcb_table st)
                  !!! bucket_of "a" (ezcb_buckets st))).
  { vm_compute default. vm_compute bucket_of. cbn [lookup_total].
    vm_compute. repeat (constructor; [intros _; reflexivity|]).
    constructor. }
  split; [exact Hp|].
  exact (trigger_keeps_persistent cfg logging_call "a" 0 st [] _ Ht Hp).
Defined.

(** ** Releasing nodes *)

Section Release.

Variable cfg : ezcb_config.

Lemma release_node_frame (n : ezcb_node) (st : ezcb_state) :
  ezcb_table (release_node cfg n st) = ezcb_table st
  /\ ezcb_buckets (release_node cfg n st) = ezcb_buckets st
  /\ ezcb_evt_head (release_node cfg n st) = ezcb_evt_head st
  /\ ezcb_evt_tail (release_node cfg n st) = ezcb_evt_tail st
  /\ ezcb_evt_queue (release_node cfg n st) = ezcb_evt_queue st.
Proof.
  unfold release_node, ezcb_node_free. by destruct (EZCB_NO_MALLOC cfg).
Qed.

Lemma release_all_frame (l : list ezcb_node) (st : ezcb_state) :
  ezcb_table (release_all cfg l st) = ezcb_table st
  /\ ezcb_buckets (release_all cfg l st) = ezcb_buckets st
  /\ ezcb_evt_head (release_all cfg l st) = ezcb_evt_head st
  /\ ezcb_evt_tail (release_all cfg l st) = ezcb_evt_tail st
  /\ ezcb_evt_queue (release_all cfg l st) = ezcb_evt_queue st.
Proof.
  revert st. induction l as [|n l IH]; intros st; [done|].
  cbn [release_all foldl]. fold (release_all cfg l (release_node cfg n st)).
  destruct (IH (release_node cfg n st)) as (-> & -> & -> & -> & ->).
  apply release_node_frame.
Qed.

(** The released slots are pushed on the free list one after the other. *)
Lemma release_all_free_list (l : list ezcb_node) (st : ezcb_state) :
  ezcb_free_list (release_all cfg l st)
  = (if EZCB_NO_MALLOC cfg then reverse (node_addr <$> l) else [])
    ++ ezcb_free_list st.
Proof.
  revert st. induction l as [|n l IH]; intros st.
  - by destruct (EZCB_NO_MALLOC cfg).
  - cbn [release_all foldl]. fold (release_all cfg l (release_node cfg n st)).
    rewrite IH. unfold release_node, ezcb_node_free.
    destruct (EZCB_NO_MALLOC cfg); [|done]. state_simpl.
    cbn [fmap list_fmap]. rewrite reverse_cons, <- app_assoc. done.
Qed.

(** The count goes down by one for each released node, without wrapping
    as long as it counts at least these nodes. *)
Lemma release_all_count (l : list ezcb_node) (st : ezcb_state) :
  Z.of_nat (length l) <= ezcb_count st < 2 ^ 64 ->
  ezcb_count (release_all cfg l st) = ezcb_count st - Z.of_nat (length l).
Proof.
  revert st. induction l as [|n l IH]; intros st Hc.
  - cbn. lia.
  - cbn [release_all foldl]. fold (release_all cfg l (release_node cfg n st)).
    cbn [length] in Hc.
    assert (Hone : ezcb_count (release_node cfg n st) = ezcb_count st - 1).
    { unfold release_node, ezcb_node_free.
      destruct (EZCB_NO_MALLOC cfg); state_simpl; unfold size_t;
        apply Z.mod_small; lia. }
    rewrite IH by (rewrite Hone; lia). rewrite Hone. cbn [length]. lia.
Qed.

Lemma release_all_app (l1 l2 : list ezcb_node) (st : ezcb_state) :
  release_all cfg (l1 ++ l2) st = release_all cfg l2 (release_all cfg l1 st).
Proof. unfold release_all. apply foldl_app. Qed.

(** ezcb_unregister releases exactly the nodes it unlinks. *)
Lemma unregister_chain_release (trigger : option string) (fn ctx : Z)
    (chain : list ezcb_node) (st : ezcb_state) (removed : Z) :
  (unregister_chain cfg trigger fn ctx chain st removed).1.2
  = release_all cfg (filter (matches_request trigger fn ctx) chain) st.
Proof.
  revert st removed. induction chain as [|n next IH]; intros st removed;
    [done|].
  cbn [unregister_chain].
  destruct (unregister_test trigger fn ctx n) eqn:Htest.
  - apply unregister_test_spec in Htest.
    rewrite filter_cons_True by done. rewrite IH. done.
  - assert (~ matches_request trigger fn ctx n) as Hno.
    { rewrite <- unregister_test_spec. by rewrite Htest. }
    rewrite filter_cons_False by done. specialize (IH st removed).
    by destruct (unregister_chain cfg trigger fn ctx next st removed)
      as [[? ?] ?].
Qed.

Lemma unregister_table_release (fn ctx : Z) (table : list (list ezcb_node))
    (st : ezcb_state) (removed : Z) :
  (unregister_table cfg fn ctx table st removed).1.2
  = release_all cfg (filter (matches_request None fn ctx) (concat table)) st.
Proof.
  revert st removed. induction table as [|chain table IH]; intros st removed;
    [done|].
  cbn [unregister_table concat].
  pose proof (unregister_chain_release None fn ctx chain st removed) as Hc.
  destruct (unregister_chain cfg None fn ctx chain st removed)
    as [[chain' st1] removed1].
  specialize (IH st1 removed1).
  destruct (unregister_table cfg fn ctx table st1 removed1)
    as [[table' st2] removed2].
  cbn [fst snd] in *. by rewrite filter_app, release_all_app, <- Hc.
Qed.

(** ezcb_trigger releases exactly the [once] nodes it has invoked, and
    these are the nodes it has unlinked. *)
Lemma trigger_chain_release {W : Type}
    (call : Z -> Z -> Z -> W -> ezcb_result_t * W)
    (trigger : string) (data : Z) (chain : list ezcb_node)
    (st : ezcb_state) (w : W) :
  let r := trigger_chain cfg call trigger data chain st w in
  r.1.1.1.2 = release_all cfg (filter (fun n => node_once n = true) r.1.2) st
  /\ chain ≡ₚ r.1.1.1.1 ++ filter (fun n => node_once n = true) r.1.2.
Proof.
  revert st w. induction chain as [|n next IH]; intros st w; [done|].
  cbn [trigger_chain].
  destruct (strcmp (node_trigger n) trigger =? 0).
  - destruct (call (node_fn n) (node_ctx n) data w) as [r w1].
    destruct (node_once n) eqn:Honce, (is_stop r); cbn [fst snd].
    + rewrite filter_cons_True by done. split; [done|].
      by rewrite <- Permutation_middle, app_nil_r.
    + specialize (IH (trigger_release cfg n st) w1). destruct_walk.
      cbn [fst snd] in *. destruct IH as [-> Hperm].
      rewrite filter_cons_True by done. split; [done|].
      by rewrite <- Permutation_middle, <- Hperm.
    + rewrite filter_cons_False by (by rewrite Honce). split; [done|].
      by rewrite app_nil_r.
    + specialize (IH st w1). destruct_walk.
      cbn [fst snd] in *. destruct IH as [-> Hperm].
      rewrite filter_cons_False by (by rewrite Honce). split; [done|].
      cbn [app]. by rewrite <- Hperm.
  - specialize (IH st w). destruct_walk.
    cbn [fst snd] in *. destruct IH as [-> Hperm]. split; [done|].
    cbn [app]. by rewrite <- Hperm.
Qed.

(** ezcb_deinit gives every linked node back. *)
Lemma deinit_free_list (table : list (list ezcb_node)) (st : ezcb_state) :
  ezcb_free_list (foldl (deinit_chain cfg) st table)
  = (if EZCB_NO_MALLOC cfg then reverse (node_addr <$> concat table) else [])
    ++ ezcb_free_list st.
Proof.
  assert (Hchain : forall chain s,
            ezcb_free_list (deinit_chain cfg s chain)
            = (if EZCB_NO_MALLOC cfg then reverse (node_addr <$> chain)
               else []) ++ ezcb_free_list s).
  { intros chain. unfold deinit_chain.
    induction chain as [|n chain IH]; intros s.
    - by destruct (EZCB_NO_MALLOC cfg).
    - cbn [foldl]. rewrite IH. destruct (EZCB_NO_MALLOC cfg); [|done].
      state_simpl. cbn [fmap list_fmap].
      rewrite reverse_cons, <- app_assoc. done. }
  revert st. induction table as [|chain table IH]; intros st.
  - by destruct (EZCB_NO_MALLOC cfg).
  - cbn [foldl concat]. rewrite IH, Hchain.
    destruct (EZCB_NO_MALLOC cfg); [|done].
    rewrite fmap_app, reverse_app, <- app_assoc. done.
Qed.

Lemma deinit_frame (table : list (list ezcb_node)) (st : ezcb_state) :
  let st' := foldl (deinit_chain cfg) st table in
  ezcb_evt_head st' = ezcb_evt_head st
  /\ ezcb_evt_tail st' = ezcb_evt_tail st
  /\ ezcb_evt_queue st' = ezcb_evt_queue st.
Proof.
  assert (Hchain : forall chain s,
            ezcb_evt_head (deinit_chain cfg s chain) = ezcb_evt_head s
            /\ ezcb_evt_tail (deinit_chain cfg s chain) = ezcb_evt_tail s
            /\ ezcb_evt_queue (deinit_chain cfg s chain) = ezcb_evt_queue s).
  { intros chain. unfold deinit_chain.
    induction chain as [|n chain IH]; intros s; [done|].
    cbn [foldl]. destruct (IH (if EZCB_NO_MALLOC cfg
                               then set_free_list
                                      (node_addr n :: ezcb_free_list s) s
                               else s)) as (-> & -> & ->).
    by destruct (EZCB_NO_MALLOC cfg). }
  revert st. induction table as [|chain table IH]; intros st; [done|].
  cbn [foldl]. destruct (IH (deinit_chain cfg st chain)) as (-> & -> & ->).
  apply Hchain.
Qed.

End Release.

(** ** The whole effect of ezcb_unregister and of ezcb_trigger *)

Section Effects.

Variable cfg : ezcb_config.

(** ezcb_unregister: the chains without the matching nodes, and the
    matching nodes released, in the order of the buckets. *)
Lemma ezcb_unregister_effect (trigger : option string) (fn ctx : Z)
    (st : ezcb_state) (table : list (list ezcb_node)) :
  ezcb_table st = Some table ->
  table_ok st ->
  ezcb_unregister cfg trigger fn ctx st
  = (set_table
       (Some (filter (fun n => ~ matches_request trigger fn ctx n) <$> table))
       (release_all cfg
          (filter (matches_request trigger fn ctx) (concat table)) st),
     Z.of_nat (length (filter (matches_request trigger fn ctx)
                              (concat table)))).
Proof.
  intros Ht Hok. unfold ezcb_unregister. rewrite Ht.
  destruct trigger as [t|].
  - set (idx := bucket_of t (ezcb_buckets st)).
    rewrite (filter_registered_bucket (matches_request (Some t) fn ctx)
               t st table Ht Hok) by (by intros n [Hn _]).
    fold idx.
    pose proof Hok as Hok'. unfold table_ok in Hok'. rewrite Ht in Hok'.
    destruct Hok' as (Hb & Hlen & Hplaced).
    assert (Hidx : (idx < length table)%nat).
    { rewrite Hlen. by apply bucket_of_lt. }
    destruct (lookup_lt_is_Some_2 table idx Hidx) as [chain Hchain].
    rewrite (list_lookup_total_correct _ _ _ Hchain).
    assert (Htable :
              <[idx := filter (fun n => ~ matches_request (Some t) fn ctx n)
                              chain]> table
              = filter (fun n => ~ matches_request (Some t) fn ctx n)
                  <$> table).
    { apply list_eq. intros j. rewrite list_lookup_fmap.
      destruct (decide (idx = j)) as [<-|Hne].
      - rewrite list_lookup_insert_eq by done. by rewrite Hchain.
      - rewrite list_lookup_insert_ne by done.
        destruct (table !! j) as [c|] eqn:Hj; [|done]. cbn. f_equal.
        symmetry. apply filter_all. intros n Hn [Heq _].
        apply Hne. symmetry.
        pose proof (chains_placed_lookup _ 0 j table c n Hplaced Hj Hn)
          as Hbj.
        cbn [Nat.add] in Hbj. by rewrite <- Hbj, Heq. }
    pose proof (unregister_chain_spec cfg (Some t) fn ctx chain st 0)
      as [Hc Hr].
    pose proof (unregister_chain_release cfg (Some t) fn ctx chain st 0)
      as Hs.
    destruct (unregister_chain cfg (Some t) fn ctx chain st 0)
      as [[chain' st1] removed].
    cbn [fst snd] in *. subst chain' st1 removed. by rewrite Htable.
  - pose proof (unregister_table_spec cfg fn ctx table st 0) as [Hc Hr].
    pose proof (unregister_table_release cfg fn ctx table st 0) as Hs.
    destruct (unregister_table cfg fn ctx table st 0)
      as [[table' st1] removed].
    cbn [fst snd] in *. by subst table' st1 removed.
Qed.

(** ezcb_trigger: the [once] nodes among the invoked ones are unlinked
    and released, in the order of their invocation; every other node
    stays. *)
Lemma ezcb_trigger_effect {W : Type}
    (call : Z -> Z -> Z -> W -> ezcb_result_t * W)
    (trigger : string) (data : Z) (st : ezcb_state) (w : W)
    (table : list (list ezcb_node)) :
  ezcb_table st = Some table ->
  table_ok st ->
  let r := ezcb_trigger cfg call trigger data st w in
  let gone := filter (fun n => node_once n = true) r.2 in
  exists table',
    r.1.1 = set_table (Some table') (release_all cfg gone st)
    /\ length table' = length table
    /\ concat table ≡ₚ gone ++ concat table'.
Proof.
  intros Ht Hok. unfold table_ok in Hok. rewrite Ht in Hok.
  destruct Hok as (Hb & Hlen & Hplaced).
  unfold ezcb_trigger. rewrite Ht.
  set (idx := bucket_of trigger (ezcb_buckets st)).
  assert (Hidx : (idx < length table)%nat).
  { rewrite Hlen. by apply bucket_of_lt. }
  pose proof (trigger_chain_release cfg call trigger data (table !!! idx)
                st w) as [Hs Hperm].
  destruct (trigger_chain cfg call trigger data (table !!! idx) st w)
    as [[[[chain' st1] w1] fired] stopped].
  cbn [fst snd] in *. subst st1.
  eexists. split_and!; [reflexivity | by rewrite length_insert |].
  destruct (lookup_lt_is_Some_2 table idx Hidx) as [chain Hchain].
  rewrite (list_lookup_total_correct _ _ _ Hchain) in Hperm.
  rewrite (concat_insert _ _ _ _ Hchain), (concat_lookup _ _ _ Hchain), Hperm.
  rewrite (Permutation_app_comm chain'), <- app_assoc.
  apply Permutation_app_swap_app.
Qed.

End Effects.

(** ** A registry built with EZCB_NO_MALLOC *)

Lemma foldl_cons_reverse {A : Type} (l acc : list A) :
  foldl (fun free_list i => i :: free_list) acc l = reverse l ++ acc.
Proof.
  revert acc. induction l as [|x l IH]; intros acc; [done|].
  cbn [foldl]. by rewrite IH, reverse_cons, <- app_assoc.
Qed.

Lemma queue_ok_frame (cfg : ezcb_config) (st st' : ezcb_state) :
  ezcb_evt_head st' = ezcb_evt_head st ->
  ezcb_evt_tail st' = ezcb_evt_tail st ->
  ezcb_evt_queue st' = ezcb_evt_queue st ->
  queue_ok cfg st -> queue_ok cfg st'.
Proof. unfold queue_ok. by intros -> -> ->. Qed.

Section Static.

Variable cfg : ezcb_config.
Hypothesis static_build : EZCB_NO_MALLOC cfg = true.
Hypothesis buckets_pos : 0 < EZCB_MAX_BUCKETS cfg.
Hypothesis nodes_fit : 0 <= EZCB_MAX_NODES cfg < 2 ^ 64.
Hypothesis queue_pos : 0 < EZCB_EVENT_QUEUE_SIZE cfg.

Lemma pool_ok_length (st : ezcb_state) :
  pool_ok cfg st ->
  Z.of_nat (length (registered_nodes st))
  + Z.of_nat (length (ezcb_free_list st)) = EZCB_MAX_NODES cfg.
Proof.
  unfold pool_ok, pool_slots. intros Hperm.
  apply Permutation_length in Hperm.
  rewrite length_app, length_fmap, length_seqZ in Hperm. lia.
Qed.

(** Unlinking the nodes [gone] and releasing them keeps the accounts. *)
Lemma release_accounts (st : ezcb_state) (table table' : list (list ezcb_node))
    (gone : list ezcb_node) :
  ezcb_table st = Some table ->
  count_ok st -> pool_ok cfg st ->
  concat table ≡ₚ gone ++ concat table' ->
  let st' := set_table (Some table') (release_all cfg gone st) in
  count_ok st' /\ pool_ok cfg st'
  /\ ezcb_count st' = ezcb_count st - Z.of_nat (length gone)
  /\ ezcb_free_list st' = reverse (node_addr <$> gone) ++ ezcb_free_list st.
Proof.
  intros Ht Hcount Hpool Hperm st'.
  pose proof (pool_ok_length st Hpool) as Hlen.
  unfold count_ok, pool_ok in *. unfold registered_nodes in *.
  rewrite Ht in *. subst st'. state_simpl.
  pose proof (Permutation_length Hperm) as Hl. rewrite length_app in Hl.
  rewrite release_all_count by lia.
  rewrite release_all_free_list, static_build.
  split_and!; [lia | | lia | done].
  rewrite <- Hpool, Hperm, fmap_app, reverse_Permutation.
  rewrite !app_assoc. f_equiv. apply Permutation_app_comm.
Qed.

Lemma static_invariant_initial : static_invariant cfg (initial_state cfg).
Proof.
  unfold static_invariant, table_ok, table_ordered, count_ok, queue_ok.
  cbn. split_and!; try done.
  all: try (unfold ring_size; lia).
  by rewrite length_replicate.
Qed.

Lemma static_invariant_init (h : heap) (st : ezcb_state) :
  static_invariant cfg st -> static_invariant cfg (ezcb_init cfg h st).
Proof.
  intros Hinv. unfold ezcb_init.
  destruct (ezcb_table st) eqn:Ht; [done|].
  destruct Hinv as (_ & _ & _ & _ & Hq). rewrite static_build.
  assert (Hnil : forall n, concat (replicate n (@nil ezcb_node)) = []).
  { intros n. by induction n. }
  unfold static_invariant, table_ok, table_ordered, count_ok, pool_ok,
    registered_nodes.
  state_simpl. rewrite Hnil. split_and!.
  - done.
  - by rewrite length_replicate.
  - apply chains_placed_replicate.
  - apply Forall_replicate. constructor.
  - done.
  - intros _. rewrite foldl_cons_reverse, app_nil_r.
    cbn. apply reverse_Permutation.
  - done.
Qed.

Lemma static_invariant_deinit (st : ezcb_state) :
  static_invariant cfg st -> static_invariant cfg (ezcb_deinit cfg st).
Proof.
  intros Hinv. unfold ezcb_deinit.
  destruct (ezcb_table st) as [table|] eqn:Ht; [|done].
  destruct Hinv as (_ & _ & _ & _ & Hs & Hh & Htl & Hlen).
  destruct (deinit_frame cfg table st) as (Hfh & Hft & Hfq).
  unfold static_invariant, table_ok, table_ordered, count_ok, pool_ok,
    registered_nodes, queue_ok.
  destruct (EZCB_ENABLE_ISR cfg); state_simpl;
    rewrite ?Hfh, ?Hft, ?Hfq; split_and!; try done;
    try lia; unfold ring_size; lia.
Qed.

(** A register call on an initialized registry: what it returns and the
    state it leaves. *)
Lemma static_register_effect (h : heap) (trigger : string)
    (priority fn ctx : Z) (once : bool) (st : ezcb_state)
    (table : list (list ezcb_node)) :
  ezcb_table st = Some table ->
  ezcb_register_internal cfg h trigger priority fn ctx once st
  = if strlen trigger >=? EZCB_MAX_TRIGGER_LENGTH cfg then Some (st, -1)
    else
      match ezcb_free_list st with
      | [] => Some (st, -1)
      | a :: next =>
          let idx := bucket_of trigger (ezcb_buckets st) in
          Some (set_count (size_t (ezcb_count st + 1))
                  (set_table
                     (Some (<[idx := register_insert trigger priority
                                       (new_node a trigger priority fn ctx once)
                                       (table !!! idx)]> table))
                     (set_free_list next st)), 0)
      end.
Proof.
  intros Ht. unfold ezcb_register_internal. rewrite Ht, static_build.
  destruct (strlen trigger >=? EZCB_MAX_TRIGGER_LENGTH cfg); [done|].
  unfold register_node, ezcb_node_alloc. rewrite static_build.
  destruct (ezcb_free_list st) as [|a next]; [done|].
  state_simpl. by rewrite Ht.
Qed.

Lemma static_invariant_register (h : heap) (trigger : string)
    (priority fn ctx : Z) (once : bool) (st st' : ezcb_state) (rc : Z) :
  static_invariant cfg st ->
  ezcb_register_internal cfg h trigger priority fn ctx once st
  = Some (st', rc) ->
  static_invariant cfg st'.
Proof.
  intros Hinv. rewrite ezcb_register_internal_init.
  fold (implicit_init cfg h st).
  assert (Hinit : static_invariant cfg (implicit_init cfg h st)).
  { unfold implicit_init. destruct (ezcb_table st); [done|].
    by apply static_invariant_init. }
  assert (is_Some (ezcb_table (implicit_init cfg h st))) as [table Ht].
  { by apply implicit_init_static_table. }
  revert Hinit Ht. generalize (implicit_init cfg h st). clear st Hinv.
  intros st Hinv Ht. rewrite (static_register_effect _ _ _ _ _ _ _ _ Ht).
  destruct (strlen trigger >=? EZCB_MAX_TRIGGER_LENGTH cfg);
    [by intros [= <- <-]|].
  destruct (ezcb_free_list st) as [|a next] eqn:Hfree; [by intros [= <- <-]|].
  intros [= <- <-].
  destruct Hinv as (Hok & Hord & Hcount & Hpool & Hq).
  specialize (Hpool (mk_is_Some _ _ Ht)).
  pose proof (pool_ok_length st Hpool) as Hlen. rewrite Hfree in Hlen.
  cbn [length] in Hlen.
  pose proof Hok as Hok'. unfold table_ok in Hok'. rewrite Ht in Hok'.
  destruct Hok' as (Hb & Hlent & Hplaced).
  set (idx := bucket_of trigger (ezcb_buckets st)) in *.
  set (node := new_node a trigger priority fn ctx once).
  assert (Hidx : (idx < length table)%nat).
  { rewrite Hlent. by apply bucket_of_lt. }
  assert (Hperm : concat (<[idx := register_insert trigger priority node
                                     (table !!! idx)]> table)
                  ≡ₚ [node] ++ concat table).
  { apply concat_insert_total; [done|]. apply register_insert_perm. }
  unfold static_invariant. split_and!.
  - unfold table_ok. state_simpl.
    split_and!; [done | by rewrite length_insert |].
    apply chains_placed_insert; [done|].
    apply register_insert_forallb.
    + cbn. apply Nat.eqb_refl.
    + by apply (chains_placed_lookup_total _ 0 idx).
  - eapply (table_ordered_insert st); [done | done | | reflexivity].
    apply register_insert_ordered; [done | done |].
    by apply (table_ordered_lookup st).
  - unfold count_ok, registered_nodes in *. state_simpl. rewrite Ht in *.
    rewrite Hperm. cbn [app length]. unfold size_t.
    rewrite Z.mod_small by lia. lia.
  - intros _. unfold pool_ok, registered_nodes in *. state_simpl.
    rewrite Ht, Hfree in Hpool. rewrite <- Hpool, Hperm.
    cbn [app fmap list_fmap]. by rewrite <- Permutation_middle.
  - by apply (queue_ok_frame cfg st).
Qed.

Lemma static_invariant_unregister (trigger : option string) (fn ctx : Z)
    (st : ezcb_state) :
  static_invariant cfg st ->
  static_invariant cfg (ezcb_unregister cfg trigger fn ctx st).1.
Proof.
  intros Hinv.
  destruct (ezcb_table st) as [table|] eqn:Ht;
    [|by unfold ezcb_unregister; rewrite Ht].
  destruct Hinv as (Hok & Hord & Hcount & Hpool & Hq).
  specialize (Hpool (mk_is_Some _ _ Ht)).
  pose proof (ezcb_unregister_table_ok cfg trigger fn ctx st Hok) as Hok'.
  pose proof (ezcb_unregister_ordered cfg trigger fn ctx st Hord) as Hord'.
  rewrite (ezcb_unregister_effect cfg trigger fn ctx st table Ht Hok) in *.
  cbn [fst] in *.
  set (gone := filter (matches_request trigger fn ctx) (concat table)) in *.
  set (table' := filter (fun n => ~ matches_request trigger fn ctx n)
                   <$> table) in *.
  assert (Hperm : concat table ≡ₚ gone ++ concat table').
  { unfold gone, table'. rewrite <- filter_concat.
    symmetry. apply filter_app_complement. }
  destruct (release_accounts st table table' gone Ht Hcount Hpool Hperm)
    as (Hcount' & Hpool' & _).
  destruct (release_all_frame cfg gone st) as (_ & _ & Hfh & Hft & Hfq).
  unfold static_invariant. split_and!; [done | done | done | done |].
  by apply (queue_ok_frame cfg st).
Qed.

Lemma static_invariant_trigger {W : Type}
    (call : Z -> Z -> Z -> W -> ezcb_result_t * W)
    (trigger : string) (data : Z) (st : ezcb_state) (w : W) :
  static_invariant cfg st ->
  static_invariant cfg (ezcb_trigger cfg call trigger data st w).1.1.
Proof.
  intros Hinv.
  destruct (ezcb_table st) as [table|] eqn:Ht;
    [|by unfold ezcb_trigger; rewrite Ht].
  destruct Hinv as (Hok & Hord & Hcount & Hpool & Hq).
  specialize (Hpool (mk_is_Some _ _ Ht)).
  pose proof (ezcb_trigger_table_ok cfg call trigger data st w Hok) as Hok'.
  pose proof (ezcb_trigger_ordered cfg call trigger data st w Hord) as Hord'.
  destruct (ezcb_trigger_effect cfg call trigger data st w table Ht Hok)
    as (table' & Hst' & _ & Hperm).
  rewrite Hst' in *.
  destruct (release_accounts st table table' _ Ht Hcount Hpool Hperm)
    as (Hcount' & Hpool' & _).
  destruct (release_all_frame cfg
              (filter (fun n => node_once n = true)
                 (ezcb_trigger cfg call trigger data st w).2) st)
    as (_ & _ & Hfh & Hft & Hfq).
  unfold static_invariant. split_and!; [done | done | done | done |].
  by apply (queue_ok_frame cfg st).
Qed.

(** The deferred queue is no part of the registry: writing its indices or
    its slots keeps what holds of the registry. *)
Lemma static_invariant_queue (st st' : ezcb_state) :
  registry_of st' = registry_of st ->
  queue_ok cfg st' ->
  static_invariant cfg st -> static_invariant cfg st'.
Proof.
  unfold registry_of. intros [= Ht Hb Hc Hf] Hq (Hok & Hord & Hcount & Hpool & _).
  unfold static_invariant, table_ok, table_ordered, count_ok, pool_ok,
    registered_nodes in *.
  by rewrite Ht, Hb, Hc, Hf.
Qed.

Lemma queue_ok_trigger_isr (trigger : string) (data : Z) (st : ezcb_state) :
  queue_ok cfg st ->
  queue_ok cfg (ezcb_trigger_isr cfg trigger data st).1
  /\ registry_of (ezcb_trigger_isr cfg trigger data st).1 = registry_of st.
Proof.
  intros Hq. pose proof (pending_count_range cfg st Hq) as Hrange.
  destruct (Z.eq_dec (pending_count cfg st) (ring_size cfg - 1)) as [Hfull|Hne].
  - by rewrite (ezcb_trigger_isr_full cfg trigger data st Hq Hfull).
  - destruct (ezcb_trigger_isr_accepts cfg trigger data st Hq)
      as (st' & -> & Hq' & _ & _ & _ & Hreg & _); [lia|done].
Qed.

Lemma static_invariant_trigger_isr (trigger : string) (data : Z)
    (st : ezcb_state) :
  static_invariant cfg st ->
  static_invariant cfg (ezcb_trigger_isr cfg trigger data st).1.
Proof.
  intros Hinv. pose proof Hinv as (_ & _ & _ & _ & Hq).
  destruct (queue_ok_trigger_isr trigger data st Hq) as [Hq' Hreg].
  by apply (static_invariant_queue st).
Qed.

Lemma static_invariant_dispatch {W : Type}
    (call : Z -> Z -> Z -> W -> ezcb_result_t * W)
    (fuel : nat) (st st' : ezcb_state) (w w' : W) (fired : list ezcb_node) :
  static_invariant cfg st ->
  ezcb_dispatch cfg call fuel st w = Some (st', w', fired) ->
  static_invariant cfg st'.
Proof.
  revert st w st' w' fired.
  induction fuel as [|fuel IH]; intros st w st' w' fired Hinv;
    cbn [ezcb_dispatch];
    destruct (negb (ezcb_evt_tail st =? ezcb_evt_head st));
    try done; try (by intros [= <- <- <-]).
  set (st1 := set_evt_tail
                (uint8_t ((ezcb_evt_tail st + 1) mod EZCB_EVENT_QUEUE_SIZE cfg))
                st).
  assert (Hinv1 : static_invariant cfg st1).
  { apply (static_invariant_queue st); [done | | done].
    destruct Hinv as (_ & _ & _ & _ & Hs & Hh & Htl & Hlen).
    destruct (ring_next cfg (ezcb_evt_tail st) Hs Htl) as (_ & Hnext & _).
    unfold queue_ok, st1. state_simpl. split_and!; try done; lia. }
  pose proof (static_invariant_trigger call
                (evt_trigger (ezcb_evt_queue st !!! Z.to_nat (ezcb_evt_tail st)))
                (evt_data (ezcb_evt_queue st !!! Z.to_nat (ezcb_evt_tail st)))
                st1 w Hinv1) as Hinv2.
  change (ezcb_evt_queue st) with (ezcb_evt_queue st1) in Hinv2 |- * at 1.
  destruct (ezcb_trigger cfg call _ _ st1 w) as [[st2 w2] fired2].
  cbn [fst] in Hinv2.
  destruct (ezcb_dispatch cfg call fuel st2 w2) as [[[st3 w3] fired3]|] eqn:Hd;
    [|done].
  intros [= <- <- <-]. by eapply IH.
Qed.

(** Every call of the API keeps [static_invariant], and so does every
    sequence of calls. *)
Lemma static_invariant_run_call {W : Type}
    (call : Z -> Z -> Z -> W -> ezcb_result_t * W)
    (c : api_call) (st st' : ezcb_state) (w w' : W) :
  static_invariant cfg st ->
  run_call cfg call c st w = Some (st', w') ->
  static_invariant cfg st'.
Proof.
  intros Hinv. destruct c as [h| |h r|t fn ctx|t data|t data|fuel];
    cbn [run_call].
  - intros [= <- <-]. by apply static_invariant_init.
  - intros [= <- <-]. by apply static_invariant_deinit.
  - destruct (ezcb_register_internal cfg h _ _ _ _ _ st) as [[st1 rc]|] eqn:Hr;
      [|done].
    intros [= <- <-]. by eapply static_invariant_register.
  - intros [= <- <-]. by apply static_invariant_unregister.
  - pose proof (static_invariant_trigger call t data st w Hinv) as Ht.
    destruct (ezcb_trigger cfg call t data st w) as [[st1 w1] fired].
    by intros [= <- <-].
  - intros [= <- <-]. by apply static_invariant_trigger_isr.
  - destruct (ezcb_dispatch cfg call fuel st w) as [[[st1 w1] fired]|] eqn:Hd;
      [|done].
    intros [= <- <-]. by eapply static_invariant_dispatch.
Qed.

Lemma static_invariant_run_calls {W : Type}
    (call : Z -> Z -> Z -> W -> ezcb_result_t * W)
    (cs : list api_call) (st st' : ezcb_state) (w w' : W) :
  static_invariant cfg st ->
  run_calls cfg call cs st w = Some (st', w') ->
  static_invariant cfg st'.
Proof.
  revert st w. induction cs as [|c cs IH]; intros st w Hinv;
    cbn [run_calls]; [by intros [= <- <-]|].
  destruct (run_call cfg call c st w) as [[st1 w1]|] eqn:Hc; [|done].
  apply IH. by eapply static_invariant_run_call.
Qed.

End Static.

Lemma static_build_invariant (cfg : ezcb_config) {W : Type}
    (call : Z -> Z -> Z -> W -> ezcb_result_t * W)
    (cs : list api_call) (w w' : W) (st : ezcb_state) :
  static_build_ok cfg ->
  run_calls cfg call cs (initial_state cfg) w = Some (st, w') ->
  static_invariant cfg st.
Proof.
  intros (Hm & Hb & Hn & Hq) Hrun.
  eapply (static_invariant_run_calls cfg Hm Hb Hn Hq call cs); [|done].
  by apply static_invariant_initial.
Qed.

(** X5. In a build with EZCB_NO_MALLOC, whatever calls of the API a
    client has made since program start: [ezcb_count] is the number of
    linked nodes and is at most EZCB_MAX_NODES; no slot of the pool is
    linked twice; and while the registry is initialized every slot of the
    pool is either linked in the table or on the free list, never both,
    never lost. *)
Theorem static_pool_conserved (cfg : ezcb_config) {W : Type}
    (call : Z -> Z -> Z -> W -> ezcb_result_t * W)
    (cs : list api_call) (w w' : W) (st : ezcb_state) :
  static_build_ok cfg ->
  run_calls cfg call cs (initial_state cfg) w = Some (st, w') ->
  ezcb_count st = Z.of_nat (length (registered_nodes st))
  /\ 0 <= ezcb_count st <= EZCB_MAX_NODES cfg
  /\ NoDup (node_addr <$> registered_nodes st)
  /\ (is_Some (ezcb_table st) ->
      (node_addr <$> registered_nodes st) ++ ezcb_free_list st
        ≡ₚ pool_slots cfg
      /\ NoDup ((node_addr <$> registered_nodes st) ++ ezcb_free_list st)
      /\ Z.of_nat (length (ezcb_free_list st))
         = EZCB_MAX_NODES cfg - ezcb_count st).
Proof.
  intros Hcfg Hrun.
  destruct (static_build_invariant cfg call cs w w' st Hcfg Hrun)
    as (Hok & Hord & Hcount & Hpool & Hq).
  destruct Hcfg as (Hm & Hb & Hn & Hqs).
  assert (Hslots : NoDup (pool_slots cfg)) by apply NoDup_seqZ.
  destruct (ezcb_table st) as [table|] eqn:Ht.
  - specialize (Hpool (mk_is_Some _ _ eq_refl)).
    pose proof (pool_ok_length cfg Hn st Hpool) as Hlen.
    assert (Hnd : NoDup ((node_addr <$> registered_nodes st)
                         ++ ezcb_free_list st)).
    { unfold pool_ok in Hpool. by rewrite Hpool. }
    unfold count_ok in Hcount.
    split_and!; [done | lia | lia | by apply NoDup_app in Hnd as [? _] |].
    intros _. split_and!; [done | done | lia].
  - unfold count_ok, registered_nodes in *. rewrite Ht in *. cbn in *.
    split_and!; [done | lia | lia | constructor | by intros [? ?]].
Qed.

Lemma static_pool_conserved_witness :
  let cfg := static_config in
  let st := tick_registry in
  (static_build_ok cfg
   /\ run_calls cfg logging_call tick_session (initial_state cfg) []
      = Some (st, [2; 3; 1; 3; 1]))
  /\ ezcb_count st = Z.of_nat (length (registered_nodes st))
  /\ 0 <= ezcb_count st <= EZCB_MAX_NODES cfg
  /\ NoDup (node_addr <$> registered_nodes st)
  /\ (is_Some (ezcb_table st) ->
      (node_addr <$> registered_nodes st) ++ ezcb_free_list st
        ≡ₚ pool_slots cfg
      /\ NoDup ((node_addr <$> registered_nodes st) ++ ezcb_free_list st)
      /\ Z.of_nat (length (ezcb_free_list st))
         = EZCB_MAX_NODES cfg - ezcb_count st).
Proof.
  intros cfg st.
  assert (Hcfg : static_build_ok cfg) by by_computation.
  assert (Hrun : run_calls cfg logging_call tick_session (initial_state cfg) []
                 = Some (st, [2; 3; 1; 3; 1]))
    by (vm_compute; reflexivity).
  split; [exact (conj Hcfg Hrun)|].
  exact (static_pool_conserved cfg logging_call tick_session [] _ st
           Hcfg Hrun).
Defined.

(** ** The order of the invocations *)

Lemma chain_ordered_named (trigger : string) (l : list ezcb_node) :
  chain_ordered l ->
  Forall (fun n => node_trigger n = trigger) l ->
  StronglySorted (fun m n => node_priority n <= node_priority m) l.
Proof.
  unfold chain_ordered. induction 1 as [|m l Hl IH Hm]; intros Hn;
    [constructor|].
  apply Forall_cons in Hn as [Hmt Hn]. constructor; [by apply IH|].
  rewrite Forall_forall in Hm, Hn |- *. intros n Hin.
  apply (Hm n Hin). by rewrite Hmt, (Hn n Hin).
Qed.

(** On ordered chains a ezcb_trigger call invokes by descending
    priority. *)
Lemma ezcb_trigger_priority_order (cfg : ezcb_config) {W : Type}
    (call : Z -> Z -> Z -> W -> ezcb_result_t * W)
    (trigger : string) (data : Z) (st : ezcb_state) (w : W) :
  table_ordered st ->
  StronglySorted (fun m n => node_priority n <= node_priority m)
    (ezcb_trigger cfg call trigger data st w).2.
Proof.
  intros Hord. unfold ezcb_trigger.
  destruct (ezcb_table st) as [table|] eqn:Ht; [|constructor].
  pose proof (trigger_chain_sublist cfg call trigger data
                (table !!! bucket_of trigger (ezcb_buckets st)) st w)
    as [_ Hsub].
  pose proof (trigger_chain_fired_named cfg call trigger data
                (table !!! bucket_of trigger (ezcb_buckets st)) st w)
    as Hnamed.
  destruct_walk. cbn [fst snd] in *.
  apply (chain_ordered_named trigger); [|done].
  eapply chain_ordered_sublist; [done|].
  by apply (table_ordered_lookup st).
Qed.

(** X6. In a build with EZCB_NO_MALLOC, whatever calls of the API a
    client has made since program start, a ezcb_trigger call invokes the
    callbacks of the trigger by descending priority: no callback is
    invoked after one of lower priority. (The table never grows in such a
    build, so the order of the chains is never reversed.) *)
Theorem static_trigger_by_priority (cfg : ezcb_config) {W : Type}
    (call : Z -> Z -> Z -> W -> ezcb_result_t * W)
    (cs : list api_call) (w0 w1 : W) (st : ezcb_state)
    (trigger : string) (data : Z) (w : W) :
  static_build_ok cfg ->
  run_calls cfg call cs (initial_state cfg) w0 = Some (st, w1) ->
  StronglySorted (fun m n => node_priority n <= node_priority m)
    (ezcb_trigger cfg call trigger data st w).2.
Proof.
  intros Hcfg Hrun.
  destruct (static_build_invariant cfg call cs w0 w1 st Hcfg Hrun)
    as (_ & Hord & _).
  by apply ezcb_trigger_priority_order.
Qed.

Lemma static_trigger_by_priority_witness :
  let cfg := static_config in
  let st := tick_registry in
  (static_build_ok cfg
   /\ run_calls cfg logging_call tick_session (initial_state cfg) []
      = Some (st, [2; 3; 1; 3; 1]))
  /\ StronglySorted (fun m n => node_priority n <= node_priority m)
       (ezcb_trigger cfg logging_call "tick" 12 st []).2.
Proof.
  intros cfg st.
  assert (Hcfg : static_build_ok cfg) by by_computation.
  assert (Hrun : run_calls cfg logging_call tick_session (initial_state cfg) []
                 = Some (st, [2; 3; 1; 3; 1]))
    by (vm_compute; reflexivity).
  split; [exact (conj Hcfg Hrun)|].
  exact (static_trigger_by_priority cfg logging_call tick_session [] _ st
           "tick" 12 [] Hcfg Hrun).
Defined.

(** ** The pool and the register call *)

Lemma implicit_init_registered (cfg : ezcb_config) (h : heap)
    (st : ezcb_state) :
  EZCB_NO_MALLOC cfg = true ->
  registered_nodes (implicit_init cfg h st) = registered_nodes st.
Proof.
  intros Hm. unfold implicit_init, registered_nodes.
  destruct (ezcb_table st) eqn:Ht; [by rewrite Ht|].
  rewrite ezcb_init_table by auto. by induction (Z.to_nat _).
Qed.

(** X7. In a build with EZCB_NO_MALLOC, whatever calls of the API a
    client has made since program start, a register call returns 0 or -1,
    and it returns 0 exactly when the name is shorter than
    EZCB_MAX_TRIGGER_LENGTH and fewer than EZCB_MAX_NODES callbacks are
    registered. A call that returns -1 registers nothing (it leaves the
    registry as it found it, initialized); a call that returns 0 links one
    node with its arguments in a slot of the pool that no registered node
    occupies, and counts it. *)
Theorem static_register_outcome (cfg : ezcb_config) {W : Type}
    (call : Z -> Z -> Z -> W -> ezcb_result_t * W)
    (cs : list api_call) (w0 w1 : W) (st : ezcb_state)
    (h : heap) (trigger : string) (priority fn ctx : Z) (once : bool) :
  static_build_ok cfg ->
  run_calls cfg call cs (initial_state cfg) w0 = Some (st, w1) ->
  exists st' rc,
    ezcb_register_internal cfg h trigger priority fn ctx once st
    = Some (st', rc)
    /\ (rc = 0 \/ rc = -1)
    /\ (rc = 0 <-> strlen trigger < EZCB_MAX_TRIGGER_LENGTH cfg
                   /\ ezcb_count st < EZCB_MAX_NODES cfg)
    /\ (rc = -1 -> st' = implicit_init cfg h st)
    /\ (rc = 0 ->
        ezcb_count st' = ezcb_count st + 1
        /\ exists a,
             a ∈ pool_slots cfg
             /\ ~ a ∈ node_addr <$> registered_nodes st
             /\ registered_nodes st'
                ≡ₚ new_node a trigger priority fn ctx once
                   :: registered_nodes st).
Proof.
  intros Hcfg Hrun.
  pose proof (static_build_invariant cfg call cs w0 w1 st Hcfg Hrun) as Hinv.
  destruct Hcfg as (Hm & Hb & Hn & Hqs).
  assert (Hinv0 : static_invariant cfg (implicit_init cfg h st)).
  { unfold implicit_init. destruct (ezcb_table st); [done|].
    by apply static_invariant_init. }
  destruct (implicit_init_static_table cfg h st Hm) as [table Ht].
  pose proof (implicit_init_registered cfg h st Hm) as Hreg.
  assert (Hcnt : ezcb_count (implicit_init cfg h st) = ezcb_count st).
  { destruct Hinv as (_ & _ & Hc & _), Hinv0 as (_ & _ & Hc0 & _).
    unfold count_ok in *. by rewrite Hc, Hc0, Hreg. }
  rewrite ezcb_register_internal_init, <- Hreg, <- Hcnt.
  revert Hinv0 Ht. generalize (implicit_init cfg h st).
  clear st Hrun Hinv Hreg Hcnt. intros st Hinv Ht.
  rewrite (static_register_effect cfg Hm _ _ _ _ _ _ _ _ Ht).
  destruct Hinv as (Hok & _ & Hcount & Hpool & _).
  specialize (Hpool (mk_is_Some _ _ Ht)).
  pose proof (pool_ok_length cfg Hn st Hpool) as Hlen.
  unfold count_ok in Hcount.
  destruct (Z.geb_spec (strlen trigger) (EZCB_MAX_TRIGGER_LENGTH cfg))
    as [Hlong|Hfits].
  { exists st, (-1). split_and!; [done | by right | | done | done].
    split; [done | lia]. }
  destruct (ezcb_free_list st) as [|a next] eqn:Hfree.
  { exists st, (-1). split_and!; [done | by right | | done | done].
    cbn [length] in Hlen. split; [done | lia]. }
  cbn [length] in Hlen.
  eexists _, 0. split_and!; [reflexivity | by left | | done |].
  { split; [lia | done]. }
  intros _. state_simpl. split.
  { unfold size_t. apply Z.mod_small. lia. }
  unfold table_ok in Hok. rewrite Ht in Hok.
  destruct Hok as (Hbk & Hlent & _).
  assert (Hnd : NoDup ((node_addr <$> registered_nodes st) ++ a :: next)).
  { unfold pool_ok in Hpool. rewrite Hfree in Hpool. rewrite Hpool.
    apply NoDup_seqZ. }
  exists a. split_and!.
  - unfold pool_ok in Hpool. rewrite <- Hpool, Hfree.
    apply elem_of_app. right. apply list_elem_of_here.
  - apply NoDup_app in Hnd as (_ & Hdisj & _). intros Ha.
    apply (Hdisj a Ha), list_elem_of_here.
  - unfold registered_nodes. state_simpl. rewrite Ht.
    apply (concat_insert_total _ _ _)
      with (extra := [new_node a trigger priority fn ctx once]).
    + rewrite Hlent. by apply bucket_of_lt.
    + apply register_insert_perm.
Qed.

Lemma static_register_outcome_witness :
  let cfg := static_config in
  let st := tick_registry in
  (static_build_ok cfg
   /\ run_calls cfg logging_call tick_session (initial_state cfg) []
      = Some (st, [2; 3; 1; 3; 1]))
  /\ exists st' rc,
       ezcb_register_internal cfg heap_exhausted "tick" 5 6 0 false st
       = Some (st', rc)
       /\ (rc = 0 \/ rc = -1)
       /\ (rc = 0 <-> strlen "tick" < EZCB_MAX_TRIGGER_LENGTH cfg
                      /\ ezcb_count st < EZCB_MAX_NODES cfg)
       /\ (rc = -1 -> st' = implicit_init cfg heap_exhausted st)
       /\ (rc = 0 ->
           ezcb_count st' = ezcb_count st + 1
           /\ exists a,
                a ∈ pool_slots cfg
                /\ ~ a ∈ node_addr <$> registered_nodes st
                /\ registered_nodes st'
                   ≡ₚ new_node a "tick" 5 6 0 false :: registered_nodes st).
Proof.
  intros cfg st.
  assert (Hcfg : static_build_ok cfg) by by_computation.
  assert (Hrun : run_calls cfg logging_call tick_session (initial_state cfg) []
                 = Some (st, [2; 3; 1; 3; 1]))
    by (vm_compute; reflexivity).
  split; [exact (conj Hcfg Hrun)|].
  exact (static_register_outcome cfg logging_call tick_session [] _ st
           heap_exhausted "tick" 5 6 0 false Hcfg Hrun).
Defined.

(** ** What unlinking does to the count and to the pool *)

(** X8. In a build with EZCB_NO_MALLOC, whatever calls of the API a
    client has made since program start, a ezcb_unregister call that
    returns [r] has lowered [ezcb_count] by [r], without wrapping, and has
    pushed on the free list the [r] slots of the matching nodes, and
    nothing else: the slot unlinked last is the one allocated next. *)
Theorem static_unregister_accounts (cfg : ezcb_config) {W : Type}
    (call : Z -> Z -> Z -> W -> ezcb_result_t * W)
    (cs : list api_call) (w0 w1 : W) (st : ezcb_state)
    (trigger : option string) (fn ctx : Z) :
  static_build_ok cfg ->
  run_calls cfg call cs (initial_state cfg) w0 = Some (st, w1) ->
  let r := ezcb_unregister cfg trigger fn ctx st in
  let gone := filter (matches_request trigger fn ctx) (registered_nodes st) in
  0 <= r.2 <= ezcb_count st
  /\ ezcb_count r.1 = ezcb_count st - r.2
  /\ ezcb_free_list r.1 = reverse (node_addr <$> gone) ++ ezcb_free_list st
  /\ Z.of_nat (length (ezcb_free_list r.1))
     = Z.of_nat (length (ezcb_free_list st)) + r.2.
Proof.
  intros Hcfg Hrun.
  destruct (static_build_invariant cfg call cs w0 w1 st Hcfg Hrun)
    as (Hok & _ & Hcount & Hpool & _).
  destruct Hcfg as (Hm & Hb & Hn & Hqs). cbn zeta.
  destruct (ezcb_table st) as [table|] eqn:Ht.
  - specialize (Hpool (mk_is_Some _ _ eq_refl)).
    rewrite (ezcb_unregister_effect cfg trigger fn ctx st table Ht Hok).
    rewrite (registered_nodes_table st table Ht). cbn [fst snd].
    set (gone := filter (matches_request trigger fn ctx) (concat table)).
    assert (Hperm : concat table
                    ≡ₚ gone ++ concat (filter (fun n =>
                         ~ matches_request trigger fn ctx n) <$> table)).
    { unfold gone. rewrite <- filter_concat.
      symmetry. apply filter_app_complement. }
    destruct (release_accounts cfg Hm Hn st table _ gone Ht Hcount Hpool
                Hperm) as (_ & _ & Hc & Hf).
    pose proof (Permutation_length Hperm) as Hl. rewrite length_app in Hl.
    unfold count_ok in Hcount.
    rewrite (registered_nodes_table st table Ht) in Hcount.
    rewrite Hc, Hf, length_app, length_reverse, length_fmap.
    split_and!; [lia | lia | done | done | lia].
  - unfold ezcb_unregister, count_ok, registered_nodes in *.
    rewrite Ht in *. cbn in *. split_and!; [done | lia | lia | done | lia].
Qed.

Lemma static_unregister_accounts_witness :
  let cfg := static_config in
  let st := tick_registry in
  (static_build_ok cfg
   /\ run_calls cfg logging_call tick_session (initial_state cfg) []
      = Some (st, [2; 3; 1; 3; 1]))
  /\ let r := ezcb_unregister cfg None 0 0 st in
     let gone := filter (matches_request None 0 0) (registered_nodes st) in
     0 <= r.2 <= ezcb_count st
     /\ ezcb_count r.1 = ezcb_count st - r.2
     /\ ezcb_free_list r.1
        = reverse (node_addr <$> gone) ++ ezcb_free_list st
     /\ Z.of_nat (length (ezcb_free_list r.1))
        = Z.of_nat (length (ezcb_free_list st)) + r.2.
Proof.
  intros cfg st.
  assert (Hcfg : static_build_ok cfg) by by_computation.
  assert (Hrun : run_calls cfg logging_call tick_session (initial_state cfg) []
                 = Some (st, [2; 3; 1; 3; 1]))
    by (vm_compute; reflexivity).
  split; [exact (conj Hcfg Hrun)|].
  exact (static_unregister_accounts cfg logging_call tick_session [] _ st
           None 0 0 Hcfg Hrun).
Defined.

(** X9. In a build with EZCB_NO_MALLOC, whatever calls of the API a
    client has made since program start, a ezcb_trigger call unlinks the
    [once] nodes it has invoked and no other node; it lowers [ezcb_count]
    by their number, without wrapping, and pushes their slots on the free
    list in the order of the invocations. *)
Theorem static_trigger_accounts (cfg : ezcb_config) {W : Type}
    (call : Z -> Z -> Z -> W -> ezcb_result_t * W)
    (cs : list api_call) (w0 w1 : W) (st : ezcb_state)
    (trigger : string) (data : Z) (w : W) :
  static_build_ok cfg ->
  run_calls cfg call cs (initial_state cfg) w0 = Some (st, w1) ->
  let r := ezcb_trigger cfg call trigger data st w in
  let gone := filter (fun n => node_once n = true) r.2 in
  registered_nodes st ≡ₚ gone ++ registered_nodes r.1.1
  /\ ezcb_count r.1.1 = ezcb_count st - Z.of_nat (length gone)
  /\ 0 <= ezcb_count r.1.1
  /\ ezcb_free_list r.1.1
     = reverse (node_addr <$> gone) ++ ezcb_free_list st.
Proof.
  intros Hcfg Hrun.
  destruct (static_build_invariant cfg call cs w0 w1 st Hcfg Hrun)
    as (Hok & _ & Hcount & Hpool & _).
  destruct Hcfg as (Hm & Hb & Hn & Hqs). cbn zeta.
  destruct (ezcb_table st) as [table|] eqn:Ht.
  - specialize (Hpool (mk_is_Some _ _ eq_refl)).
    destruct (ezcb_trigger_effect cfg call trigger data st w table Ht Hok)
      as (table' & Hst' & _ & Hperm).
    destruct (release_accounts cfg Hm Hn st table table' _ Ht Hcount Hpool
                Hperm) as (_ & _ & Hc & Hf).
    pose proof (Permutation_length Hperm) as Hl. rewrite length_app in Hl.
    unfold count_ok in Hcount.
    rewrite (registered_nodes_table st table Ht) in Hcount |- *.
    rewrite Hst'. rewrite Hc, Hf.
    split_and!; [|done|lia|done].
    unfold registered_nodes. by state_simpl.
  - unfold ezcb_trigger, count_ok, registered_nodes in *.
    rewrite Ht in *. cbn in *. rewrite Ht. split_and!; [done | lia | lia | done].
Qed.

Lemma static_trigger_accounts_witness :
  let cfg := static_config in
  let st := four_registry in
  (static_build_ok cfg
   /\ run_calls cfg logging_call tick_registrations (initial_state cfg) []
      = Some (st, []))
  /\ let r := ezcb_trigger cfg logging_call "tick" 11 st [] in
     let gone := filter (fun n => node_once n = true) r.2 in
     registered_nodes st ≡ₚ gone ++ registered_nodes r.1.1
     /\ ezcb_count r.1.1 = ezcb_count st - Z.of_nat (length gone)
     /\ 0 <= ezcb_count r.1.1
     /\ ezcb_free_list r.1.1
        = reverse (node_addr <$> gone) ++ ezcb_free_list st.
Proof.
  intros cfg st.
  assert (Hcfg : static_build_ok cfg) by by_computation.
  assert (Hrun : run_calls cfg logging_call tick_registrations
                   (initial_state cfg) []
                 = Some (st, []))
    by (vm_compute; reflexivity).
  split; [exact (conj Hcfg Hrun)|].
  exact (static_trigger_accounts cfg logging_call tick_registrations [] _ st
           "tick" 11 [] Hcfg Hrun).
Defined.

(** ** Registering and unregistering *)

Lemma filter_id_fmap {A : Type} (P : A -> Prop) `{!forall x, Decision (P x)}
    (ls : list (list A)) :
  Forall P (concat ls) -> filter P <$> ls = ls.
Proof.
  induction ls as [|l ls IH]; [done|]. cbn [concat fmap list_fmap].
  intros [Hl Hls]%Forall_app. rewrite IH by done. f_equal.
  apply filter_all. intros x Hx. by eapply Forall_forall in Hl.
Qed.




(** ** What ezcb_resize does to the order of a chain *)

Lemma rehash_chain_concat (new_size : Z)
    (table new_table : list (list ezcb_node)) :
  foldl (rehash_chain new_size) new_table table
  = foldl (rehash_node new_size) new_table (concat table).
Proof.
  revert new_table. induction table as [|chain table IH]; intros new_table;
    [done|].
  cbn [foldl concat]. by rewrite foldl_app, IH.
Qed.

(** Every node is pushed on the front of its new chain: the nodes that
    were walked first end up last. *)
Lemma rehash_nodes_reverse (new_size : Z) (l : list ezcb_node)
    (new_table : list (list ezcb_node)) :
  0 < new_size ->
  length new_table = Z.to_nat new_size ->
  let t := foldl (rehash_node new_size) new_table l in
  length t = Z.to_nat new_size
  /\ forall j : nat,
       t !!! j
       = reverse (filter (fun n => bucket_of (node_trigger n) new_size = j) l)
         ++ new_table !!! j.
Proof.
  intros Hpos. revert new_table.
  induction l as [|n l IH]; intros new_table Hlen; [done|].
  cbn [foldl]. unfold rehash_node at 2.
  set (idx := bucket_of (node_trigger n) new_size).
  assert (Hidx : (idx < length new_table)%nat).
  { rewrite Hlen. by apply bucket_of_lt. }
  destruct (IH (<[idx := n :: new_table !!! idx]> new_table)) as [Hl Hj].
  { by rewrite length_insert. }
  cbn zeta. split; [done|]. intros j. rewrite Hj.
  destruct (decide (idx = j)) as [<-|Hne].
  - rewrite filter_cons_True by done.
    rewrite list_lookup_total_insert_eq by done.
    by rewrite reverse_cons, <- app_assoc.
  - rewrite filter_cons_False by done.
    by rewrite list_lookup_total_insert_ne.
Qed.

(** X11. A ezcb_resize call whose calloc succeeds builds a table of
    [new_size] chains in which chain [j] holds the nodes whose hash is [j]
    modulo [new_size], in the reverse of the order in which the old table
    listed them (bucket after bucket, each chain from its head). The
    count, the free list and the deferred queue are left alone. *)
Theorem resize_reverses_every_chain (h : heap) (new_size : Z)
    (st : ezcb_state) (table : list (list ezcb_node)) :
  0 < new_size ->
  ezcb_table st = Some table ->
  calloc_resize h = true ->
  exists new_table,
    ezcb_resize h new_size st
    = Some (set_buckets new_size (set_table (Some new_table) st), 0)
    /\ length new_table = Z.to_nat new_size
    /\ forall j : nat,
         (j < Z.to_nat new_size)%nat ->
         new_table !! j
         = Some (reverse
                   (filter (fun n => bucket_of (node_trigger n) new_size = j)
                           (concat table))).
Proof.
  intros Hpos Ht Hcalloc. unfold ezcb_resize. rewrite Hcalloc, Ht. cbn [negb].
  eexists. split; [reflexivity|].
  rewrite rehash_chain_concat.
  destruct (rehash_nodes_reverse new_size (concat table)
              (replicate (Z.to_nat new_size) []) Hpos) as [Hlen Hj].
  { by rewrite length_replicate. }
  split; [done|]. intros j Hlt.
  rewrite list_lookup_lookup_total_lt by (by rewrite Hlen).
  f_equal. rewrite Hj, list_lookup_total_alt, lookup_replicate_2 by done.
  cbn. by rewrite app_nil_r.
Qed.

Lemma resize_reverses_every_chain_witness :
  let st := twelve_registry in
  (0 < 32 /\ ezcb_table st = Some (default [] (ezcb_table st))
   /\ calloc_resize (heap_gives 8192) = true)
  /\ exists new_table,
       ezcb_resize (heap_gives 8192) 32 st
       = Some (set_buckets 32 (set_table (Some new_table) st), 0)
       /\ length new_table = Z.to_nat 32
       /\ forall j : nat,
            (j < Z.to_nat 32)%nat ->
            new_table !! j
            = Some (reverse
                      (filter (fun n => bucket_of (node_trigger n) 32 = j)
                              (concat (default [] (ezcb_table st))))).
Proof.
  intros st.
  assert (Hpos : 0 < 32) by lia.
  assert (Ht : ezcb_table st = Some (default [] (ezcb_table st)))
    by (vm_compute; reflexivity).
  assert (Hc : calloc_resize (heap_gives 8192) = true) by reflexivity.
  split; [exact (conj Hpos (conj Ht Hc))|].
  exact (resize_reverses_every_chain (heap_gives 8192) 32 st _ Hpos Ht Hc).
Defined.

(** ** A calloc that fails in ezcb_init *)

(** X12. Without EZCB_NO_MALLOC, ezcb_init does not test what calloc
    returns: when it fails on an uninitialized registry, [ezcb_table]
    stays null although [ezcb_buckets] is 16 and [ezcb_count] is 0. A
    register call that meets this failure does not report it: when the
    malloc of the node fails too it returns -1, and when that malloc
    succeeds it indexes the null table (the run has no result). A
    ezcb_trigger or ezcb_unregister call on the state that ezcb_init
    leaves does nothing. *)
Theorem register_after_failed_calloc (cfg : ezcb_config) {W : Type}
    (call : Z -> Z -> Z -> W -> ezcb_result_t * W)
    (h : heap) (trigger : string) (priority fn ctx : Z) (once : bool)
    (st : ezcb_state) (data : Z) (w : W) :
  EZCB_NO_MALLOC cfg = false ->
  ezcb_table st = None ->
  calloc_init h = false ->
  let st0 := ezcb_init cfg h st in
  ezcb_table st0 = None /\ ezcb_buckets st0 = 16 /\ ezcb_count st0 = 0
  /\ ezcb_register_internal cfg h trigger priority fn ctx once st
     = match malloc_node h with
       | Some _ => None
       | None => Some (st0, -1)
       end
  /\ ezcb_trigger cfg call trigger data st0 w = (st0, w, [])
  /\ ezcb_unregister cfg (Some trigger) fn ctx st0 = (st0, 0).
Proof.
  intros Hm Ht Hc. cbn zeta.
  assert (Hinit : ezcb_init cfg h st
                  = set_count 0 (set_table None (set_buckets 16 st))).
  { unfold ezcb_init. by rewrite Ht, Hm, Hc. }
  unfold ezcb_register_internal, ezcb_trigger, ezcb_unregister.
  rewrite Ht, Hm, Hinit. state_simpl. split_and!; try done.
  change (size_t (0 * 4) >=? size_t (16 * 3)) with false. cbn match.
  unfold register_node, ezcb_node_alloc. rewrite Hm.
  by destruct (malloc_node h).
Qed.

Lemma register_after_failed_calloc_witness :
  let cfg := default_config in
  let st := initial_state cfg in
  let h := heap_no_table in
  (EZCB_NO_MALLOC cfg = false /\ ezcb_table st = None
   /\ calloc_init h = false)
  /\ ezcb_register_internal cfg h "tick" 1 2 3 false st = None.
Proof.
  intros cfg st h.
  assert (Hm : EZCB_NO_MALLOC cfg = false) by reflexivity.
  assert (Ht : ezcb_table st = None) by reflexivity.
  assert (Hc : calloc_init h = false) by reflexivity.
  split; [exact (conj Hm (conj Ht Hc))|].
  exact (proj1 (proj2 (proj2 (proj2
           (register_after_failed_calloc cfg logging_call h "tick" 1 2 3
              false st 0 [] Hm Ht Hc))))).
Defined.

(** ** ezcb_deinit *)

(** X13. ezcb_deinit on an initialized registry leaves it uninitialized
    and empty: the table is null, [ezcb_buckets] and [ezcb_count] are 0.
    Under EZCB_NO_MALLOC every linked node is pushed on the free list.
    With EZCB_ENABLE_ISR the two indices of the deferred queue are reset:
    the events that were pending are dropped, and a ezcb_dispatch call
    that follows invokes nothing. A second ezcb_deinit changes nothing,
    and a ezcb_init that follows gives the registry that the first
    ezcb_init of the program gives. *)
Theorem deinit_drops_everything (cfg : ezcb_config) {W : Type}
    (call : Z -> Z -> Z -> W -> ezcb_result_t * W)
    (st : ezcb_state) (table : list (list ezcb_node)) (h : heap)
    (fuel : nat) (w : W) :
  ezcb_table st = Some table ->
  let st' := ezcb_deinit cfg st in
  (ezcb_table st' = None /\ ezcb_buckets st' = 0 /\ ezcb_count st' = 0)
  /\ registered_nodes st' = []
  /\ ezcb_free_list st'
     = (if EZCB_NO_MALLOC cfg then reverse (node_addr <$> concat table)
        else []) ++ ezcb_free_list st
  /\ ezcb_evt_queue st' = ezcb_evt_queue st
  /\ (EZCB_ENABLE_ISR cfg = true ->
      ezcb_evt_head st' = 0 /\ ezcb_evt_tail st' = 0
      /\ ezcb_dispatch cfg call fuel st' w = Some (st', w, []))
  /\ ezcb_deinit cfg st' = st'
  /\ (EZCB_NO_MALLOC cfg = true \/ ezcb_free_list st = [] ->
      registry_of (ezcb_init cfg h st')
      = registry_of (ezcb_init cfg h (initial_state cfg))).
Proof.
  intros Ht. cbn zeta.
  pose proof (deinit_free_list cfg table st) as Hfree.
  destruct (deinit_frame cfg table st) as (Hfh & Hft & Hfq).
  assert (Hnull : ezcb_table (ezcb_deinit cfg st) = None).
  { unfold ezcb_deinit. rewrite Ht. by destruct (EZCB_ENABLE_ISR cfg). }
  assert (Hlist : ezcb_free_list (ezcb_deinit cfg st)
                  = (if EZCB_NO_MALLOC cfg
                     then reverse (node_addr <$> concat table) else [])
                    ++ ezcb_free_list st).
  { unfold ezcb_deinit. rewrite Ht. by destruct (EZCB_ENABLE_ISR cfg). }
  split_and!.
  - done.
  - unfold ezcb_deinit. rewrite Ht. by destruct (EZCB_ENABLE_ISR cfg).
  - unfold ezcb_deinit. rewrite Ht. by destruct (EZCB_ENABLE_ISR cfg).
  - unfold registered_nodes. by rewrite Hnull.
  - done.
  - unfold ezcb_deinit. rewrite Ht. by destruct (EZCB_ENABLE_ISR cfg).
  - intros Hisr. unfold ezcb_deinit. rewrite Ht, Hisr.
    split_and!; [done | done |]. by destruct fuel.
  - unfold ezcb_deinit at 1. by rewrite Hnull.
  - intros Hres. unfold ezcb_init. rewrite Hnull. cbn [initial_state ezcb_table].
    destruct (EZCB_NO_MALLOC cfg) eqn:Hm; unfold registry_of; state_simpl;
      [done|].
    destruct Hres as [?|Hempty]; [done|]. by rewrite Hlist, Hempty.
Qed.

Lemma deinit_drops_everything_witness :
  let cfg := static_config in
  let st := four_registry in
  ezcb_table st = Some (default [] (ezcb_table st))
  /\ ezcb_table (ezcb_deinit cfg st) = None
  /\ ezcb_free_list (ezcb_deinit cfg st)
     = reverse (node_addr <$> concat (default [] (ezcb_table st)))
       ++ ezcb_free_list st.
Proof.
  intros cfg st.
  assert (Ht : ezcb_table st = Some (default [] (ezcb_table st)))
    by (vm_compute; reflexivity).
  pose proof (deinit_drops_everything cfg logging_call st _ heap_exhausted
                0 [] Ht) as ((Hnull & _) & _ & Hfree & _).
  exact (conj Ht (conj Hnull Hfree)).
Defined.

(** ** A trigger in which no callback stops *)

(** Rewriting the bucket of [trigger] with a filter that keeps every node
    of another name is filtering every bucket. *)
Lemma insert_filter_bucket (P : ezcb_node -> Prop)
    `{!forall x, Decision (P x)} (trigger : string) (st : ezcb_state)
    (table : list (list ezcb_node)) :
  ezcb_table st = Some table -> table_ok st ->
  (forall n, ~ P n -> node_trigger n = trigger) ->
  <[bucket_of trigger (ezcb_buckets st) :=
      filter P (table !!! bucket_of trigger (ezcb_buckets st))]> table
  = filter P <$> table.
Proof.
  intros Ht Hok HP. unfold table_ok in Hok. rewrite Ht in Hok.
  destruct Hok as (Hb & Hlen & Hplaced).
  set (idx := bucket_of trigger (ezcb_buckets st)).
  assert (Hidx : (idx < length table)%nat).
  { rewrite Hlen. by apply bucket_of_lt. }
  apply list_eq. intros j. rewrite list_lookup_fmap.
  destruct (decide (idx = j)) as [<-|Hne].
  - rewrite list_lookup_insert_eq by done.
    by rewrite (list_lookup_lookup_total_lt table idx Hidx).
  - rewrite list_lookup_insert_ne by done.
    destruct (table !! j) as [c|] eqn:Hj; [|done]. cbn. f_equal.
    symmetry. apply filter_all. intros n Hn.
    destruct (decide (P n)) as [|Hno]; [done|]. exfalso. apply Hne.
    pose proof (chains_placed_lookup _ 0 j table c n Hplaced Hj Hn) as Hbj.
    cbn [Nat.add] in Hbj. by rewrite <- Hbj, (HP n Hno).
Qed.

Section Reach.

Variable cfg : ezcb_config.
Context {W : Type}.
Variable call : Z -> Z -> Z -> W -> ezcb_result_t * W.
Hypothesis call_continues :
  forall fn ctx data w, (call fn ctx data w).1 = EZCB_CONTINUE.

(** When no callback stops, the walk unlinks the [once] nodes of the
    trigger and no other node. *)
Lemma trigger_chain_continue_rest (trigger : string) (data : Z)
    (chain : list ezcb_node) (st : ezcb_state) (w : W) :
  (trigger_chain cfg call trigger data chain st w).1.1.1.1
  = filter (fun n => ~ (node_trigger n = trigger /\ node_once n = true))
           chain.
Proof.
  revert st w. induction chain as [|n next IH]; intros st w; [done|].
  cbn [trigger_chain].
  destruct (Z.eqb_spec (strcmp (node_trigger n) trigger) 0) as [Heq|Hne].
  - apply strcmp_eq in Heq.
    pose proof (call_continues (node_fn n) (node_ctx n) data w) as Hc.
    destruct (call (node_fn n) (node_ctx n) data w) as [r w1].
    cbn [fst] in Hc. subst r. cbn [is_stop].
    destruct (node_once n) eqn:Honce.
    + rewrite filter_cons_False by (intros Hno; by apply Hno).
      specialize (IH (trigger_release cfg n st) w1). by destruct_walk.
    + rewrite filter_cons_True by (intros [_ ?]; congruence).
      specialize (IH st w1). destruct_walk. cbn [fst snd] in *.
      by rewrite IH.
  - rewrite filter_cons_True by (intros [? _]; by apply Hne, strcmp_eq).
    specialize (IH st w). destruct_walk. cbn [fst snd] in *. by rewrite IH.
Qed.

(** X14. On an initialized registry whose nodes are in the buckets of
    their triggers, a ezcb_trigger call in which no callback returns
    EZCB_STOP invokes every node registered under the trigger, each once,
    in the order of the chain, and no other node; afterwards the [once]
    nodes of that trigger are unlinked and every other node is linked as
    before. *)
Theorem trigger_reaches_every_callback (trigger : string) (data : Z)
    (st : ezcb_state) (w : W) (table : list (list ezcb_node)) :
  ezcb_table st = Some table ->
  table_ok st ->
  let r := ezcb_trigger cfg call trigger data st w in
  r.2 = filter (fun n => node_trigger n = trigger) (registered_nodes st)
  /\ registered_nodes r.1.1
     = filter (fun n => ~ (node_trigger n = trigger /\ node_once n = true))
              (registered_nodes st).
Proof.
  intros Ht Hok. cbn zeta. split.
  - rewrite (ezcb_trigger_continue cfg call call_continues _ _ _ _ table Ht).
    rewrite (registered_nodes_table st table Ht).
    symmetry. by apply filter_registered_bucket.
  - rewrite (registered_nodes_table st table Ht), filter_concat.
    rewrite <- (insert_filter_bucket _ trigger st table Ht Hok).
    + unfold ezcb_trigger. rewrite Ht.
      pose proof (trigger_chain_continue_rest trigger data
                    (table !!! bucket_of trigger (ezcb_buckets st)) st w)
        as Hrest.
      destruct_walk. cbn [fst snd] in *. subst.
      unfold registered_nodes. by state_simpl.
    + intros n Hn. destruct (decide (node_trigger n = trigger)); [done|].
      exfalso. apply Hn. by intros [? _].
Qed.

End Reach.

Lemma trigger_reaches_every_callback_witness :
  let cfg := static_config in
  let st := four_registry in
  ((forall fn ctx data w, (continuing_call fn ctx data w).1 = EZCB_CONTINUE)
   /\ ezcb_table st = Some (default [] (ezcb_table st))
   /\ table_ok st)
  /\ let r := ezcb_trigger cfg continuing_call "tick" 12 st [] in
     r.2 = filter (fun n => node_trigger n = "tick"%string)
                  (registered_nodes st)
     /\ registered_nodes r.1.1
        = filter (fun n => ~ (node_trigger n = "tick"%string
                              /\ node_once n = true))
                 (registered_nodes st).
Proof.
  intros cfg st.
  assert (Hcall : forall fn ctx data (w : list Z),
            (continuing_call fn ctx data w).1 = EZCB_CONTINUE)
    by (intros; reflexivity).
  assert (Ht : ezcb_table st = Some (default [] (ezcb_table st)))
    by (vm_compute; reflexivity).
  assert (Hok : table_ok st) by by_computation.
  split; [exact (conj Hcall (conj Ht Hok))|].
  exact (trigger_reaches_every_callback cfg continuing_call Hcall "tick" 12
           st [] _ Ht Hok).
Defined.

(** ** Where a new callback comes in the order of invocation *)

Lemma Forall_filter_named (trigger : string) (Q : ezcb_node -> Prop)
    (l : list ezcb_node) :
  Forall (fun m => node_trigger m = trigger -> Q m) l ->
  Forall Q (filter (fun n => node_trigger n = trigger) l).
Proof.
  induction 1 as [|m l Hm Hl IH]; [constructor|].
  destruct (decide (node_trigger m = trigger)) as [Heq|Hne].
  - rewrite filter_cons_True by done. constructor; auto.
  - by rewrite filter_cons_False.
Qed.

Lemma implicit_init_fires (cfg : ezcb_config) {W : Type}
    (call : Z -> Z -> Z -> W -> ezcb_result_t * W) (h : heap)
    (trigger : string) (data : Z) (st : ezcb_state) (w : W) :
  EZCB_NO_MALLOC cfg = true ->
  (ezcb_trigger cfg call trigger data (implicit_init cfg h st) w).2
  = (ezcb_trigger cfg call trigger data st w).2.
Proof.
  intros Hm. unfold implicit_init.
  destruct (ezcb_table st) eqn:Ht; [done|].
  unfold ezcb_trigger at 2. rewrite Ht. cbn [snd].
  unfold ezcb_trigger. rewrite ezcb_init_table by auto. rewrite Hm.
  assert (Hnil : forall n i, replicate n (@nil ezcb_node) !!! i = []).
  { intros n i. rewrite list_lookup_total_alt.
    destruct (replicate n [] !! i) as [c|] eqn:Hi; [|done].
    by apply lookup_replicate in Hi as [-> _]. }
  by rewrite Hnil.
Qed.

(** X15. In a build with EZCB_NO_MALLOC, whatever calls of the API a
    client has made since program start, a register call that returns 0
    places the new callback, in the order in which a ezcb_trigger without
    stop invokes the callbacks of the trigger, behind every callback of
    equal or higher priority and before every callback of lower priority;
    the callbacks that were registered keep their order. Callbacks of
    equal priority are so invoked in the order of their registration. *)
Theorem static_register_position (cfg : ezcb_config) {W : Type}
    (call : Z -> Z -> Z -> W -> ezcb_result_t * W)
    (cs : list api_call) (w0 w1 : W) (st st' : ezcb_state)
    (h : heap) (trigger : string) (priority fn ctx : Z) (once : bool)
    (data : Z) (w : W) :
  static_build_ok cfg ->
  run_calls cfg call cs (initial_state cfg) w0 = Some (st, w1) ->
  (forall fn ctx data w, (call fn ctx data w).1 = EZCB_CONTINUE) ->
  ezcb_register_internal cfg h trigger priority fn ctx once st
  = Some (st', 0) ->
  exists a pre post,
    (ezcb_trigger cfg call trigger data st w).2 = pre ++ post
    /\ (ezcb_trigger cfg call trigger data st' w).2
       = pre ++ new_node a trigger priority fn ctx once :: post
    /\ Forall (fun m => priority <= node_priority m) pre
    /\ Forall (fun m => node_priority m < priority) post.
Proof.
  intros Hcfg Hrun Hcont.
  pose proof (static_build_invariant cfg call cs w0 w1 st Hcfg Hrun) as Hinv.
  destruct Hcfg as (Hm & Hb & Hn & Hqs).
  assert (Hinv0 : static_invariant cfg (implicit_init cfg h st)).
  { unfold implicit_init. destruct (ezcb_table st); [done|].
    by apply static_invariant_init. }
  destruct (implicit_init_static_table cfg h st Hm) as [table Ht].
  rewrite ezcb_register_internal_init.
  rewrite <- (implicit_init_fires cfg call h trigger data st w Hm).
  revert Hinv0 Ht. generalize (implicit_init cfg h st).
  clear st Hrun Hinv. intros st (Hok & Hord & _) Ht.
  rewrite (static_register_effect cfg Hm _ _ _ _ _ _ _ _ Ht).
  destruct (strlen trigger >=? EZCB_MAX_TRIGGER_LENGTH cfg); [done|].
  destruct (ezcb_free_list st) as [|a next]; [done|].
  cbn zeta. intros [= <-].
  set (idx := bucket_of trigger (ezcb_buckets st)).
  set (node := new_node a trigger priority fn ctx once).
  unfold table_ok in Hok. rewrite Ht in Hok. destruct Hok as (Hbk & Hlent & _).
  assert (Hidx : (idx < length table)%nat).
  { rewrite Hlent. by apply bucket_of_lt. }
  rewrite (ezcb_trigger_continue cfg call Hcont _ _ _ _ table Ht).
  erewrite (ezcb_trigger_continue cfg call Hcont); [|by state_simpl].
  state_simpl. fold idx. rewrite list_lookup_total_insert_eq by done.
  destruct (register_insert_stable trigger priority node (table !!! idx))
    as (pre & post & Hchain & -> & Hpre & Hpost).
  specialize (Hpost (table_ordered_lookup st table idx Ht Hord)).
  rewrite Hchain.
  exists a, (filter (fun n => node_trigger n = trigger) pre),
    (filter (fun n => node_trigger n = trigger) post).
  rewrite !filter_app, filter_cons_True by done.
  split_and!; [done | done | |]; by apply Forall_filter_named.
Qed.

Lemma static_register_position_witness :
  let cfg := static_config in
  let st := tick_registry in
  let st' := tick_registry_more in
  (static_build_ok cfg
   /\ run_calls cfg continuing_call tick_session (initial_state cfg) []
      = Some (st, [2; 3; 1; 3; 1])
   /\ (forall fn ctx data w,
         (continuing_call fn ctx data w).1 = EZCB_CONTINUE)
   /\ ezcb_register_internal cfg heap_exhausted "tick" 4 5 0 false st
      = Some (st', 0))
  /\ exists a pre post,
       (ezcb_trigger cfg continuing_call "tick" 12 st []).2 = pre ++ post
       /\ (ezcb_trigger cfg continuing_call "tick" 12 st' []).2
          = pre ++ new_node a "tick" 4 5 0 false :: post
       /\ Forall (fun m => 4 <= node_priority m) pre
       /\ Forall (fun m => node_priority m < 4) post.
Proof.
  intros cfg st st'.
  assert (Hcfg : static_build_ok cfg) by by_computation.
  assert (Hrun : run_calls cfg continuing_call tick_session
                   (initial_state cfg) []
                 = Some (st, [2; 3; 1; 3; 1]))
    by (vm_compute; reflexivity).
  assert (Hcall : forall fn ctx data (w : list Z),
            (continuing_call fn ctx data w).1 = EZCB_CONTINUE)
    by (intros; reflexivity).
  assert (Hreg : ezcb_register_internal cfg heap_exhausted "tick" 4 5 0
                   false st
                 = Some (st', 0))
    by (vm_compute; reflexivity).
  split; [exact (conj Hcfg (conj Hrun (conj Hcall Hreg)))|].
  exact (static_register_position cfg continuing_call tick_session [] _ st
           st' heap_exhausted "tick" 4 5 0 false 12 [] Hcfg Hrun Hcall Hreg).
Defined.

(** ** The indices of the deferred queue *)

Section QueueSafe.

Variable cfg : ezcb_config.

Lemma same_queue_ok (st st' : ezcb_state) :
  same_queue st st' -> queue_ok cfg st -> queue_ok cfg st'.
Proof. intros (Hh & Ht & Hq). by apply queue_ok_frame. Qed.

Lemma ezcb_init_same_queue (h : heap) (st : ezcb_state) :
  same_queue st (ezcb_init cfg h st).
Proof.
  unfold ezcb_init, same_queue. destruct (ezcb_table st); [done|].
  by destruct (EZCB_NO_MALLOC cfg).
Qed.

Lemma register_node_same_queue (h : heap) (trigger : string)
    (priority fn ctx : Z) (once : bool) (st st' : ezcb_state) (rc : Z) :
  register_node cfg h trigger priority fn ctx once st = Some (st', rc) ->
  same_queue st st'.
Proof.
  unfold register_node, ezcb_node_alloc, same_queue.
  destruct (EZCB_NO_MALLOC cfg).
  - destruct (ezcb_free_list st) as [|a next]; [by intros [= <- <-]|].
    state_simpl. destruct (ezcb_table st); [|done]. by intros [= <- <-].
  - destruct (malloc_node h) as [a|]; [|by intros [= <- <-]].
    destruct (ezcb_table st); [|done]. by intros [= <- <-].
Qed.

Lemma ezcb_register_internal_same_queue (h : heap) (trigger : string)
    (priority fn ctx : Z) (once : bool) (st st' : ezcb_state) (rc : Z) :
  ezcb_register_internal cfg h trigger priority fn ctx once st
  = Some (st', rc) ->
  same_queue st st'.
Proof.
  unfold ezcb_register_internal. fold (implicit_init cfg h st).
  assert (Hinit : same_queue st (implicit_init cfg h st)).
  { unfold implicit_init. destruct (ezcb_table st); [done|].
    apply ezcb_init_same_queue. }
  revert Hinit. generalize (implicit_init cfg h st). intros st0 (Hh & Ht & Hq).
  assert (Hnode : forall s s' r,
            same_queue st0 s ->
            register_node cfg h trigger priority fn ctx once s = Some (s', r) ->
            same_queue st s').
  { intros s s' r (Hh1 & Ht1 & Hq1) Hr.
    destruct (register_node_same_queue _ _ _ _ _ _ _ _ _ Hr)
      as (Hh2 & Ht2 & Hq2).
    unfold same_queue. by rewrite Hh2, Ht2, Hq2, Hh1, Ht1, Hq1. }
  destruct (EZCB_NO_MALLOC cfg).
  - destruct (strlen trigger >=? EZCB_MAX_TRIGGER_LENGTH cfg);
      [by intros [= <- <-]|].
    by apply Hnode.
  - destruct (size_t (ezcb_count st0 * 4) >=? size_t (ezcb_buckets st0 * 3));
      [|by apply Hnode].
    unfold ezcb_resize.
    destruct (negb (calloc_resize h)); cbn [negb Z.eqb];
      [by intros [= <- <-]|].
    destruct (ezcb_table st0); [|done]. cbn [negb Z.eqb]. by apply Hnode.
Qed.

Lemma ezcb_unregister_same_queue (trigger : option string) (fn ctx : Z)
    (st : ezcb_state) :
  same_queue st (ezcb_unregister cfg trigger fn ctx st).1.
Proof.
  unfold ezcb_unregister. destruct (ezcb_table st) as [table|]; [|done].
  destruct trigger as [t|].
  - pose proof (unregister_chain_release cfg (Some t) fn ctx
                  (table !!! bucket_of t (ezcb_buckets st)) st 0) as Hs.
    destruct (unregister_chain cfg (Some t) fn ctx _ st 0)
      as [[chain' st1] removed].
    cbn [fst snd] in *. subst st1. unfold same_queue. state_simpl.
    by destruct (release_all_frame cfg
                   (filter (matches_request (Some t) fn ctx)
                      (table !!! bucket_of t (ezcb_buckets st))) st)
      as (_ & _ & -> & -> & ->).
  - pose proof (unregister_table_release cfg fn ctx table st 0) as Hs.
    destruct (unregister_table cfg fn ctx table st 0)
      as [[table' st1] removed].
    cbn [fst snd] in *. subst st1. unfold same_queue. state_simpl.
    by destruct (release_all_frame cfg
                   (filter (matches_request None fn ctx) (concat table)) st)
      as (_ & _ & -> & -> & ->).
Qed.

Lemma ezcb_deinit_queue_ok (st : ezcb_state) :
  queue_ok cfg st -> queue_ok cfg (ezcb_deinit cfg st).
Proof.
  intros Hq. unfold ezcb_deinit.
  destruct (ezcb_table st) as [table|]; [|done].
  destruct Hq as (Hs & Hh & Htl & Hlen).
  destruct (deinit_frame cfg table st) as (Hfh & Hft & Hfq).
  unfold queue_ok.
  destruct (EZCB_ENABLE_ISR cfg); state_simpl;
    rewrite ?Hfh, ?Hft, ?Hfq; split_and!; try done;
    try lia; unfold ring_size; lia.
Qed.

Lemma ezcb_trigger_isr_queue_ok (trigger : string) (data : Z)
    (st : ezcb_state) :
  queue_ok cfg st -> queue_ok cfg (ezcb_trigger_isr cfg trigger data st).1.
Proof.
  intros Hq. pose proof (pending_count_range cfg st Hq) as Hrange.
  destruct (Z.eq_dec (pending_count cfg st) (ring_size cfg - 1)) as [Hfull|Hne].
  - by rewrite (ezcb_trigger_isr_full cfg trigger data st Hq Hfull).
  - destruct (ezcb_trigger_isr_accepts cfg trigger data st Hq)
      as (st' & -> & Hq' & _); [lia|done].
Qed.

Lemma ezcb_trigger_queue_ok {W : Type}
    (call : Z -> Z -> Z -> W -> ezcb_result_t * W)
    (trigger : string) (data : Z) (st : ezcb_state) (w : W) :
  queue_ok cfg st ->
  queue_ok cfg (ezcb_trigger cfg call trigger data st w).1.1.
Proof.
  destruct (ezcb_trigger_frame cfg call trigger data st w)
    as (_ & Hh & Ht & Hq).
  by apply queue_ok_frame.
Qed.

Lemma ezcb_dispatch_queue_ok {W : Type}
    (call : Z -> Z -> Z -> W -> ezcb_result_t * W)
    (fuel : nat) (st st' : ezcb_state) (w w' : W) (fired : list ezcb_node) :
  queue_ok cfg st ->
  ezcb_dispatch cfg call fuel st w = Some (st', w', fired) ->
  queue_ok cfg st'.
Proof.
  revert st w st' w' fired.
  induction fuel as [|fuel IH]; intros st w st' w' fired Hq;
    cbn [ezcb_dispatch];
    destruct (negb (ezcb_evt_tail st =? ezcb_evt_head st));
    try done; try (by intros [= <- <- <-]).
  set (st1 := set_evt_tail
                (uint8_t ((ezcb_evt_tail st + 1) mod EZCB_EVENT_QUEUE_SIZE cfg))
                st).
  assert (Hq1 : queue_ok cfg st1).
  { destruct Hq as (Hs & Hh & Htl & Hlen).
    destruct (ring_next cfg (ezcb_evt_tail st) Hs Htl) as (_ & Hnext & _).
    unfold queue_ok, st1. state_simpl. split_and!; try done; lia. }
  pose proof (ezcb_trigger_queue_ok call
                (evt_trigger (ezcb_evt_queue st !!! Z.to_nat (ezcb_evt_tail st)))
                (evt_data (ezcb_evt_queue st !!! Z.to_nat (ezcb_evt_tail st)))
                st1 w Hq1) as Hq2.
  change (ezcb_evt_queue st) with (ezcb_evt_queue st1) in Hq2 |- * at 1.
  destruct (ezcb_trigger cfg call _ _ st1 w) as [[st2 w2] fired2].
  cbn [fst] in Hq2.
  destruct (ezcb_dispatch cfg call fuel st2 w2) as [[[st3 w3] fired3]|] eqn:Hd;
    [|done].
  intros [= <- <- <-]. by eapply IH.
Qed.

Lemma run_calls_queue_ok {W : Type}
    (call : Z -> Z -> Z -> W -> ezcb_result_t * W)
    (cs : list api_call) (st st' : ezcb_state) (w w' : W) :
  queue_ok cfg st ->
  run_calls cfg call cs st w = Some (st', w') ->
  queue_ok cfg st'.
Proof.
  revert st w. induction cs as [|c cs IH]; intros st w Hq;
    cbn [run_calls]; [by intros [= <- <-]|].
  destruct (run_call cfg call c st w) as [[st1 w1]|] eqn:Hc; [|done].
  apply IH. clear IH.
  destruct c as [h| |h r|t fn ctx|t data|t data|fuel]; cbn [run_call] in Hc.
  - injection Hc as <- <-.
    eapply same_queue_ok; [apply ezcb_init_same_queue | done].
  - injection Hc as <- <-. by apply ezcb_deinit_queue_ok.
  - destruct (ezcb_register_internal cfg h _ _ _ _ _ st) as [[st2 rc]|] eqn:Hr;
      [|done].
    injection Hc as <- <-.
    eapply same_queue_ok; [|done].
    by eapply ezcb_register_internal_same_queue.
  - injection Hc as <- <-.
    eapply same_queue_ok; [apply ezcb_unregister_same_queue | done].
  - pose proof (ezcb_trigger_queue_ok call t data st w Hq) as Ht.
    destruct (ezcb_trigger cfg call t data st w) as [[st2 w2] fired].
    by injection Hc as <- <-.
  - injection Hc as <- <-. by apply ezcb_trigger_isr_queue_ok.
  - destruct (ezcb_dispatch cfg call fuel st w) as [[[st2 w2] fired]|] eqn:Hd;
      [|done].
    injection Hc as <- <-. by eapply ezcb_dispatch_queue_ok.
Qed.

End QueueSafe.

(** X16. With EZCB_EVENT_QUEUE_SIZE positive, in either build and
    whatever calls of the API a client has made since program start, the
    two indices of the deferred queue are below
    min(EZCB_EVENT_QUEUE_SIZE, 256), hence inside the array: the slot
    that ezcb_trigger_isr writes and the slot that ezcb_dispatch reads
    exist. At most min(EZCB_EVENT_QUEUE_SIZE, 256) - 1 events are
    pending. *)
Theorem queue_indices_in_range (cfg : ezcb_config) {W : Type}
    (call : Z -> Z -> Z -> W -> ezcb_result_t * W)
    (cs : list api_call) (w0 w1 : W) (st : ezcb_state) :
  0 < EZCB_EVENT_QUEUE_SIZE cfg ->
  run_calls cfg call cs (initial_state cfg) w0 = Some (st, w1) ->
  length (ezcb_evt_queue st) = Z.to_nat (EZCB_EVENT_QUEUE_SIZE cfg)
  /\ 0 <= ezcb_evt_head st < Z.min (EZCB_EVENT_QUEUE_SIZE cfg) 256
  /\ 0 <= ezcb_evt_tail st < Z.min (EZCB_EVENT_QUEUE_SIZE cfg) 256
  /\ is_Some (ezcb_evt_queue st !! Z.to_nat (ezcb_evt_head st))
  /\ is_Some (ezcb_evt_queue st !! Z.to_nat (ezcb_evt_tail st))
  /\ 0 <= pending_count cfg st <= Z.min (EZCB_EVENT_QUEUE_SIZE cfg) 256 - 1.
Proof.
  intros Hsize Hrun.
  assert (Hq : queue_ok cfg st).
  { eapply run_calls_queue_ok; [|exact Hrun].
    unfold queue_ok, ring_size. cbn.
    split_and!; try done; try lia. by rewrite length_replicate. }
  pose proof (pending_count_range cfg st Hq) as Hpending.
  destruct Hq as (_ & Hh & Ht & Hlen). unfold ring_size in *.
  split_and!; try done; try lia; apply lookup_lt_is_Some; lia.
Qed.

Lemma queue_indices_in_range_witness :
  let cfg := wide_queue_config in
  let cs := (fun i => call_trigger_isr "tick" i) <$> seqZ 1 300 in
  let st := (enqueue_all cfg (numbered_events 300) (initial_state cfg)).1 in
  (0 < EZCB_EVENT_QUEUE_SIZE cfg
   /\ run_calls cfg logging_call cs (initial_state cfg) [] = Some (st, []))
  /\ length (ezcb_evt_queue st) = Z.to_nat (EZCB_EVENT_QUEUE_SIZE cfg)
  /\ 0 <= ezcb_evt_head st < Z.min (EZCB_EVENT_QUEUE_SIZE cfg) 256
  /\ 0 <= ezcb_evt_tail st < Z.min (EZCB_EVENT_QUEUE_SIZE cfg) 256
  /\ is_Some (ezcb_evt_queue st !! Z.to_nat (ezcb_evt_head st))
  /\ is_Some (ezcb_evt_queue st !! Z.to_nat (ezcb_evt_tail st))
  /\ 0 <= pending_count cfg st <= Z.min (EZCB_EVENT_QUEUE_SIZE cfg) 256 - 1.
Proof.
  intros cfg cs st.
  assert (Hsize : 0 < EZCB_EVENT_QUEUE_SIZE cfg) by reflexivity.
  assert (Hrun : run_calls cfg logging_call cs (initial_state cfg) []
                 = Some (st, []))
    by (vm_compute; reflexivity).
  split; [exact (conj Hsize Hrun)|].
  exact (queue_indices_in_range cfg logging_call cs [] [] st Hsize Hrun).
Defined.

(** ** A registry built without EZCB_NO_MALLOC *)

Section Dynamic.

Variable cfg : ezcb_config.
Hypothesis dynamic_build : EZCB_NO_MALLOC cfg = false.

Lemma dynamic_invariant_mono (k k' : Z) (st : ezcb_state) :
  k <= k' -> dynamic_invariant k st -> dynamic_invariant k' st.
Proof.
  intros Hk (Hok & Hcount & Hle & Hb & Hload).
  unfold dynamic_invariant. split_and!; try done; lia.
Qed.

Lemma dynamic_invariant_pos (k : Z) (st : ezcb_state) :
  dynamic_invariant k st -> 0 <= ezcb_count st <= k.
Proof. intros (_ & Hcount & Hle & _). unfold count_ok in Hcount. lia. Qed.

(** Writing the deferred queue keeps what holds of the registry. *)
Lemma dynamic_invariant_registry (k : Z) (st st' : ezcb_state) :
  registry_of st' = registry_of st ->
  dynamic_invariant k st -> dynamic_invariant k st'.
Proof.
  unfold registry_of. intros [= Ht Hb Hc Hf].
  unfold dynamic_invariant, table_ok, count_ok, registered_nodes.
  by rewrite Ht, Hb, Hc.
Qed.

Lemma dynamic_invariant_init (k : Z) (h : heap) (st : ezcb_state) :
  dynamic_invariant k st -> dynamic_invariant k (ezcb_init cfg h st).
Proof.
  intros Hinv. pose proof (dynamic_invariant_pos k st Hinv) as Hk.
  unfold ezcb_init. destruct (ezcb_table st) eqn:Ht; [done|].
  rewrite dynamic_build.
  unfold dynamic_invariant, table_ok, count_ok, registered_nodes.
  state_simpl. destruct (calloc_init h); split_and!; try done; lia.
Qed.

Lemma dynamic_invariant_deinit (k : Z) (st : ezcb_state) :
  dynamic_invariant k st -> dynamic_invariant k (ezcb_deinit cfg st).
Proof.
  intros Hinv. pose proof (dynamic_invariant_pos k st Hinv) as Hk.
  unfold ezcb_deinit. destruct (ezcb_table st) as [table|] eqn:Ht; [|done].
  unfold dynamic_invariant, table_ok, count_ok, registered_nodes.
  destruct (EZCB_ENABLE_ISR cfg); state_simpl; split_and!; try done; lia.
Qed.

(** Unlinking the nodes [gone] and releasing them keeps the count right. *)
Lemma release_count_ok (k : Z) (st : ezcb_state)
    (table table' : list (list ezcb_node)) (gone : list ezcb_node) :
  k < 2 ^ 60 ->
  ezcb_table st = Some table ->
  dynamic_invariant k st ->
  table_ok (set_table (Some table') (release_all cfg gone st)) ->
  concat table ≡ₚ gone ++ concat table' ->
  dynamic_invariant k (set_table (Some table') (release_all cfg gone st)).
Proof.
  intros Hk Ht (Hok & Hcount & Hle & Hb & Hload) Hok' Hperm.
  unfold count_ok, registered_nodes in Hcount. rewrite Ht in Hcount.
  pose proof (Permutation_length Hperm) as Hl. rewrite length_app in Hl.
  destruct (release_all_frame cfg gone st) as (_ & Hbk & _).
  unfold dynamic_invariant, count_ok, registered_nodes. state_simpl.
  rewrite release_all_count, Hbk by lia.
  split_and!; try done; lia.
Qed.

Lemma dynamic_invariant_unregister (k : Z) (trigger : option string)
    (fn ctx : Z) (st : ezcb_state) :
  k < 2 ^ 60 ->
  dynamic_invariant k st ->
  dynamic_invariant k (ezcb_unregister cfg trigger fn ctx st).1.
Proof.
  intros Hk Hinv.
  destruct (ezcb_table st) as [table|] eqn:Ht;
    [|by unfold ezcb_unregister; rewrite Ht].
  pose proof Hinv as (Hok & _).
  pose proof (ezcb_unregister_table_ok cfg trigger fn ctx st Hok) as Hok'.
  rewrite (ezcb_unregister_effect cfg trigger fn ctx st table Ht Hok) in *.
  cbn [fst] in *.
  apply (release_count_ok k st table); try done.
  rewrite <- filter_concat. symmetry. apply filter_app_complement.
Qed.

Lemma dynamic_invariant_trigger {W : Type}
    (call : Z -> Z -> Z -> W -> ezcb_result_t * W) (k : Z)
    (trigger : string) (data : Z) (st : ezcb_state) (w : W) :
  k < 2 ^ 60 ->
  dynamic_invariant k st ->
  dynamic_invariant k (ezcb_trigger cfg call trigger data st w).1.1.
Proof.
  intros Hk Hinv.
  destruct (ezcb_table st) as [table|] eqn:Ht;
    [|by unfold ezcb_trigger; rewrite Ht].
  pose proof Hinv as (Hok & _).
  pose proof (ezcb_trigger_table_ok cfg call trigger data st w Hok) as Hok'.
  destruct (ezcb_trigger_effect cfg call trigger data st w table Ht Hok)
    as (table' & Hst' & _ & Hperm).
  rewrite Hst' in *. by apply (release_count_ok k st table).
Qed.

Lemma dynamic_invariant_dispatch {W : Type}
    (call : Z -> Z -> Z -> W -> ezcb_result_t * W) (k : Z)
    (fuel : nat) (st st' : ezcb_state) (w w' : W) (fired : list ezcb_node) :
  k < 2 ^ 60 ->
  dynamic_invariant k st ->
  ezcb_dispatch cfg call fuel st w = Some (st', w', fired) ->
  dynamic_invariant k st'.
Proof.
  intros Hk. revert st w st' w' fired.
  induction fuel as [|fuel IH]; intros st w st' w' fired Hinv;
    cbn [ezcb_dispatch];
    destruct (negb (ezcb_evt_tail st =? ezcb_evt_head st));
    try done; try (by intros [= <- <- <-]).
  set (st1 := set_evt_tail
                (uint8_t ((ezcb_evt_tail st + 1) mod EZCB_EVENT_QUEUE_SIZE cfg))
                st).
  assert (Hinv1 : dynamic_invariant k st1)
    by (by apply (dynamic_invariant_registry k st)).
  pose proof (dynamic_invariant_trigger call k
                (evt_trigger (ezcb_evt_queue st !!! Z.to_nat (ezcb_evt_tail st)))
                (evt_data (ezcb_evt_queue st !!! Z.to_nat (ezcb_evt_tail st)))
                st1 w Hk Hinv1) as Hinv2.
  change (ezcb_evt_queue st) with (ezcb_evt_queue st1) in Hinv2 |- * at 1.
  destruct (ezcb_trigger cfg call _ _ st1 w) as [[st2 w2] fired2].
  cbn [fst] in Hinv2.
  destruct (ezcb_dispatch cfg call fuel st2 w2) as [[[st3 w3] fired3]|] eqn:Hd;
    [|done].
  intros [= <- <- <-]. by eapply IH.
Qed.

(** Allocation and insertion count the node they link. *)
Lemma dynamic_invariant_register_node (k : Z) (h : heap) (trigger : string)
    (priority fn ctx : Z) (once : bool) (st st' : ezcb_state) (rc : Z) :
  k < 2 ^ 60 ->
  dynamic_invariant k st ->
  register_node cfg h trigger priority fn ctx once st = Some (st', rc) ->
  dynamic_invariant (k + 1) st'.
Proof.
  intros Hk Hinv.
  destruct (ezcb_table st) as [table|] eqn:Ht.
  - pose proof Hinv as (Hok & Hcount & Hle & Hb & Hload).
    pose proof (register_node_spec cfg h trigger priority fn ctx once st
                  table Ht Hok) as Hspec.
    pose proof (ezcb_node_alloc_frame cfg h st) as (_ & _ & _ & Hnone).
    destruct (ezcb_node_alloc cfg h st) as [[a|] st_alloc];
      cbn [fst snd] in *.
    + cbn zeta in Hspec. destruct Hspec as (-> & Hok' & Hb' & Hperm).
      intros [= <- <-].
      unfold count_ok in *. apply Permutation_length in Hperm.
      cbn [length] in Hperm.
      unfold dynamic_invariant, count_ok. rewrite Hperm, Hb'.
      state_simpl. unfold size_t. rewrite Z.mod_small by lia.
      split_and!; try done; lia.
    + rewrite Hspec. intros [= <- <-].
      by apply (dynamic_invariant_mono k); [lia|].
  - unfold register_node.
    pose proof (ezcb_node_alloc_frame cfg h st) as (Hft & _ & _ & Hnone).
    destruct (ezcb_node_alloc cfg h st) as [[a|] st_alloc];
      cbn [fst snd] in *.
    + by rewrite Hft, Ht.
    + rewrite Hnone by done. intros [= <- <-].
      by apply (dynamic_invariant_mono k); [lia|].
Qed.

Lemma dynamic_invariant_register (k : Z) (h : heap) (trigger : string)
    (priority fn ctx : Z) (once : bool) (st st' : ezcb_state) (rc : Z) :
  k < 2 ^ 60 ->
  dynamic_invariant k st ->
  ezcb_register_internal cfg h trigger priority fn ctx once st
  = Some (st', rc) ->
  dynamic_invariant (k + 1) st'.
Proof.
  intros Hk Hinv. unfold ezcb_register_internal.
  fold (implicit_init cfg h st). rewrite dynamic_build.
  assert (Hinit : dynamic_invariant k (implicit_init cfg h st)).
  { unfold implicit_init. destruct (ezcb_table st); [done|].
    by apply dynamic_invariant_init. }
  revert Hinit. generalize (implicit_init cfg h st). clear st Hinv.
  intros st Hinv.
  pose proof (dynamic_invariant_pos k st Hinv) as Hc.
  pose proof Hinv as (Hok & Hcount & _ & Hb & Hload).
  unfold size_t. rewrite !(Z.mod_small (_ * _)) by lia.
  destruct (Z.geb_spec (ezcb_count st * 4) (ezcb_buckets st * 3))
    as [Hgrow|Hkeep]; [|by apply dynamic_invariant_register_node].
  destruct (calloc_resize h) eqn:Hcalloc.
  - destruct (ezcb_table st) as [table|] eqn:Ht;
      [|by unfold ezcb_resize; rewrite Hcalloc, Ht].
    unfold table_ok in Hok. rewrite Ht in Hok.
    destruct Hok as (Hbpos & _).
    destruct (ezcb_resize_spec h (ezcb_buckets st * 2) st table)
      as (new_table & -> & Hlen & Hplaced & Hperm); [lia | done | done |].
    cbn [negb Z.eqb].
    apply dynamic_invariant_register_node; [done|].
    unfold dynamic_invariant, table_ok, count_ok, registered_nodes in *.
    state_simpl. rewrite Ht in Hcount. rewrite Hperm.
    split_and!; try done; lia.
  - rewrite ezcb_resize_fails by done. cbn [negb Z.eqb].
    intros [= <- <-]. by apply (dynamic_invariant_mono k); [lia|].
Qed.

Lemma dynamic_invariant_run_call {W : Type}
    (call : Z -> Z -> Z -> W -> ezcb_result_t * W) (k : Z)
    (c : api_call) (st st' : ezcb_state) (w w' : W) :
  k < 2 ^ 60 ->
  dynamic_invariant k st ->
  run_call cfg call c st w = Some (st', w') ->
  dynamic_invariant (k + 1) st'.
Proof.
  intros Hk Hinv Hc.
  destruct c as [h| |h r|t fn ctx|t data|t data|fuel]; cbn [run_call] in Hc.
  - injection Hc as <- <-. apply (dynamic_invariant_mono k); [lia|].
    by apply dynamic_invariant_init.
  - injection Hc as <- <-. apply (dynamic_invariant_mono k); [lia|].
    by apply dynamic_invariant_deinit.
  - destruct (ezcb_register_internal cfg h _ _ _ _ _ st) as [[st2 rc]|] eqn:Hr;
      [|done].
    injection Hc as <- <-. by eapply dynamic_invariant_register.
  - injection Hc as <- <-. apply (dynamic_invariant_mono k); [lia|].
    by apply dynamic_invariant_unregister.
  - pose proof (dynamic_invariant_trigger call k t data st w Hk Hinv) as Ht.
    destruct (ezcb_trigger cfg call t data st w) as [[st2 w2] fired].
    injection Hc as <- <-. by apply (dynamic_invariant_mono k); [lia|].
  - injection Hc as <- <-. apply (dynamic_invariant_mono k); [lia|].
    apply (dynamic_invariant_registry k st); [|done].
    unfold ezcb_trigger_isr. by destruct (_ =? _).
  - destruct (ezcb_dispatch cfg call fuel st w) as [[[st2 w2] fired]|] eqn:Hd;
      [|done].
    injection Hc as <- <-. apply (dynamic_invariant_mono k); [lia|].
    by eapply dynamic_invariant_dispatch.
Qed.

Lemma dynamic_invariant_run_calls {W : Type}
    (call : Z -> Z -> Z -> W -> ezcb_result_t * W)
    (cs : list api_call) (k : Z) (st st' : ezcb_state) (w w' : W) :
  k + Z.of_nat (length cs) <= 2 ^ 60 ->
  dynamic_invariant k st ->
  run_calls cfg call cs st w = Some (st', w') ->
  dynamic_invariant (k + Z.of_nat (length cs)) st'.
Proof.
  revert k st w. induction cs as [|c cs IH]; intros k st w Hk Hinv;
    cbn [run_calls].
  - intros [= <- <-]. cbn. by rewrite Z.add_0_r.
  - cbn [length] in *.
    destruct (run_call cfg call c st w) as [[st1 w1]|] eqn:Hc; [|done].
    intros Hrun.
    replace (k + Z.of_nat (S (length cs)))
      with ((k + 1) + Z.of_nat (length cs)) by lia.
    eapply IH; [lia | | exact Hrun].
    eapply dynamic_invariant_run_call; [lia | done | done].
Qed.

End Dynamic.

(** X17. In a build with EZCB_NO_MALLOC, and in a build without it as
    long as the client has made at most 2^60 calls, whatever calls of the
    API the client has made since program start: [ezcb_count] is the
    number of linked nodes; the table has [ezcb_buckets] chains, at least
    one, and every linked node is in the chain that its trigger hashes
    to, also after the table has grown. So a ezcb_trigger call in which
    no callback stops invokes every node that is registered under the
    name. *)
Theorem registry_consistent (cfg : ezcb_config) {W : Type}
    (call : Z -> Z -> Z -> W -> ezcb_result_t * W)
    (cs : list api_call) (w0 w1 : W) (st : ezcb_state) :
  static_build_ok cfg
  \/ (EZCB_NO_MALLOC cfg = false /\ Z.of_nat (length cs) <= 2 ^ 60) ->
  run_calls cfg call cs (initial_state cfg) w0 = Some (st, w1) ->
  ezcb_count st = Z.of_nat (length (registered_nodes st))
  /\ (forall table,
        ezcb_table st = Some table ->
        0 < ezcb_buckets st
        /\ length table = Z.to_nat (ezcb_buckets st)
        /\ forall n, n ∈ concat table ->
             n ∈ table !!! bucket_of (node_trigger n) (ezcb_buckets st))
  /\ ((forall fn ctx data w, (call fn ctx data w).1 = EZCB_CONTINUE) ->
      forall trigger data w,
        (ezcb_trigger cfg call trigger data st w).2
        = filter (fun n => node_trigger n = trigger) (registered_nodes st)).
Proof.
  intros Hcfg Hrun.
  assert (Hok : table_ok st /\ count_ok st).
  { destruct Hcfg as [Hstatic|[Hm Hlen]].
    - by destruct (static_build_invariant cfg call cs w0 w1 st Hstatic Hrun)
        as (? & _ & ? & _).
    - destruct (dynamic_invariant_run_calls cfg Hm call cs 0
                  (initial_state cfg) st w0 w1) as (? & ? & _);
        [lia | | done | done].
      unfold dynamic_invariant, table_ok, count_ok. cbn.
      split_and!; try done; lia. }
  destruct Hok as [Hok Hcount]. split_and!; [done | |].
  - intros table Ht. unfold table_ok in Hok. rewrite Ht in Hok.
    destruct Hok as (Hb & Hlen & Hplaced). split_and!; [done | done |].
    intros n (j & c & Hj & Hn)%elem_of_concat.
    pose proof (chains_placed_lookup _ 0 j table c n Hplaced Hj Hn) as Hbj.
    cbn [Nat.add] in Hbj. rewrite Hbj.
    by rewrite (list_lookup_total_correct _ _ _ Hj).
  - intros Hcont trigger data w.
    destruct (ezcb_table st) as [table|] eqn:Ht.
    + rewrite (ezcb_trigger_continue cfg call Hcont _ _ _ _ table Ht).
      rewrite (registered_nodes_table st table Ht).
      symmetry. by apply filter_registered_bucket.
    + unfold ezcb_trigger, registered_nodes. by rewrite Ht.
Qed.

Lemma registry_consistent_witness :
  let cfg := default_config in
  let st := thirteen_registry in
  ((static_build_ok cfg
    \/ (EZCB_NO_MALLOC cfg = false
        /\ Z.of_nat (length growing_session) <= 2 ^ 60))
   /\ run_calls cfg logging_call growing_session (initial_state cfg) []
      = Some (st, []))
  /\ ezcb_count st = 13 /\ ezcb_buckets st = 32
  /\ ezcb_count st = Z.of_nat (length (registered_nodes st)).
Proof.
  intros cfg st.
  assert (Hcfg : static_build_ok cfg
                 \/ (EZCB_NO_MALLOC cfg = false
                     /\ Z.of_nat (length growing_session) <= 2 ^ 60)).
  { right. split; [reflexivity|]. vm_compute. intro. discriminate. }
  assert (Hrun : run_calls cfg logging_call growing_session
                   (initial_state cfg) []
                 = Some (st, []))
    by (vm_compute; reflexivity).
  split; [exact (conj Hcfg Hrun)|].
  split; [vm_compute; reflexivity|]. split; [vm_compute; reflexivity|].
  exact (proj1 (registry_consistent cfg logging_call growing_session [] []
                  st Hcfg Hrun)).
Defined.

(** ** The mutex of a thread-safe build *)

Lemma unregister_chain_mutex_spec (cfg : ezcb_config)
    (trigger : option string) (fn ctx : Z) (chain : list ezcb_node) :
  unregister_chain_mutex cfg trigger fn ctx chain
  = concat (replicate
              (length (filter (matches_request trigger fn ctx) chain))
              (ezcb_node_free_mutex cfg)).
Proof.
  induction chain as [|n next IH]; [done|]. cbn [unregister_chain_mutex].
  destruct (unregister_test trigger fn ctx n) eqn:Htest.
  - apply unregister_test_spec in Htest.
    rewrite filter_cons_True by done. cbn. by rewrite IH.
  - rewrite filter_cons_False; [done|].
    rewrite <- unregister_test_spec. by rewrite Htest.
Qed.

Lemma unregister_table_mutex_spec (cfg : ezcb_config) (fn ctx : Z)
    (table : list (list ezcb_node)) :
  unregister_table_mutex cfg fn ctx table
  = concat (replicate
              (length (filter (matches_request None fn ctx) (concat table)))
              (ezcb_node_free_mutex cfg)).
Proof.
  induction table as [|chain table IH]; [done|].
  cbn [unregister_table_mutex concat].
  rewrite IH, unregister_chain_mutex_spec, filter_app, length_app.
  by rewrite replicate_add, concat_app.
Qed.

(** X18. What ezcb_unregister does to the mutex: it locks, calls
    ezcb_node_free once for each node it removes (as many times as the
    number it returns), and unlocks. Under EZCB_NO_MALLOC each of these
    calls locks and unlocks the mutex again, inside the section that
    ezcb_unregister has opened: a call that removes a node locks the
    plain mutex while it holds it, and unlocks it in the end when it does
    not hold it. The discipline of the mutex is kept exactly when the
    build is without EZCB_NO_MALLOC or the call removes nothing. *)
Theorem unregister_mutex_ops (cfg : ezcb_config) (trigger : option string)
    (fn ctx : Z) (st : ezcb_state) :
  let removed := Z.to_nat (ezcb_unregister cfg trigger fn ctx st).2 in
  ezcb_unregister_mutex cfg trigger fn ctx st
  = [EZCB_MUTEX_LOCK]
    ++ concat (replicate removed
                 (if EZCB_NO_MALLOC cfg
                  then [EZCB_MUTEX_LOCK; EZCB_MUTEX_UNLOCK] else []))
    ++ [EZCB_MUTEX_UNLOCK]
  /\ (mutex_discipline false (ezcb_unregister_mutex cfg trigger fn ctx st)
      = true
      <-> EZCB_NO_MALLOC cfg = false \/ removed = 0%nat).
Proof.
  cbn zeta.
  assert (Hops : ezcb_unregister_mutex cfg trigger fn ctx st
                 = [EZCB_MUTEX_LOCK]
                   ++ concat (replicate
                                (Z.to_nat
                                   (ezcb_unregister cfg trigger fn ctx st).2)
                                (if EZCB_NO_MALLOC cfg
                                 then [EZCB_MUTEX_LOCK; EZCB_MUTEX_UNLOCK]
                                 else []))
                   ++ [EZCB_MUTEX_UNLOCK]).
  { unfold ezcb_unregister_mutex, ezcb_unregister.
    destruct (ezcb_table st) as [table|]; [|done].
    destruct trigger as [t|].
    - pose proof (unregister_chain_spec cfg (Some t) fn ctx
                    (table !!! bucket_of t (ezcb_buckets st)) st 0)
        as [_ Hr].
      rewrite unregister_chain_mutex_spec.
      destruct (unregister_chain cfg (Some t) fn ctx _ st 0)
        as [[chain' st1] removed].
      cbn [fst snd] in *. subst removed.
      by rewrite Z.add_0_l, Nat2Z.id.
    - pose proof (unregister_table_spec cfg fn ctx table st 0) as [_ Hr].
      rewrite unregister_table_mutex_spec.
      destruct (unregister_table cfg fn ctx table st 0)
        as [[table' st1] removed].
      cbn [fst snd] in *. subst removed.
      by rewrite Z.add_0_l, Nat2Z.id. }
  split; [exact Hops|]. rewrite Hops.
  generalize (Z.to_nat (ezcb_unregister cfg trigger fn ctx st).2).
  intros k. destruct (EZCB_NO_MALLOC cfg).
  - destruct k as [|k]; cbn; [by split; auto|].
    split; [done | by intros [|]].
  - assert (Hnil : concat (replicate k (@nil mutex_op)) = [])
      by (by induction k).
    rewrite Hnil. cbn. by split; auto.
Qed.

(** X19. What ezcb_register_internal does to the mutex. On an
    uninitialized registry it locks the mutex and only then, in
    ezcb_init, initializes it. Under EZCB_NO_MALLOC the discipline of the
    mutex is kept exactly when the registry is initialized and the call
    does not find the pool used up: ezcb_init, called with the mutex
    held, locks it again; and on an empty free list ezcb_node_alloc
    unlocks before it returns NULL and ezcb_register_internal unlocks
    once more. *)
Theorem register_mutex_ops (cfg : ezcb_config) (h : heap) (trigger : string)
    (st : ezcb_state) :
  let ops := ezcb_register_internal_mutex cfg h trigger st in
  (ezcb_table st = None ->
   exists rest, ops = EZCB_MUTEX_LOCK :: EZCB_MUTEX_INIT :: rest)
  /\ (EZCB_NO_MALLOC cfg = true ->
      (mutex_discipline false ops = true
       <-> is_Some (ezcb_table st)
           /\ (EZCB_MAX_TRIGGER_LENGTH cfg <= strlen trigger
               \/ ezcb_free_list st <> []))
      /\ (is_Some (ezcb_table st) ->
          strlen trigger < EZCB_MAX_TRIGGER_LENGTH cfg ->
          ezcb_free_list st = [] ->
          ops = [EZCB_MUTEX_LOCK; EZCB_MUTEX_UNLOCK; EZCB_MUTEX_UNLOCK])).
Proof.
  cbn zeta. unfold ezcb_register_internal_mutex. split.
  - intros Ht. unfold ezcb_init_mutex. rewrite Ht. cbn. by eexists.
  - intros Hm. rewrite Hm.
    destruct (ezcb_table st) as [table|] eqn:Ht.
    + unfold register_node_mutex, ezcb_node_alloc_mutex, ezcb_node_alloc.
      rewrite Hm.
      destruct (Z.geb_spec (strlen trigger) (EZCB_MAX_TRIGGER_LENGTH cfg))
        as [Hlong|Hfits].
      * split; [|lia]. cbn. split; [|done]. intros _. split; [done|].
        left. lia.
      * destruct (ezcb_free_list st) as [|a next] eqn:Hfree.
        -- cbn. split; [|done]. split; [done|].
           intros [_ [?|?]]; [lia|done].
        -- state_simpl. rewrite Ht. cbn. split; [|done].
           split; [|done]. intros _. split; [done|]. by right.
    + unfold ezcb_init_mutex. rewrite Ht, Hm. cbn.
      split; [|by intros [? ?]]. split; [done|]. by intros [[? ?] _].
Qed.

Lemma register_mutex_ops_witness :
  let cfg := one_bucket_config in
  let st := after_registering cfg
              (registration_of
                 <$> [beta_2; alpha_1; alpha_stop; beta_4; alpha_3; beta_2;
                      alpha_1; beta_4])
              (initial_state cfg) in
  (EZCB_NO_MALLOC cfg = true /\ is_Some (ezcb_table st)
   /\ strlen "tick" < EZCB_MAX_TRIGGER_LENGTH cfg
   /\ ezcb_free_list st = [])
  /\ ezcb_register_internal_mutex cfg heap_exhausted "tick" st
     = [EZCB_MUTEX_LOCK; EZCB_MUTEX_UNLOCK; EZCB_MUTEX_UNLOCK].
Proof.
  intros cfg st.
  assert (Hm : EZCB_NO_MALLOC cfg = true) by reflexivity.
  assert (Ht : is_Some (ezcb_table st)) by (vm_compute; eexists; reflexivity).
  assert (Hfits : strlen "tick" < EZCB_MAX_TRIGGER_LENGTH cfg)
    by (vm_compute; reflexivity).
  assert (Hfree : ezcb_free_list st = []) by (vm_compute; reflexivity).
  split; [exact (conj Hm (conj Ht (conj Hfits Hfree)))|].
  exact (proj2 (proj2 (register_mutex_ops cfg heap_exhausted "tick" st) Hm)
           Ht Hfits Hfree).
Defined.

(** ** After ezcb_unregister *)

(** X20. Once ezcb_unregister has run on a registry whose nodes are in
    the buckets of their triggers, no linked node matches its request: a
    second call with the same arguments returns 0 and changes nothing,
    and no ezcb_trigger call that follows, for whatever trigger, invokes
    a node that matches. *)
Theorem unregister_is_final (cfg : ezcb_config) {W : Type}
    (call : Z -> Z -> Z -> W -> ezcb_result_t * W)
    (trigger : option string) (fn ctx : Z) (st : ezcb_state) :
  table_ok st ->
  let st1 := (ezcb_unregister cfg trigger fn ctx st).1 in
  ezcb_unregister cfg trigger fn ctx st1 = (st1, 0)
  /\ Forall (fun n => ~ matches_request trigger fn ctx n)
            (registered_nodes st1)
  /\ forall t data w,
       Forall (fun n => ~ matches_request trigger fn ctx n)
              (ezcb_trigger cfg call t data st1 w).2.
Proof.
  intros Hok. cbn zeta.
  pose proof (ezcb_unregister_table_ok cfg trigger fn ctx st Hok) as Hok1.
  assert (Hnone : Forall (fun n => ~ matches_request trigger fn ctx n)
                    (registered_nodes
                       (ezcb_unregister cfg trigger fn ctx st).1)).
  { destruct (ezcb_table st) as [table|] eqn:Ht.
    - rewrite (ezcb_unregister_effect cfg trigger fn ctx st table Ht Hok).
      cbn [fst]. unfold registered_nodes. state_simpl.
      rewrite <- filter_concat.
      apply Forall_forall. by intros n [Hn _]%list_elem_of_filter.
    - unfold ezcb_unregister, registered_nodes. rewrite Ht. cbn.
      rewrite Ht. constructor. }
  split_and!; [|done|].
  - revert Hok1 Hnone.
    generalize ((ezcb_unregister cfg trigger fn ctx st).1).
    intros st1 Hok1 Hnone.
    destruct (ezcb_table st1) as [table1|] eqn:Ht1;
      [|by unfold ezcb_unregister; rewrite Ht1].
    rewrite (ezcb_unregister_effect cfg trigger fn ctx st1 table1 Ht1 Hok1).
    rewrite (registered_nodes_table st1 table1 Ht1) in Hnone.
    rewrite filter_id_fmap by done.
    rewrite (filter_none (matches_request trigger fn ctx)).
    + cbn. by rewrite set_table_same.
    + intros n Hn. by eapply Forall_forall in Hnone.
  - intros t data w. apply Forall_forall. intros n Hn.
    apply (ezcb_trigger_nodes cfg call t data _ w n) in Hn.
    by eapply Forall_forall in Hnone.
Qed.

Lemma unregister_is_final_witness :
  let cfg := one_bucket_config in
  let st := collide_registry in
  let st1 := (ezcb_unregister cfg (Some "alpha"%string) 0 0 st).1 in
  table_ok st
  /\ ezcb_unregister cfg (Some "alpha"%string) 0 0 st1 = (st1, 0)
  /\ (ezcb_trigger cfg logging_call "alpha" 0 st1 []).2 = [].
Proof.
  intros cfg st st1.
  assert (Hok : table_ok st) by by_computation.
  split; [exact Hok|].
  split; [|vm_compute; reflexivity].
  exact (proj1 (unregister_is_final cfg logging_call (Some "alpha"%string)
                  0 0 st Hok)).
Defined.

(** ** ezcb_dispatch returns *)

(** X21. With EZCB_EVENT_QUEUE_SIZE positive, in either build and
    whatever calls of the API a client has made since program start, the
    loop of ezcb_dispatch ends within 255 iterations (nothing being
    enqueued meanwhile): the call returns, it has called ezcb_trigger
    once for each pending event, oldest first, and no event is pending
    afterwards. *)
Theorem dispatch_returns (cfg : ezcb_config) {W : Type}
    (call : Z -> Z -> Z -> W -> ezcb_result_t * W)
    (cs : list api_call) (w0 w1 : W) (st : ezcb_state) (w : W) :
  0 < EZCB_EVENT_QUEUE_SIZE cfg ->
  run_calls cfg call cs (initial_state cfg) w0 = Some (st, w1) ->
  exists st' w' fired,
    ezcb_dispatch cfg call 256 st w = Some (st', w', fired)
    /\ (length (pending_events cfg st) <= 255)%nat
    /\ run_triggers cfg call (pending_events cfg st) st w
       = (set_evt_tail (ezcb_evt_tail st) st', w', fired)
    /\ ezcb_evt_tail st' = ezcb_evt_head st'
    /\ pending_events cfg st' = [].
Proof.
  intros Hsize Hrun.
  assert (Hq : queue_ok cfg st).
  { eapply run_calls_queue_ok; [|exact Hrun].
    unfold queue_ok, ring_size. cbn.
    split_and!; try done; try lia. by rewrite length_replicate. }
  pose proof (pending_count_range cfg st Hq) as Hpending.
  assert (Hcap : ring_size cfg <= 256) by (unfold ring_size; lia).
  rewrite (ezcb_dispatch_run cfg call 256 st w Hq) by lia.
  pose proof (run_triggers_frame cfg call (pending_events cfg st) st w)
    as Hframe.
  destruct (run_triggers cfg call (pending_events cfg st) st w)
    as [[st' w'] fired] eqn:Hr.
  cbn [fst snd] in Hframe. destruct Hframe as (_ & Hh & Ht & _).
  eexists _, w', fired. split_and!; [reflexivity | | | |].
  - unfold pending_events. rewrite length_queue_slice. lia.
  - f_equal. f_equal. destruct st'. cbn in *. by subst.
  - state_simpl. done.
  - unfold pending_events, pending_count. state_simpl.
    rewrite Hh, Z.sub_diag, Z.mod_0_l; [done|]. unfold ring_size. lia.
Qed.

Lemma dispatch_returns_witness :
  let cfg := static_config in
  let cs := tick_registrations
            ++ [call_trigger_isr "tick" 10; call_trigger_isr "tock" 11] in
  let st := (ezcb_trigger_isr cfg "tock" 11
               (ezcb_trigger_isr cfg "tick" 10 four_registry).1).1 in
  (0 < EZCB_EVENT_QUEUE_SIZE cfg
   /\ run_calls cfg logging_call cs (initial_state cfg) [] = Some (st, []))
  /\ exists st' w' fired,
       ezcb_dispatch cfg logging_call 256 st [] = Some (st', w', fired)
       /\ (length (pending_events cfg st) <= 255)%nat
       /\ run_triggers cfg logging_call (pending_events cfg st) st []
          = (set_evt_tail (ezcb_evt_tail st) st', w', fired)
       /\ ezcb_evt_tail st' = ezcb_evt_head st'
       /\ pending_events cfg st' = [].
Proof.
  intros cfg cs st.
  assert (Hsize : 0 < EZCB_EVENT_QUEUE_SIZE cfg) by reflexivity.
  assert (Hrun : run_calls cfg logging_call cs (initial_state cfg) []
                 = Some (st, []))
    by (vm_compute; reflexivity).
  split; [exact (conj Hsize Hrun)|].
  exact (dispatch_returns cfg logging_call cs [] [] st [] Hsize Hrun).
Defined.

(** ** A register call on an uninitialized registry *)

(** When ezcb_init sets the table up (always under EZCB_NO_MALLOC, when
    its calloc succeeds otherwise), a register call on an uninitialized
    registry returns, and leaves the registry initialized. It returns 0
    or -1: 0 exactly when a node is to be had (under EZCB_NO_MALLOC the
    name fits and the pool is not empty; otherwise malloc succeeds), and
    then that node, carrying the arguments, is the one linked node; on -1
    the registry is the empty one that ezcb_init has made. *)
Lemma register_on_uninitialized (cfg : ezcb_config) (h : heap)
    (trigger : string) (priority fn ctx : Z) (once : bool)
    (st : ezcb_state) :
  ezcb_table st = None ->
  0 < EZCB_MAX_BUCKETS cfg ->
  EZCB_NO_MALLOC cfg = true \/ calloc_init h = true ->
  exists st' rc,
    ezcb_register_internal cfg h trigger priority fn ctx once st
    = Some (st', rc)
    /\ is_Some (ezcb_table st')
    /\ (rc = 0 \/ rc = -1)
    /\ (rc = 0 <->
        if EZCB_NO_MALLOC cfg
        then strlen trigger < EZCB_MAX_TRIGGER_LENGTH cfg
             /\ 0 < EZCB_MAX_NODES cfg
        else is_Some (malloc_node h))
    /\ (rc = -1 -> st' = ezcb_init cfg h st)
    /\ (rc = 0 ->
        ezcb_count st' = 1
        /\ exists a,
             registered_nodes st'
             = [new_node a trigger priority fn ctx once]).
Proof.
  intros Ht Hmax Hres.
  set (st0 := ezcb_init cfg h st).
  pose proof (ezcb_init_table cfg h st Ht Hres) as Ht0. fold st0 in Ht0.
  assert (Hok0 : table_ok st0).
  { apply ezcb_init_table_ok; [done|]. unfold table_ok. by rewrite Ht. }
  assert (Hc0 : ezcb_count st0 = 0).
  { unfold st0, ezcb_init. rewrite Ht. by destruct (EZCB_NO_MALLOC cfg). }
  assert (Hnil : forall n, concat (replicate n (@nil ezcb_node)) = [])
    by (intros n; by induction n).
  assert (Hreg0 : registered_nodes st0 = []).
  { unfold registered_nodes. by rewrite Ht0, Hnil. }
  assert (Hsome0 : is_Some (ezcb_table st0)) by (by rewrite Ht0; eexists).
  (* from ezcb_node_alloc on: 0 exactly when a node is had *)
  assert (Hnode : exists st' rc,
            register_node cfg h trigger priority fn ctx once st0
            = Some (st', rc)
            /\ is_Some (ezcb_table st')
            /\ (rc = 0 \/ rc = -1)
            /\ (rc = 0 <-> is_Some (ezcb_node_alloc cfg h st0).1)
            /\ (rc = -1 -> st' = st0)
            /\ (rc = 0 ->
                ezcb_count st' = 1
                /\ exists a,
                     registered_nodes st'
                     = [new_node a trigger priority fn ctx once])).
  { pose proof (register_node_spec cfg h trigger priority fn ctx once
                  st0 _ Ht0 Hok0) as Hspec.
    pose proof (ezcb_node_alloc_frame cfg h st0) as (_ & _ & Hfc & _).
    destruct (ezcb_node_alloc cfg h st0) as [[a|] st_alloc];
      cbn [fst snd] in *.
    - cbn zeta in Hspec. destruct Hspec as (Hrun & _ & _ & Hperm).
      rewrite Hreg0 in Hperm. apply Permutation_singleton_r in Hperm.
      eexists _, 0.
      split_and!; [exact Hrun | by eexists | by left | | done |].
      + split; [by eexists | done].
      + intros _. split; [|by exists a]. state_simpl. by rewrite Hc0.
    - exists st0, (-1).
      split_and!; [done | done | by right | | done | done].
      split; [done | by intros [? ?]]. }
  destruct Hnode as (st' & rc & Hrun & Hsome & Hrc & Hiff & Hfail & Hlink).
  unfold ezcb_register_internal. rewrite Ht. fold st0.
  unfold ezcb_node_alloc in Hiff.
  destruct (EZCB_NO_MALLOC cfg) eqn:Hm.
  - destruct (Z.geb_spec (strlen trigger) (EZCB_MAX_TRIGGER_LENGTH cfg))
      as [Hlong|Hfits].
    { exists st0, (-1).
      split_and!; [done | done | by right | | done | done].
      split; [done | lia]. }
    exists st', rc. split_and!; try done. rewrite Hiff.
    assert (Hfree0 : ezcb_free_list st0
                     = reverse (seqZ 0 (EZCB_MAX_NODES cfg))).
    { unfold st0, ezcb_init. rewrite Ht, Hm. state_simpl.
      by rewrite foldl_cons_reverse, app_nil_r. }
    pose proof (f_equal length Hfree0) as Hlen.
    rewrite length_reverse, length_seqZ in Hlen.
    destruct (ezcb_free_list st0) as [|a next]; cbn [fst length] in *.
    + split; [by intros [? ?] | lia].
    + split; [lia | by eexists].
  - assert (Hb0 : ezcb_buckets st0 = 16).
    { unfold st0, ezcb_init. by rewrite Ht, Hm. }
    rewrite Hc0, Hb0.
    change (size_t (0 * 4) >=? size_t (16 * 3)) with false. cbn match.
    exists st', rc. by split_and!.
Qed.
